(** * The openBuildNet bridge of EnergyPlus (third_party/BCVTB/openbuildnet.cpp)

    A shallow embedding of the two signal mailboxes, the node callbacks, the
    node thread controller, the configuration reader and the exchange gateway,
    followed by the properties established about them.

    Conventions.
    - C++ [int] and [std::size_t] values are integers of [Z]; the conversions
      between them ([to_int], [to_size_t]) are written out.
    - [double] is the binary64 type [float] of the kernel.
    - The process-wide variables of the namespace are the fields of [World].
      [history] is the only field the source does not have: it records, in
      order, the mailbox operations and port accesses that were performed.
    - A blocking wait on a condition variable is driven by the list of
      wake-ups the waiting thread receives from its peer; a wait that is never
      satisfied ends in [Blocked]. *)

From Stdlib Require Import ZArith List String Ascii Bool Lia.
From Stdlib Require Import Floats.PrimFloat.
Import ListNotations.
Local Open Scope string_scope.
Local Open Scope list_scope.
Local Open Scope Z_scope.

(** ** Integer types *)

Definition INT_MIN : Z := - 2 ^ 31.
Definition INT_MAX : Z := 2 ^ 31 - 1.
Definition SIZE_MAX : Z := 2 ^ 64 - 1.

(** Conversion of an integer to [int] (two's complement wrap-around). *)
Definition to_int (z : Z) : Z := (z + 2 ^ 31) mod 2 ^ 32 - 2 ^ 31.

(** Conversion of an integer to [std::size_t] (64 bits, modular). *)
Definition to_size_t (z : Z) : Z := z mod 2 ^ 64.


(** [#define NDBLMAX 1024] *)
Definition NDBLMAX : Z := 1024.

(** ** Signals (enumerations of openbuildnet.h, by the names the source uses) *)

Inductive EPlusSignalToOBN : Type :=
| OBNSIG_NONE
| OBNSIG_DONE
| OBNSIG_TERM
| OBNSIG_EXIT.

Inductive OBNSignalToEPlus : Type :=
| EPSIG_NONE
| EPSIG_START
| EPSIG_Y
| EPSIG_X
| EPSIG_TERM
| EPSIG_QUIT
| EPSIG_TIMEOUT.

Definition EPlusSignalToOBN_eqb (a b : EPlusSignalToOBN) : bool :=
  match a, b with
  | OBNSIG_NONE, OBNSIG_NONE | OBNSIG_DONE, OBNSIG_DONE
  | OBNSIG_TERM, OBNSIG_TERM | OBNSIG_EXIT, OBNSIG_EXIT => true
  | _, _ => false
  end.

Definition OBNSignalToEPlus_eqb (a b : OBNSignalToEPlus) : bool :=
  match a, b with
  | EPSIG_NONE, EPSIG_NONE | EPSIG_START, EPSIG_START | EPSIG_Y, EPSIG_Y
  | EPSIG_X, EPSIG_X | EPSIG_TERM, EPSIG_TERM | EPSIG_QUIT, EPSIG_QUIT
  | EPSIG_TIMEOUT, EPSIG_TIMEOUT => true
  | _, _ => false
  end.

(** Lifecycle state of a node ([_node_state] of the node base class). *)
Inductive NodeState : Type :=
| NODE_STOPPED
| NODE_STARTED
| NODE_RUNNING
| NODE_ERROR.

(** ** The node, its thread and the process-wide variables *)

(** Work items of the node's own event queue ([postCallbackEvent]). *)
Inductive NodeCallback : Type :=
| CallHandleEPlusSignal.

(** [class MQTTNodeEPlus]: the two ports hold vectors of doubles; the name,
    workspace, server address, lifecycle state, clock and event queue are the
    parts of the base class the bridge touches. *)
Record MQTTNodeEPlus : Type := mkNode {
  node_name : string;
  node_workspace : string;
  server_address : option string;
  _node_state : NodeState;
  m_double_input : list float;
  m_double_output : list float;
  currentSimulationTime : float;
  callback_queue : list NodeCallback
}.

(** [class EPlusOBNThread]: [m_thread] is represented by its [joinable()]. *)
Record EPlusOBNThread : Type := mkThread {
  m_thread_joinable : bool;
  m_obnnode : MQTTNodeEPlus
}.

(** What was done, in order. *)
Inductive Event : Type :=
| EvSignalEPlus (sig : OBNSignalToEPlus)    (* signalEPlus(sig) *)
| EvResetOBNSignal                          (* resetOBNSignal() *)
| EvWaitOBN (sig : OBNSignalToEPlus)        (* waitforOBNSignal returned sig *)
| EvSignalOBN (sig : EPlusSignalToOBN)      (* signalOBN(sig) *)
| EvResetEPlusSignal                        (* resetEPlusSignal() *)
| EvNodeState (s : NodeState)               (* _node_state = s *)
| EvSetOutputValues (nDbl : Z)              (* setOutputValues(nDbl, ...) *)
| EvGetInputValues (ret : Z)                (* getInputValues(...) returned ret *)
| EvJoin.                                   (* m_thread.join() *)

Record World : Type := mkWorld {
  quitIfOBNTerminates : bool;
  default_obn_timeout : Z;
  eplus_signal_to_obn : EPlusSignalToOBN;
  obn_signal_to_eplus : OBNSignalToEPlus;
  obn_thread : option EPlusOBNThread;
  history : list Event
}.

Definition set_quitIfOBNTerminates (b : bool) (g : World) : World :=
  mkWorld b (default_obn_timeout g) (eplus_signal_to_obn g)
          (obn_signal_to_eplus g) (obn_thread g) (history g).

Definition set_default_obn_timeout (t : Z) (g : World) : World :=
  mkWorld (quitIfOBNTerminates g) t (eplus_signal_to_obn g)
          (obn_signal_to_eplus g) (obn_thread g) (history g).

Definition set_eplus_signal_to_obn (s : EPlusSignalToOBN) (g : World) : World :=
  mkWorld (quitIfOBNTerminates g) (default_obn_timeout g) s
          (obn_signal_to_eplus g) (obn_thread g) (history g).

Definition set_obn_signal_to_eplus (s : OBNSignalToEPlus) (g : World) : World :=
  mkWorld (quitIfOBNTerminates g) (default_obn_timeout g) (eplus_signal_to_obn g)
          s (obn_thread g) (history g).

Definition set_obn_thread (t : option EPlusOBNThread) (g : World) : World :=
  mkWorld (quitIfOBNTerminates g) (default_obn_timeout g) (eplus_signal_to_obn g)
          (obn_signal_to_eplus g) t (history g).

Definition log (e : Event) (g : World) : World :=
  mkWorld (quitIfOBNTerminates g) (default_obn_timeout g) (eplus_signal_to_obn g)
          (obn_signal_to_eplus g) (obn_thread g) (history g ++ [e]).

Definition set_m_obnnode (n : MQTTNodeEPlus) (t : EPlusOBNThread) : EPlusOBNThread :=
  mkThread (m_thread_joinable t) n.

Definition set_m_thread_joinable (b : bool) (t : EPlusOBNThread) : EPlusOBNThread :=
  mkThread b (m_obnnode t).

Definition set_node_state (s : NodeState) (n : MQTTNodeEPlus) : MQTTNodeEPlus :=
  mkNode (node_name n) (node_workspace n) (server_address n) s
         (m_double_input n) (m_double_output n) (currentSimulationTime n)
         (callback_queue n).

Definition set_m_double_output (v : list float) (n : MQTTNodeEPlus) : MQTTNodeEPlus :=
  mkNode (node_name n) (node_workspace n) (server_address n) (_node_state n)
         (m_double_input n) v (currentSimulationTime n) (callback_queue n).

Definition set_server_address (a : string) (n : MQTTNodeEPlus) : MQTTNodeEPlus :=
  mkNode (node_name n) (node_workspace n) (Some a) (_node_state n)
         (m_double_input n) (m_double_output n) (currentSimulationTime n)
         (callback_queue n).

Definition postCallbackEvent (c : NodeCallback) (n : MQTTNodeEPlus) : MQTTNodeEPlus :=
  mkNode (node_name n) (node_workspace n) (server_address n) (_node_state n)
         (m_double_input n) (m_double_output n) (currentSimulationTime n)
         (callback_queue n ++ [c]).

(** ** Outcomes of a call *)

Inductive Outcome (A : Type) : Type :=
| Returned (a : A) (g : World)   (* the call returned [a] *)
| Blocked (g : World)            (* the calling thread waits forever *)
| NullDeref (g : World).         (* a member was accessed through a null pointer *)

Arguments Returned {A} a g.
Arguments Blocked {A} g.
Arguments NullDeref {A} g.

Definition M (A : Type) : Type := World -> Outcome A.

Definition ret {A} (a : A) : M A := fun g => Returned a g.

Definition bind {A B} (c : M A) (k : A -> M B) : M B :=
  fun g => match c g with
           | Returned a g' => k a g'
           | Blocked g' => Blocked g'
           | NullDeref g' => NullDeref g'
           end.

Notation "x <- c ;; k" := (bind c (fun x => k))
  (at level 61, c at next level, right associativity).
Notation "c ;;; k" := (bind c (fun _ => k))
  (at level 61, right associativity).

Definition world_of {A} (o : Outcome A) : World :=
  match o with
  | Returned _ g | Blocked g | NullDeref g => g
  end.

Definition returned {A} (o : Outcome A) : option A :=
  match o with
  | Returned a _ => Some a
  | _ => None
  end.

(** The events a run from [g] to [g'] appended to the history. *)
Definition events_since (g g' : World) : list Event :=
  skipn (List.length (history g)) (history g').

(** ** Condition variables *)

(** One wake-up of a thread blocked on a condition variable: the time since
    the wait began, in seconds, and the value the mailbox holds at that
    moment (what the peer thread stored last). *)
Record Wake (S : Type) : Type := mkWake {
  elapsed : Z;
  seen : S
}.

Arguments mkWake {S} elapsed seen.
Arguments elapsed {S} w.
Arguments seen {S} w.

(** [cv.wait(lock, pred)], that is [while (!pred()) wait(lock);].  The result
    is the final mailbox value and whether the predicate held; [false] means
    that no wake-up ever satisfies it: the thread never resumes. *)
Fixpoint cv_wait {S : Type} (pred : S -> bool) (cur : S) (wakes : list (Wake S))
  : bool * S :=
  if pred cur then (true, cur)
  else match wakes with
       | [] => (false, cur)
       | w :: rest => cv_wait pred (seen w) rest
       end.

(** [cv.wait_for(lock, seconds(t), pred)]: the same loop, left with the
    predicate's value as soon as the deadline has passed. *)
Fixpoint cv_wait_for {S : Type} (t : Z) (pred : S -> bool) (cur : S)
         (wakes : list (Wake S)) : bool * S :=
  if pred cur then (true, cur)
  else match wakes with
       | [] => (false, cur)
       | w :: rest =>
           if elapsed w <=? t then cv_wait_for t pred (seen w) rest
           else (false, cur)
       end.

(** ** The two mailboxes *)

Definition is_OBNSIG (s : EPlusSignalToOBN) : bool :=
  negb (EPlusSignalToOBN_eqb s OBNSIG_NONE).

Definition is_EPSIG (s : OBNSignalToEPlus) : bool :=
  negb (OBNSignalToEPlus_eqb s EPSIG_NONE).

Definition signalEPlus (sig : OBNSignalToEPlus) : M unit :=
  fun g => Returned tt (log (EvSignalEPlus sig) (set_obn_signal_to_eplus sig g)).

Definition waitforEPlusSignal (wakes : list (Wake EPlusSignalToOBN))
  : M EPlusSignalToOBN :=
  fun g =>
    if is_OBNSIG (eplus_signal_to_obn g) then Returned (eplus_signal_to_obn g) g
    else match cv_wait is_OBNSIG (eplus_signal_to_obn g) wakes with
         | (true, s) => Returned s (set_eplus_signal_to_obn s g)
         | (false, s) => Blocked (set_eplus_signal_to_obn s g)
         end.

Definition resetEPlusSignal : M unit :=
  fun g => Returned tt (log EvResetEPlusSignal (set_eplus_signal_to_obn OBNSIG_NONE g)).

Definition getOBNSignal : M OBNSignalToEPlus :=
  fun g => Returned (obn_signal_to_eplus g) g.

Definition getOBNSignalName (sig : OBNSignalToEPlus) : string :=
  match sig with
  | EPSIG_NONE => "NONE"
  | EPSIG_START => "START"
  | EPSIG_Y => "UPDATE_Y"
  | EPSIG_X => "UPDATE_X"
  | EPSIG_TERM => "TERMINATE"
  | EPSIG_QUIT => "QUIT"
  | EPSIG_TIMEOUT => "TIMEOUT"
  end.

Definition resetOBNSignal : M unit :=
  fun g => Returned tt (log EvResetOBNSignal (set_obn_signal_to_eplus EPSIG_NONE g)).

Definition waitforOBNSignal (timeout : Z) (wakes : list (Wake OBNSignalToEPlus))
  : M OBNSignalToEPlus :=
  fun g =>
    if is_EPSIG (obn_signal_to_eplus g) then
      Returned (obn_signal_to_eplus g) (log (EvWaitOBN (obn_signal_to_eplus g)) g)
    else
      let timeout := if timeout <=? 0 then default_obn_timeout g else timeout in
      if timeout <=? 0 then
        match cv_wait is_EPSIG (obn_signal_to_eplus g) wakes with
        | (true, s) => Returned s (log (EvWaitOBN s) (set_obn_signal_to_eplus s g))
        | (false, s) => Blocked (set_obn_signal_to_eplus s g)
        end
      else
        match cv_wait_for timeout is_EPSIG (obn_signal_to_eplus g) wakes with
        | (true, s) => Returned s (log (EvWaitOBN s) (set_obn_signal_to_eplus s g))
        | (false, s) =>
            Returned EPSIG_TIMEOUT (log (EvWaitOBN EPSIG_TIMEOUT) (set_obn_signal_to_eplus s g))
        end.

Definition setOBNTimeout (timeout : Z) : M unit :=
  fun g => Returned tt (set_default_obn_timeout timeout g).

(** ** Strings and streams of the standard library, as the reader uses them *)

Definition newline : ascii := "010"%char.
Definition tab : ascii := "009"%char.

(** [const std::string spacechars(" \t")] *)
Definition spacechars : string := String " "%char (String tab EmptyString).

Fixpoint mem_char (c : ascii) (chars : string) : bool :=
  match chars with
  | EmptyString => false
  | String d chars' => Ascii.eqb c d || mem_char c chars'
  end.

(** [s.find_first_of(chars)]; [None] is [std::string::npos]. *)
Fixpoint find_first_of (s chars : string) : option nat :=
  match s with
  | EmptyString => None
  | String c s' =>
      if mem_char c chars then Some O
      else option_map S (find_first_of s' chars)
  end.

(** [s.substr(pos)] for [pos <= s.size()]. *)
Fixpoint substr_from (pos : nat) (s : string) : string :=
  match pos, s with
  | O, _ => s
  | S p, String _ s' => substr_from p s'
  | S _, EmptyString => EmptyString
  end.

(** [s.substr(0, n)] *)
Fixpoint substr_to (n : nat) (s : string) : string :=
  match n, s with
  | O, _ => EmptyString
  | S p, String c s' => String c (substr_to p s')
  | S _, EmptyString => EmptyString
  end.

Fixpoint find_first_not_of0 (s chars : string) : option nat :=
  match s with
  | EmptyString => None
  | String c s' =>
      if mem_char c chars then option_map S (find_first_not_of0 s' chars)
      else Some O
  end.

(** [s.find_first_not_of(chars, pos)] *)
Definition find_first_not_of (s chars : string) (pos : nat) : option nat :=
  option_map (Nat.add pos) (find_first_not_of0 (substr_from pos s) chars).

Definition empty (s : string) : bool :=
  match s with
  | EmptyString => true
  | _ => false
  end.

(** [isspace] and [isdigit] of the C locale. *)
Definition isspace (c : ascii) : bool :=
  let n := nat_of_ascii c in
  Nat.eqb n 32 || (Nat.leb 9 n && Nat.leb n 13).

Definition digit_of (c : ascii) : option Z :=
  let n := nat_of_ascii c in
  if Nat.leb 48 n && Nat.leb n 57 then Some (Z.of_nat n - 48) else None.

Fixpoint atoi_digits (acc : Z) (s : string) : Z :=
  match s with
  | EmptyString => acc
  | String c s' =>
      match digit_of c with
      | Some d => atoi_digits (10 * acc + d) s'
      | None => acc
      end
  end.

Fixpoint atoi_skip (s : string) : string :=
  match s with
  | EmptyString => EmptyString
  | String c s' => if isspace c then atoi_skip s' else s
  end.

Definition LONG_MIN : Z := - 2 ^ 63.
Definition LONG_MAX : Z := 2 ^ 63 - 1.

(** [strtol(s, NULL, 10)]: leading white space, an optional sign, then the
    longest run of decimal digits; a value outside [long] is clamped. *)
Definition strtol (s : string) : Z :=
  let v := match atoi_skip s with
           | String "-"%char s' => - atoi_digits 0 s'
           | String "+"%char s' => atoi_digits 0 s'
           | s' => atoi_digits 0 s'
           end in
  Z.max LONG_MIN (Z.min LONG_MAX v).

(** [atoi] of the C library, an [int].  C leaves a value outside [int]
    undefined; the library of the platform returns [(int) strtol(s, NULL, 10)],
    which is what is taken here. *)
Definition atoi (s : string) : Z := to_int (strtol s).

(** An input file stream: the characters not yet extracted and two of the
    state bits. *)
Record ifstream : Type := mkStream {
  remaining : string;
  eofbit : bool;
  failbit : bool
}.

(** Characters up to the next newline (extracted, not stored), the rest, and
    whether the end of the file was reached instead of a newline. *)
Fixpoint read_line (s : string) : string * string * bool :=
  match s with
  | EmptyString => (EmptyString, EmptyString, true)
  | String c s' =>
      if Ascii.eqb c newline then (EmptyString, s', false)
      else let '(l, r, e) := read_line s' in (String c l, r, e)
  end.

(** [std::getline(stream, line)]: on a stream that is not good nothing is
    extracted and [failbit] is set; otherwise the line is erased and
    refilled, [eofbit] is set when the end of the file ends the line, and
    [failbit] when not a single character was extracted. *)
Definition getline (cf : ifstream) (line : string) : string * ifstream :=
  if eofbit cf || failbit cf then (line, mkStream (remaining cf) (eofbit cf) true)
  else match remaining cf with
       | EmptyString => (EmptyString, mkStream EmptyString true true)
       | _ => let '(l, r, e) := read_line (remaining cf) in (l, mkStream r e false)
       end.

(** A stream in the states the reader can meet: it has not failed, or it is
    at the end of the file. *)
Definition readable (cf : ifstream) : Prop := failbit cf = false \/ eofbit cf = true.

(** The files the process can open, by name. *)
Definition FileSystem : Type := string -> option string.

(** What the node framework answers while a node is set up. *)
Record Framework : Type := mkFramework {
  openSMNPort : bool;
  addInput : bool;
  addOutput : bool
}.

(** The buffers the engine passes to the gateway by pointer. *)
Record Buffers : Type := mkBuffers {
  flaRea : Z;
  nDblRea : Z;
  simTimRea : float;
  dblValRea : list float
}.

Definition set_flaRea (f : Z) (b : Buffers) : Buffers :=
  mkBuffers f (nDblRea b) (simTimRea b) (dblValRea b).

(** ** Methods of the node and of its thread

    A method runs on the one node of the process, the object [obn_thread]
    owns; reaching it through a null [obn_thread] is [NullDeref]. *)

Definition this_thread : M EPlusOBNThread :=
  fun g => match obn_thread g with
           | Some th => Returned th g
           | None => NullDeref g
           end.

Definition this_node : M MQTTNodeEPlus :=
  th <- this_thread ;; ret (m_obnnode th).

Definition update_thread (f : EPlusOBNThread -> EPlusOBNThread) : M unit :=
  th <- this_thread ;; fun g => Returned tt (set_obn_thread (Some (f th)) g).

Definition update_node (f : MQTTNodeEPlus -> MQTTNodeEPlus) : M unit :=
  update_thread (fun th => set_m_obnnode (f (m_obnnode th)) th).

Definition record (e : Event) : M unit := fun g => Returned tt (log e g).

(** [askEnergyPlusToQuit] *)
Definition askEnergyPlusToQuit (wakes : list (Wake EPlusSignalToOBN)) : M unit :=
  resetEPlusSignal ;;;
  signalEPlus EPSIG_QUIT ;;;
  _ <- waitforEPlusSignal wakes ;;
  ret tt.

(** Element [i] of a caller's array; past its extent the read is undefined
    in C++ and yields zero here. *)
Definition array_read (a : list float) (i : nat) : float := nth i a 0%float.

(** [setOutputValues]: [v.resize(nDbl)], then [copy_n(dblVals, nDbl, v.data())];
    the [std::size_t] count is returned as an [int].  [resize] is taken to
    succeed.  For a count the vector cannot hold, the program leaves
    [resize], and with it the gateway, by an exception, before anything is
    copied or DONE is posted; every negative [*nDblWri] of the gateway is
    such a count (at least 2^64 - 2^31 as a [std::size_t]).  Outcomes have
    no exception: on such a count the definition goes on as if the vector
    had been resized and does not describe the program. *)
Definition setOutputValues (nDbl : Z) (dblVals : list float) : M Z :=
  update_node (set_m_double_output (map (array_read dblVals) (seq 0 (Z.to_nat nDbl)))) ;;;
  record (EvSetOutputValues nDbl) ;;;
  ret (to_int nDbl).

(** [copy_n(src, n, dst)] into a caller's array. *)
Definition copy_n (src : list float) (n : nat) (dst : list float) : list float :=
  firstn n src ++ skipn n dst.

(** [getInputValues]: the result, then the new [*nDblRea] and [dblValRea]. *)
Definition getInputValues (nDblRea0 : Z) (dblValRea0 : list float)
  : M (Z * (Z * list float)) :=
  node <- this_node ;;
  let nDblRea1 := 0 in
  let la := m_double_input node in
  let sz := Z.of_nat (List.length la) in
  if sz >? NDBLMAX then
    record (EvGetInputValues (-1)) ;;;
    ret (-1, (nDblRea1, dblValRea0))
  else
    let nDblRea2 := to_int sz in
    let dblValRea1 := if sz >? 0 then copy_n la (Z.to_nat sz) dblValRea0 else dblValRea0 in
    record (EvGetInputValues 0) ;;;
    ret (0, (nDblRea2, dblValRea1)).

(** The error callbacks of the framework; their arguments (the port and the
    message) are not used. *)
Definition onRawMessageError (wakes : list (Wake EPlusSignalToOBN)) : M unit :=
  update_node (set_node_state NODE_ERROR) ;;;
  record (EvNodeState NODE_ERROR) ;;;
  askEnergyPlusToQuit wakes.

Definition onReadValueError (wakes : list (Wake EPlusSignalToOBN)) : M unit :=
  update_node (set_node_state NODE_ERROR) ;;;
  record (EvNodeState NODE_ERROR) ;;;
  askEnergyPlusToQuit wakes.

Definition onSendMessageError (wakes : list (Wake EPlusSignalToOBN)) : M unit :=
  update_node (set_node_state NODE_ERROR) ;;;
  record (EvNodeState NODE_ERROR) ;;;
  askEnergyPlusToQuit wakes.

Definition onOBNError (wakes : list (Wake EPlusSignalToOBN)) : M unit :=
  update_node (set_node_state NODE_ERROR) ;;;
  record (EvNodeState NODE_ERROR) ;;;
  askEnergyPlusToQuit wakes.

Definition onOBNWarning : M unit := ret tt.

(** [MQTTNodeEPlus::initialize] *)
Definition initialize (fw : Framework) : M bool :=
  if negb (openSMNPort fw) then ret false
  else ret (addInput fw && addOutput fw).

(** [signalOBN] *)
Definition signalOBN (sig : EPlusSignalToOBN) : M unit :=
  fun g =>
    let g1 := log (EvSignalOBN sig) (set_eplus_signal_to_obn sig g) in
    match obn_thread g1 with
    | Some th =>
        if negb (EPlusSignalToOBN_eqb sig OBNSIG_DONE)
           && negb (EPlusSignalToOBN_eqb sig OBNSIG_NONE)
        then update_node (postCallbackEvent CallHandleEPlusSignal) g1
        else Returned tt g1
    | None => Returned tt g1
    end.

Definition signalOBN_TERM : M unit := signalOBN OBNSIG_TERM.
Definition signalOBN_EXIT : M unit := signalOBN OBNSIG_EXIT.

(** [m_thread.join()]: blocks until the thread function, the node's run
    loop, has ended; the thread is not joinable afterwards.  [node_thread]
    is what the node thread still does before it ends, the work items
    queued on it included: [join] returns after it, in the world it leaves,
    and does not return when it does not end. *)
Definition join (node_thread : M unit) : M unit :=
  node_thread ;;;
  update_thread (set_m_thread_joinable false) ;;;
  record EvJoin.

(** [EPlusOBNThread::startThread] *)
Definition startThread (fw : Framework) : M bool :=
  th <- this_thread ;;
  if m_thread_joinable th then ret false
  else
    ok <- initialize fw ;;
    if negb ok then ret false
    else
      update_thread (set_m_thread_joinable true) ;;;
      ret true.

(** [EPlusOBNThread::stopThread] *)
Definition stopThread (node_thread : M unit) : M unit :=
  th <- this_thread ;;
  if m_thread_joinable th then
    signalOBN OBNSIG_EXIT ;;;
    join node_thread
  else ret tt.

(** [stopOBNNode]: [if (!obn_thread) { obn_thread->stopThread(); }] *)
Definition stopOBNNode (node_thread : M unit) : M unit :=
  fun g =>
    match obn_thread g with
    | None => stopThread node_thread g
    | Some _ => Returned tt g
    end.

(** The callbacks of a simulation step; the update mask is not used. *)
Definition onUpdateY (wakes : list (Wake EPlusSignalToOBN)) : M unit :=
  signalEPlus EPSIG_Y ;;;
  sig <- waitforEPlusSignal wakes ;;
  if EPlusSignalToOBN_eqb sig OBNSIG_DONE then resetEPlusSignal else ret tt.

Definition onUpdateX (wakes : list (Wake EPlusSignalToOBN)) : M unit :=
  signalEPlus EPSIG_X ;;;
  sig <- waitforEPlusSignal wakes ;;
  if EPlusSignalToOBN_eqb sig OBNSIG_DONE then resetEPlusSignal else ret tt.

Definition onInitialization (wakes : list (Wake EPlusSignalToOBN)) : M unit :=
  signalEPlus EPSIG_START ;;;
  sig <- waitforEPlusSignal wakes ;;
  if EPlusSignalToOBN_eqb sig OBNSIG_DONE then resetEPlusSignal else ret tt.

Definition onTermination : M unit := signalEPlus EPSIG_TERM.

(** [processOBNSignal]: the result and the new [*flaRea]. *)
Definition processOBNSignal (sig : OBNSignalToEPlus) (flaRea0 : Z) : Z * Z :=
  match sig with
  | EPSIG_TERM => (0, 1)
  | EPSIG_QUIT => (0, -1)
  | EPSIG_TIMEOUT => (-21, flaRea0)
  | _ => (-22, flaRea0)
  end.

(** ** The configuration reader and the exchange gateway *)

Section Bridge.

(** [OBNsim::Utils::trim], [toLower] and [isValidNodeName] belong to the
    node library. *)
Variable trim : string -> string.
Variable toLower : string -> string.
Variable isValidNodeName : string -> bool.

(** The default argument of [waitforOBNSignal], declared in openbuildnet.h. *)
Variable waitforOBNSignal_default : Z.

(** The first word of a line and, when blanks and more text follow it, that
    text; [rest0] is kept otherwise.  The reader does this for the first
    line ([comm], [comm_config]) and again for the second ([node_name],
    [workspace]). *)
Definition first_word (oneline : string) (rest0 : string) : string * string :=
  match find_first_of oneline spacechars with
  | None => (oneline, rest0)
  | Some pos =>
      (substr_to pos oneline,
       match find_first_not_of oneline spacechars pos with
       | Some pos' => substr_from pos' oneline
       | None => rest0
       end)
  end.

(** One optional line: the option name and what it sets. *)
Definition read_option (oneline : string) : M unit :=
  let pos := find_first_of oneline spacechars in
  let theOption :=
    match pos with
    | Some p => substr_to p oneline
    | None => oneline
    end in
  let theRest :=
    match pos with
    | Some p =>
        if Nat.leb (p + 2) (String.length oneline)
        then trim (substr_from (p + 1) oneline)
        else EmptyString
    | None => EmptyString
    end in
  let theOption := toLower (trim theOption) in
  if String.eqb theOption "quitifobnstops" then
    fun g => Returned tt (set_quitIfOBNTerminates true g)
  else if String.eqb theOption "timeout" then
    if negb (empty theRest) then setOBNTimeout (atoi theRest) else ret tt
  else ret tt.

(** [while (success && !configfile.eof())]: [success] is true again at the
    end of every round, so the loop is left at the end of the file only.
    Each round extracts at least one character or sets [eofbit]; [fuel]
    bounds the rounds. *)
Fixpoint read_options (fuel : nat) (cf : ifstream) (oneline : string) (g : World)
  : ifstream * World :=
  match fuel with
  | O => (cf, g)
  | S fuel' =>
      if eofbit cf then (cf, g)
      else
        let (oneline', cf') := getline cf oneline in
        let g' := if negb (failbit cf')
                  then world_of (read_option oneline' g)
                  else g in
        read_options fuel' cf' oneline' g'
  end.

(** [new EPlusOBNThread(node_name, workspace)]: a stopped node with empty
    ports "in" and "out", and a thread object that runs nothing yet. *)
Definition new_EPlusOBNThread (t_name t_ws : string) : EPlusOBNThread :=
  mkThread false
           (mkNode t_name t_ws None NODE_STOPPED [] [] 0%float []).

Definition initOBNNode (fs : FileSystem) (fw : Framework) (docname : option string)
  : M bool :=
  fun g =>
    match docname with
    | None => Returned false g
    | Some path =>
        match obn_thread g with
        | Some _ => Returned true g
        | None =>
            match fs path with
            | None => Returned false g
            | Some text =>
                let cf := mkStream text false false in
                (* the first line: communication settings *)
                let (oneline, cf) := getline cf EmptyString in
                let success := negb (failbit cf) in
                let (comm, comm_config) :=
                  if success then first_word oneline EmptyString
                  else (EmptyString, EmptyString) in
                (* the second line: node settings *)
                let '(oneline, cf) :=
                  if success then getline cf oneline else (oneline, cf) in
                let success := success && negb (failbit cf) in
                let (node_name, workspace) :=
                  if success then first_word oneline EmptyString
                  else (EmptyString, EmptyString) in
                (* the remaining lines are optional *)
                let g :=
                  if success
                  then snd (read_options (S (String.length text)) cf oneline g)
                  else g in
                if negb success then Returned false g
                else
                  let comm := toLower (trim comm) in
                  let node_name := trim node_name in
                  if String.eqb comm "mqtt" then
                    if negb (isValidNodeName node_name) then Returned false g
                    else
                      let g := set_obn_thread
                                 (Some (new_EPlusOBNThread node_name workspace)) g in
                      let comm_config := trim comm_config in
                      ((if negb (empty comm_config)
                        then update_node (set_server_address comm_config)
                        else ret tt) ;;;
                       startThread fw) g
                  else Returned false g
            end
        end
    end.

(** [exchangedoublewithOBN]: the result and the caller's buffers. *)
Definition exchangedoublewithOBN
           (flaWri nDblWri : Z) (dblValWri : list float) (out : Buffers)
           (wakes1 wakes2 : list (Wake OBNSignalToEPlus)) : M (Z * Buffers) :=
  fun g =>
    let out := set_flaRea 0 out in
    match obn_thread g with
    | None => Returned (-1, out) g
    | Some _ =>
        (sig <- waitforOBNSignal waitforOBNSignal_default wakes1 ;;
         resetOBNSignal ;;;
         if negb (OBNSignalToEPlus_eqb sig EPSIG_Y) then
           let (r, f) := processOBNSignal sig (flaRea out) in
           ret (r, set_flaRea f out)
         else
           retVal <- setOutputValues (to_size_t nDblWri) dblValWri ;;
           signalOBN OBNSIG_DONE ;;;
           if retVal >=? 0 then
             sig <- waitforOBNSignal waitforOBNSignal_default wakes2 ;;
             resetOBNSignal ;;;
             if negb (OBNSignalToEPlus_eqb sig EPSIG_X) then
               let (r, f) := processOBNSignal sig (flaRea out) in
               ret (r, set_flaRea f out)
             else
               res <- getInputValues (nDblRea out) (dblValRea out) ;;
               node <- this_node ;;
               signalOBN OBNSIG_DONE ;;;
               ret (fst res,
                    mkBuffers (flaRea out) (fst (snd res))
                              (currentSimulationTime node) (snd (snd res)))
           else ret (retVal, out)) g
    end.

End Bridge.

(** ** Runs of the engine and what the history shows *)



(** One call of the gateway with everything it is given. *)
Record Call : Type := mkCall {
  c_flaWri : Z;
  c_nDblWri : Z;
  c_dblValWri : list float;
  c_out : Buffers;
  c_wakes1 : list (Wake OBNSignalToEPlus);
  c_wakes2 : list (Wake OBNSignalToEPlus)
}.







(** The signals the engine posted after its last read of the input port. *)
Fixpoint posted_after_read (evs : list Event) : option (list EPlusSignalToOBN) :=
  match evs with
  | [] => None
  | e :: rest =>
      match posted_after_read rest with
      | Some l => Some l
      | None =>
          match e with
          | EvGetInputValues _ =>
              Some (flat_map (fun e' => match e' with
                                        | EvSignalOBN s => [s]
                                        | _ => []
                                        end) rest)
          | _ => None
          end
      end
  end.

(** ** Concrete data for running the definitions *)

(** An instance of the node library's string utilities: [sample_trim] strips
    white space at both ends, [sample_toLower] maps the letters A-Z to a-z,
    and [sample_isValidNodeName] accepts non-empty names made of letters,
    digits and underscores. *)
Fixpoint sample_trim_left (s : string) : string :=
  match s with
  | EmptyString => EmptyString
  | String c s' => if isspace c then sample_trim_left s' else s
  end.

Fixpoint sample_trim_right (s : string) : string :=
  match s with
  | EmptyString => EmptyString
  | String c s' =>
      match sample_trim_right s' with
      | EmptyString => if isspace c then EmptyString else String c EmptyString
      | t => String c t
      end
  end.

Definition sample_trim (s : string) : string := sample_trim_right (sample_trim_left s).

Definition lower_char (c : ascii) : ascii :=
  let n := nat_of_ascii c in
  if Nat.leb 65 n && Nat.leb n 90 then ascii_of_nat (n + 32) else c.

Fixpoint sample_toLower (s : string) : string :=
  match s with
  | EmptyString => EmptyString
  | String c s' => String (lower_char c) (sample_toLower s')
  end.

Definition name_char (c : ascii) : bool :=
  let n := nat_of_ascii c in
  (Nat.leb 48 n && Nat.leb n 57) || (Nat.leb 65 n && Nat.leb n 90)
  || (Nat.leb 97 n && Nat.leb n 122) || Nat.eqb n 95.

Fixpoint all_name_chars (s : string) : bool :=
  match s with
  | EmptyString => true
  | String c s' => name_char c && all_name_chars s'
  end.

Definition sample_isValidNodeName (s : string) : bool :=
  negb (empty s) && all_name_chars s.

(** Lines joined by newlines, the last one without. *)
Fixpoint unlines (ls : list string) : string :=
  match ls with
  | [] => EmptyString
  | [l] => l
  | l :: rest => String.append l (String newline (unlines rest))
  end.

Definition sample_config : string :=
  unlines ["mqtt"; "node1 myworkspace"; "timeout 5"].

Definition sample_fs (text : string) : FileSystem :=
  fun path => if String.eqb path "obn.cfg" then Some text else None.

Definition sample_fw : Framework := mkFramework true true true.

(** The world at process start. *)
Definition initial_world : World :=
  mkWorld false (-1) OBNSIG_NONE EPSIG_NONE None [].

Definition sample_node (inputs : list float) : MQTTNodeEPlus :=
  mkNode "node1" "myworkspace" None NODE_RUNNING inputs [] 12.5%float [].

(** A world in which the node thread runs and the input port holds [inputs]. *)
Definition running_world (inputs : list float) : World :=
  mkWorld false (-1) OBNSIG_NONE EPSIG_NONE
          (Some (mkThread true (sample_node inputs))) [].

Definition sample_out : Buffers := mkBuffers 7 9 0%float (repeat 0%float 1024).

Definition wake_y : list (Wake OBNSignalToEPlus) := [mkWake 0 EPSIG_Y].
Definition wake_x : list (Wake OBNSignalToEPlus) := [mkWake 1 EPSIG_NONE; mkWake 2 EPSIG_X].
Definition wake_term : list (Wake OBNSignalToEPlus) := [mkWake 0 EPSIG_TERM].
Definition wake_done : list (Wake EPlusSignalToOBN) := [mkWake 0 OBNSIG_NONE; mkWake 1 OBNSIG_DONE].






(** The transport selector of a configuration: the first word of its first
    line, as the reader extracts it. *)
Definition first_line (text : string) : string :=
  fst (getline (mkStream text false false) EmptyString).

Definition transport_selector (text : string) : string :=
  fst (first_word (first_line text) EmptyString).

(** The sample configuration, with or without a newline after its last line. *)
Definition sample_config_text (trailing_newline : bool) : string :=
  if trailing_newline
  then String.append sample_config (String newline EmptyString)
  else sample_config.

(** The timeout a wait really uses: the argument when it is positive, the
    process-wide default otherwise. *)
Definition effective_timeout (timeout : Z) (g : World) : Z :=
  if timeout <=? 0 then default_obn_timeout g else timeout.

(** The second half of [exchangedoublewithOBN], from the wait for UPDATE_X
    on, as the gateway runs it once the outputs are acknowledged; [out0] is
    the caller's buffers with the flag cleared. *)
Definition exchange_inputs (dflt : Z) (out0 : Buffers)
           (wakes2 : list (Wake OBNSignalToEPlus)) : M (Z * Buffers) :=
  sig <- waitforOBNSignal dflt wakes2 ;;
  resetOBNSignal ;;;
  if negb (OBNSignalToEPlus_eqb sig EPSIG_X) then
    let (r, f) := processOBNSignal sig (flaRea out0) in
    ret (r, set_flaRea f out0)
  else
    res <- getInputValues (nDblRea out0) (dblValRea out0) ;;
    node <- this_node ;;
    signalOBN OBNSIG_DONE ;;;
    ret (fst res,
         mkBuffers (flaRea out0) (fst (snd res))
                   (currentSimulationTime node) (snd (snd res))).

(** The world once UPDATE_Y was observed and reset, the outputs were written
    to the output port and DONE was posted. *)
Definition published (nDblWri : Z) (dblValWri : list float)
           (th : EPlusOBNThread) (g : World) : World :=
  let nDbl := to_size_t nDblWri in
  let v := map (array_read dblValWri) (seq 0 (Z.to_nat nDbl)) in
  log (EvSignalOBN OBNSIG_DONE)
    (set_eplus_signal_to_obn OBNSIG_DONE
      (log (EvSetOutputValues nDbl)
        (set_obn_thread
           (Some (set_m_obnnode (set_m_double_output v (m_obnnode th)) th))
           (log EvResetOBNSignal
             (set_obn_signal_to_eplus EPSIG_NONE
               (log (EvWaitOBN EPSIG_Y) (set_obn_signal_to_eplus EPSIG_Y g))))))).

(** Whether a call of the gateway from [g] observes UPDATE_Y at its first
    wait (there is no first wait without a node). *)
Definition observes_update_y (dflt : Z) (c : Call) (g : World) : bool :=
  match obn_thread g, returned (waitforOBNSignal dflt (c_wakes1 c) g) with
  | Some _, Some EPSIG_Y => true
  | _, _ => false
  end.

(** [MQTTNodeEPlus::handleEPlusSignal], the work item [signalOBN] queues on
    the node: the signal is taken out of the engine-to-node mailbox under
    the lock, and TERM and EXIT stop the simulation.  The result tells
    whether [stopSimulation()] of the node framework was called. *)
Definition handleEPlusSignal : M bool :=
  fun g =>
    let sig := eplus_signal_to_obn g in
    let g1 := set_eplus_signal_to_obn OBNSIG_NONE g in
    match sig with
    | OBNSIG_TERM | OBNSIG_EXIT => Returned true g1
    | _ => Returned false g1
    end.

(** A node thread that ends: its run loop, which belongs to the node
    library, takes the work items queued on the node in order, each
    [CallHandleEPlusSignal] running [handleEPlusSignal], and returns.  This
    is one behaviour of the thread that [join] waits for, the one
    [stopSimulation()] asks for. *)
Fixpoint run_callbacks (q : list NodeCallback) : M unit :=
  match q with
  | [] => ret tt
  | CallHandleEPlusSignal :: rest =>
      _ <- handleEPlusSignal ;;
      run_callbacks rest
  end.

Definition set_callback_queue (q : list NodeCallback) (n : MQTTNodeEPlus)
  : MQTTNodeEPlus :=
  mkNode (node_name n) (node_workspace n) (server_address n) (_node_state n)
         (m_double_input n) (m_double_output n) (currentSimulationTime n) q.

Definition node_thread_ends : M unit :=
  node <- this_node ;;
  update_node (set_callback_queue []) ;;;
  run_callbacks (callback_queue node).

(** Worlds the gateway passes through: after a wait returned [s], after the
    node-to-engine mailbox was reset, and after the input port was read with
    result [r] and acknowledged. *)
Definition observed (s : OBNSignalToEPlus) (g : World) : World :=
  log (EvWaitOBN s) (set_obn_signal_to_eplus s g).

Definition consumed (g : World) : World :=
  log EvResetOBNSignal (set_obn_signal_to_eplus EPSIG_NONE g).

Definition acknowledged (r : Z) (g : World) : World :=
  log (EvSignalOBN OBNSIG_DONE)
      (set_eplus_signal_to_obn OBNSIG_DONE (log (EvGetInputValues r) g)).

(** What the gateway hands back after UPDATE_X, from the input port [la],
    the node's clock and the caller's buffers [out0]. *)
Definition read_inputs (la : list float) (clock : float) (out0 : Buffers)
  : Z * Buffers :=
  let sz := Z.of_nat (List.length la) in
  if sz >? NDBLMAX then
    (-1, mkBuffers (flaRea out0) 0 clock (dblValRea out0))
  else
    (0, mkBuffers (flaRea out0) (to_int sz) clock
                  (if sz >? 0 then copy_n la (Z.to_nat sz) (dblValRea out0)
                   else dblValRea out0)).

(** The status and the flag a signal other than the expected one yields. *)
Definition short_circuit (sig : OBNSignalToEPlus) (out0 : Buffers) : Z * Buffers :=
  (fst (processOBNSignal sig (flaRea out0)),
   set_flaRea (snd (processOBNSignal sig (flaRea out0))) out0).

(** The callback queue of the node, empty without a node. *)
Definition queued (g : World) : list NodeCallback :=
  match obn_thread g with
  | Some th => callback_queue (m_obnnode th)
  | None => []
  end.

(** Whether a node thread runs. *)
Definition running (g : World) : bool :=
  match obn_thread g with
  | Some th => m_thread_joinable th
  | None => false
  end.

(** What the gateway, the mailboxes and the callbacks never touch: the two
    options, and of the node everything but the output port and the queue. *)
Definition same_setup (g g' : World) : Prop :=
  quitIfOBNTerminates g' = quitIfOBNTerminates g /\
  default_obn_timeout g' = default_obn_timeout g /\
  match obn_thread g, obn_thread g' with
  | Some th, Some th' =>
      m_thread_joinable th' = m_thread_joinable th /\
      node_name (m_obnnode th') = node_name (m_obnnode th) /\
      node_workspace (m_obnnode th') = node_workspace (m_obnnode th) /\
      server_address (m_obnnode th') = server_address (m_obnnode th) /\
      _node_state (m_obnnode th') = _node_state (m_obnnode th) /\
      m_double_input (m_obnnode th') = m_double_input (m_obnnode th) /\
      currentSimulationTime (m_obnnode th') = currentSimulationTime (m_obnnode th)
  | None, None => True
  | _, _ => False
  end.

(** A text without a newline character: at most one line. *)
Fixpoint single_line (s : string) : bool :=
  match s with
  | EmptyString => true
  | String c s' => negb (Ascii.eqb c newline) && single_line s'
  end.

(** What reading the options may change: the two options, and the option to
    quit is only ever switched on. *)
Definition options_only (g g' : World) : Prop :=
  eplus_signal_to_obn g' = eplus_signal_to_obn g /\
  obn_signal_to_eplus g' = obn_signal_to_eplus g /\
  history g' = history g /\
  obn_thread g' = obn_thread g /\
  (quitIfOBNTerminates g = true -> quitIfOBNTerminates g' = true).

Arguments waitforOBNSignal : simpl never.
Arguments to_int : simpl never.
Arguments to_size_t : simpl never.

(** * Properties *)

(** ** Integer conversions *)

Lemma to_int_id (z : Z) : INT_MIN <= z <= INT_MAX -> to_int z = z.
Proof.
  unfold to_int, INT_MIN, INT_MAX. intros H.
  rewrite Z.mod_small by lia. lia.
Qed.

Lemma to_int_to_size_t (z : Z) : INT_MIN <= z <= INT_MAX -> to_int (to_size_t z) = z.
Proof.
  unfold to_int, to_size_t, INT_MIN, INT_MAX. intros H.
  destruct (Z_lt_le_dec z 0) as [Hneg | Hpos].
  - replace (z mod 2 ^ 64) with (z + 2 ^ 64)
      by (apply Z.mod_unique with (q := -1); lia).
    replace ((z + 2 ^ 64 + 2 ^ 31) mod 2 ^ 32) with (z + 2 ^ 31)
      by (apply Z.mod_unique with (q := 2 ^ 32); lia).
    lia.
  - rewrite (Z.mod_small z) by lia.
    rewrite Z.mod_small by lia. lia.
Qed.

Lemma to_size_t_id (z : Z) : 0 <= z <= INT_MAX -> to_size_t z = z.
Proof.
  unfold to_size_t, INT_MAX. intros H. apply Z.mod_small. lia.
Qed.

(** ** The history *)

Lemma events_since_app (g g' : World) (evs : list Event) :
  history g' = history g ++ evs -> events_since g g' = evs.
Proof.
  unfold events_since. intros ->.
  rewrite skipn_app, skipn_all, Nat.sub_diag. reflexivity.
Qed.

Lemma events_since_refl (g : World) : events_since g g = [].
Proof. apply events_since_app. now rewrite app_nil_r. Qed.

(** ** Signals and condition variables *)

Lemma is_EPSIG_false (s : OBNSignalToEPlus) : is_EPSIG s = false <-> s = EPSIG_NONE.
Proof. destruct s; cbv; split; congruence. Qed.

Lemma is_EPSIG_true (s : OBNSignalToEPlus) : is_EPSIG s = true <-> s <> EPSIG_NONE.
Proof. destruct s; cbv; split; congruence. Qed.

Lemma is_OBNSIG_false (s : EPlusSignalToOBN) : is_OBNSIG s = false <-> s = OBNSIG_NONE.
Proof. destruct s; cbv; split; congruence. Qed.

Lemma is_OBNSIG_true (s : EPlusSignalToOBN) : is_OBNSIG s = true <-> s <> OBNSIG_NONE.
Proof. destruct s; cbv; split; congruence. Qed.

Lemma OBNSignalToEPlus_eqb_eq (a b : OBNSignalToEPlus) :
  OBNSignalToEPlus_eqb a b = true <-> a = b.
Proof. destruct a, b; cbv; split; congruence. Qed.

Lemma EPlusSignalToOBN_eqb_eq (a b : EPlusSignalToOBN) :
  EPlusSignalToOBN_eqb a b = true <-> a = b.
Proof. destruct a, b; cbv; split; congruence. Qed.

Section CondVar.

Context {S : Type} (pred : S -> bool).

(** A wait ends satisfied only on a value that satisfies the predicate, and
    unsatisfied only on one that does not. *)
Lemma cv_wait_sound (wakes : list (Wake S)) :
  forall cur b s, cv_wait pred cur wakes = (b, s) -> pred s = b.
Proof.
  induction wakes as [| w rest IH]; intros cur b s; simpl;
    destruct (pred cur) eqn:Hp; intros H.
  - now inversion H; subst.
  - now inversion H; subst.
  - now inversion H; subst.
  - eauto.
Qed.

Lemma cv_wait_for_sound (t : Z) (wakes : list (Wake S)) :
  forall cur b s, cv_wait_for t pred cur wakes = (b, s) -> pred s = b.
Proof.
  induction wakes as [| w rest IH]; intros cur b s; simpl;
    destruct (pred cur) eqn:Hp; intros H.
  - now inversion H; subst.
  - now inversion H; subst.
  - now inversion H; subst.
  - destruct (elapsed w <=? t); [eauto | now inversion H; subst].
Qed.

(** Wake-ups that show the same unsatisfying value are slept through. *)
Lemma cv_wait_skip (c : S) (pre rest : list (Wake S)) :
  pred c = false ->
  Forall (fun v => seen v = c) pre ->
  cv_wait pred c (pre ++ rest) = cv_wait pred c rest.
Proof.
  intros Hc. induction 1 as [| w pre Hw _ IH]; [reflexivity |].
  rewrite <- app_comm_cons.
  change (cv_wait pred c (w :: pre ++ rest))
    with (if pred c then (true, c) else cv_wait pred (seen w) (pre ++ rest)).
  now rewrite Hc, Hw.
Qed.

Lemma cv_wait_for_skip (t : Z) (c : S) (pre rest : list (Wake S)) :
  pred c = false ->
  Forall (fun v => seen v = c /\ elapsed v <= t) pre ->
  cv_wait_for t pred c (pre ++ rest) = cv_wait_for t pred c rest.
Proof.
  intros Hc. induction 1 as [| w pre [Hw Ht] _ IH]; [reflexivity |].
  rewrite <- app_comm_cons.
  change (cv_wait_for t pred c (w :: pre ++ rest))
    with (if pred c then (true, c)
          else if elapsed w <=? t then cv_wait_for t pred (seen w) (pre ++ rest)
               else (false, c)).
  rewrite Hc, Hw. apply Z.leb_le in Ht. now rewrite Ht.
Qed.

(** The value that ends the wait was in the mailbox or shown by a wake-up. *)
Lemma cv_wait_origin (wakes : list (Wake S)) :
  forall cur b s, cv_wait pred cur wakes = (b, s) -> s = cur \/ In s (map seen wakes).
Proof.
  induction wakes as [| w rest IH]; intros cur b s; simpl;
    destruct (pred cur); intros H; try (inversion H; subst; now left).
  apply IH in H. destruct H as [-> | H]; auto.
Qed.

Lemma cv_wait_now (c : S) (wakes : list (Wake S)) :
  pred c = true -> cv_wait pred c wakes = (true, c).
Proof. intros H. destruct wakes; simpl; now rewrite H. Qed.

Lemma cv_wait_for_now (t : Z) (c : S) (wakes : list (Wake S)) :
  pred c = true -> cv_wait_for t pred c wakes = (true, c).
Proof. intros H. destruct wakes; simpl; now rewrite H. Qed.

Lemma cv_wait_for_late (t : Z) (c : S) (w : Wake S) (rest : list (Wake S)) :
  pred c = false -> t < elapsed w -> cv_wait_for t pred c (w :: rest) = (false, c).
Proof. intros H Hw. simpl. apply Z.leb_gt in Hw. now rewrite H, Hw. Qed.

End CondVar.

(** ** The node-to-engine wait *)

Lemma set_obn_signal_to_eplus_same (g : World) :
  set_obn_signal_to_eplus (obn_signal_to_eplus g) g = g.
Proof. now destruct g. Qed.

Lemma set_eplus_signal_to_obn_same (g : World) :
  set_eplus_signal_to_obn (eplus_signal_to_obn g) g = g.
Proof. now destruct g. Qed.

(** The three ways a wait for the node can end: with the stored signal [m],
    with the synthetic time-out, or never. *)
Lemma waitforOBNSignal_cases (timeout : Z) (wakes : list (Wake OBNSignalToEPlus)) (g : World) :
  (exists m, m <> EPSIG_NONE /\
             waitforOBNSignal timeout wakes g
             = Returned m (log (EvWaitOBN m) (set_obn_signal_to_eplus m g)))
  \/ (0 < effective_timeout timeout g /\
      waitforOBNSignal timeout wakes g
      = Returned EPSIG_TIMEOUT
                 (log (EvWaitOBN EPSIG_TIMEOUT) (set_obn_signal_to_eplus EPSIG_NONE g)))
  \/ (effective_timeout timeout g <= 0 /\
      waitforOBNSignal timeout wakes g = Blocked (set_obn_signal_to_eplus EPSIG_NONE g)).
Proof.
  unfold waitforOBNSignal, effective_timeout.
  destruct (is_EPSIG (obn_signal_to_eplus g)) eqn:Hcur.
  - left. exists (obn_signal_to_eplus g). split; [now apply is_EPSIG_true |].
    now rewrite set_obn_signal_to_eplus_same.
  - set (e := if timeout <=? 0 then default_obn_timeout g else timeout).
    destruct (e <=? 0) eqn:He.
    + destruct (cv_wait is_EPSIG (obn_signal_to_eplus g) wakes) as [[|] s] eqn:Hw;
        apply cv_wait_sound in Hw.
      * left. exists s. split; [now apply is_EPSIG_true | reflexivity].
      * right; right. apply is_EPSIG_false in Hw. subst s.
        split; [now apply Z.leb_le | reflexivity].
    + destruct (cv_wait_for e is_EPSIG (obn_signal_to_eplus g) wakes) as [[|] s] eqn:Hw;
        apply cv_wait_for_sound in Hw.
      * left. exists s. split; [now apply is_EPSIG_true | reflexivity].
      * right; left. apply is_EPSIG_false in Hw. subst s.
        split; [now apply Z.leb_gt | reflexivity].
Qed.

(** What a wait returns depends on the mailbox and the default time-out only. *)
Lemma waitforOBNSignal_frame (timeout : Z) (wakes : list (Wake OBNSignalToEPlus))
      (g1 g2 : World) :
  obn_signal_to_eplus g1 = obn_signal_to_eplus g2 ->
  default_obn_timeout g1 = default_obn_timeout g2 ->
  returned (waitforOBNSignal timeout wakes g1) = returned (waitforOBNSignal timeout wakes g2).
Proof.
  intros Hm Ht. unfold waitforOBNSignal. rewrite Hm, Ht.
  destruct (is_EPSIG (obn_signal_to_eplus g2)); [reflexivity |].
  destruct ((if timeout <=? 0 then default_obn_timeout g2 else timeout) <=? 0).
  - now destruct (cv_wait is_EPSIG (obn_signal_to_eplus g2) wakes) as [[|] s].
  - now destruct (cv_wait_for _ is_EPSIG (obn_signal_to_eplus g2) wakes) as [[|] s].
Qed.

(** The wait ends with the pair ([returned], mailbox); both are read off the
    three cases. *)
Lemma waitforOBNSignal_returned_stored (timeout : Z) (wakes : list (Wake OBNSignalToEPlus))
      (g : World) (s : OBNSignalToEPlus) :
  returned (waitforOBNSignal timeout wakes g) = Some s ->
  s <> EPSIG_TIMEOUT \/ effective_timeout timeout g <= 0 ->
  s <> EPSIG_NONE /\
  waitforOBNSignal timeout wakes g
  = Returned s (log (EvWaitOBN s) (set_obn_signal_to_eplus s g)).
Proof.
  intros Hr Hs.
  destruct (waitforOBNSignal_cases timeout wakes g)
    as [(m & Hm & E) | [(He & E) | (He & E)]]; rewrite E in Hr |- *; simpl in Hr.
  - inversion Hr; subst. auto.
  - inversion Hr; subst. destruct Hs as [Hs | Hs]; [congruence | lia].
  - discriminate.
Qed.

(** C3 as stated fails: with a default time-out of five seconds configured, a
    wait called with a non-positive argument is a timed one and ends with the
    synthetic time-out when nothing arrives. *)
Lemma waitforOBNSignal_nonpositive_argument_times_out :
  0 <= 0 /\ -1 <= 0 /\
  waitforOBNSignal 0 [] (set_default_obn_timeout 5 initial_world)
  = Returned EPSIG_TIMEOUT
             (log (EvWaitOBN EPSIG_TIMEOUT) (set_default_obn_timeout 5 initial_world)) /\
  returned (waitforOBNSignal (-1) [mkWake 6 EPSIG_Y]
                             (set_default_obn_timeout 5 initial_world))
  = Some EPSIG_TIMEOUT.
Proof. repeat split; try lia; reflexivity. Qed.

(** A signal that arrives within the effective time-out ends the wait. *)
Lemma waitforOBNSignal_arrives (timeout : Z) (g : World)
      (pre : list (Wake OBNSignalToEPlus)) (w : Wake OBNSignalToEPlus)
      (post : list (Wake OBNSignalToEPlus)) :
  obn_signal_to_eplus g = EPSIG_NONE ->
  Forall (fun v => seen v = EPSIG_NONE) pre ->
  seen w <> EPSIG_NONE ->
  effective_timeout timeout g <= 0
  \/ Forall (fun v => elapsed v <= effective_timeout timeout g) (pre ++ [w]) ->
  waitforOBNSignal timeout (pre ++ w :: post) g
  = Returned (seen w) (log (EvWaitOBN (seen w)) (set_obn_signal_to_eplus (seen w) g)).
Proof.
  intros Hg Hpre Hw Hin. unfold waitforOBNSignal.
  fold (effective_timeout timeout g). rewrite Hg.
  change (is_EPSIG EPSIG_NONE) with false. cbv iota.
  apply is_EPSIG_true in Hw.
  destruct (effective_timeout timeout g <=? 0) eqn:He.
  - rewrite cv_wait_skip by (reflexivity || assumption).
    cbn [cv_wait]. change (is_EPSIG EPSIG_NONE) with false. cbv iota.
    now rewrite cv_wait_now.
  - apply Z.leb_gt in He. destruct Hin as [Hin | Hin]; [lia |].
    apply Forall_app in Hin. destruct Hin as [Hpret Hwt].
    inversion Hwt as [| ? ? Hwt' _]; subst.
    rewrite cv_wait_for_skip.
    + cbn [cv_wait_for]. change (is_EPSIG EPSIG_NONE) with false. cbv iota.
      apply Z.leb_le in Hwt'. rewrite Hwt'. now rewrite cv_wait_for_now.
    + reflexivity.
    + rewrite Forall_forall in *. intros v Hv. split; auto.
Qed.

(** A timed wait that sees nothing before its deadline ends with the
    synthetic time-out. *)
Lemma waitforOBNSignal_expires (timeout : Z) (g : World)
      (pre post : list (Wake OBNSignalToEPlus)) :
  0 < effective_timeout timeout g ->
  obn_signal_to_eplus g = EPSIG_NONE ->
  Forall (fun v => seen v = EPSIG_NONE /\ elapsed v <= effective_timeout timeout g) pre ->
  post = [] \/ (exists w rest, post = w :: rest /\ effective_timeout timeout g < elapsed w) ->
  waitforOBNSignal timeout (pre ++ post) g
  = Returned EPSIG_TIMEOUT
             (log (EvWaitOBN EPSIG_TIMEOUT) (set_obn_signal_to_eplus EPSIG_NONE g)).
Proof.
  intros He Hg Hpre Hpost. unfold waitforOBNSignal.
  fold (effective_timeout timeout g). rewrite Hg.
  change (is_EPSIG EPSIG_NONE) with false. cbv iota.
  apply Z.leb_gt in He. rewrite He. apply Z.leb_gt in He.
  rewrite cv_wait_for_skip by (reflexivity || assumption).
  destruct Hpost as [-> | (w & rest & -> & Hw)].
  - reflexivity.
  - now rewrite cv_wait_for_late.
Qed.

(** An untimed wait that never sees a signal does not return. *)
Lemma waitforOBNSignal_blocks (timeout : Z) (g : World)
      (wakes : list (Wake OBNSignalToEPlus)) :
  effective_timeout timeout g <= 0 ->
  obn_signal_to_eplus g = EPSIG_NONE ->
  Forall (fun v => seen v = EPSIG_NONE) wakes ->
  waitforOBNSignal timeout wakes g = Blocked g.
Proof.
  intros He Hg Hw. unfold waitforOBNSignal.
  fold (effective_timeout timeout g). rewrite Hg.
  change (is_EPSIG EPSIG_NONE) with false. cbv iota.
  apply Z.leb_le in He. rewrite He.
  rewrite <- (app_nil_r wakes), cv_wait_skip by (reflexivity || assumption).
  cbn [cv_wait]. change (is_EPSIG EPSIG_NONE) with false. cbv iota.
  now rewrite <- Hg, set_obn_signal_to_eplus_same.
Qed.

(** C3, amended.  Let [e] be the effective time-out: the argument if it is
    positive, the process-wide default otherwise.
    - A signal present in the mailbox is returned at once.
    - A signal that arrives (after wake-ups that show the mailbox still
      empty) is returned, provided [e <= 0] or it arrives within [e] seconds.
    - If [e > 0] and no signal is stored before [e] seconds have passed,
      [EPSIG_TIMEOUT] is returned and the mailbox is still empty.
    - If [e <= 0] and no signal ever arrives, the wait never returns; and
      whatever a wait with [e <= 0] returns is the signal stored in the
      mailbox, never the synthetic time-out. *)
Theorem waitforOBNSignal_effective_timeout :
  forall (timeout : Z) (wakes : list (Wake OBNSignalToEPlus)) (g : World),
    let e := effective_timeout timeout g in
    let o := waitforOBNSignal timeout wakes g in
    (obn_signal_to_eplus g <> EPSIG_NONE ->
     returned o = Some (obn_signal_to_eplus g) /\
     obn_signal_to_eplus (world_of o) = obn_signal_to_eplus g)
    /\
    (forall pre w post,
        obn_signal_to_eplus g = EPSIG_NONE ->
        wakes = pre ++ w :: post ->
        Forall (fun v => seen v = EPSIG_NONE) pre ->
        seen w <> EPSIG_NONE ->
        e <= 0 \/ Forall (fun v => elapsed v <= e) (pre ++ [w]) ->
        returned o = Some (seen w) /\ obn_signal_to_eplus (world_of o) = seen w)
    /\
    (forall pre post,
        0 < e ->
        obn_signal_to_eplus g = EPSIG_NONE ->
        wakes = pre ++ post ->
        Forall (fun v => seen v = EPSIG_NONE /\ elapsed v <= e) pre ->
        post = [] \/ (exists w rest, post = w :: rest /\ e < elapsed w) ->
        returned o = Some EPSIG_TIMEOUT /\
        obn_signal_to_eplus (world_of o) = EPSIG_NONE)
    /\
    (e <= 0 ->
     obn_signal_to_eplus g = EPSIG_NONE ->
     Forall (fun v => seen v = EPSIG_NONE) wakes ->
     o = Blocked g)
    /\
    (e <= 0 ->
     forall s, returned o = Some s ->
               s <> EPSIG_NONE /\ obn_signal_to_eplus (world_of o) = s).
Proof.
  intros timeout wakes g e o. subst e o.
  split; [| split; [| split; [| split]]].
  - intros Hp. unfold waitforOBNSignal.
    apply is_EPSIG_true in Hp. now rewrite Hp.
  - intros pre w post Hg -> Hpre Hw Hin.
    now rewrite waitforOBNSignal_arrives.
  - intros pre post He Hg -> Hpre Hpost.
    now rewrite waitforOBNSignal_expires.
  - apply waitforOBNSignal_blocks.
  - intros He s Hs.
    apply waitforOBNSignal_returned_stored in Hs; [| now right].
    destruct Hs as [Hn E]. now rewrite E.
Qed.

(** C3, at concrete wake-ups: with the default left at -1, a wait for three
    seconds sleeps through an empty wake-up and returns UPDATE_X, which
    arrives after two. *)
Lemma waitforOBNSignal_effective_timeout_witness :
  returned (waitforOBNSignal 3 wake_x initial_world) = Some EPSIG_X /\
  obn_signal_to_eplus (world_of (waitforOBNSignal 3 wake_x initial_world)) = EPSIG_X.
Proof.
  apply (proj1 (proj2 (waitforOBNSignal_effective_timeout 3 wake_x initial_world))
               [mkWake 1 EPSIG_NONE] (mkWake 2 EPSIG_X) []).
  - reflexivity.
  - reflexivity.
  - repeat constructor.
  - discriminate.
  - right. repeat constructor; simpl; unfold effective_timeout; simpl; lia.
Defined.

(** ** The engine-to-node wait *)

Lemma waitforEPlusSignal_present (wakes : list (Wake EPlusSignalToOBN)) (g : World) :
  eplus_signal_to_obn g <> OBNSIG_NONE ->
  waitforEPlusSignal wakes g = Returned (eplus_signal_to_obn g) g.
Proof.
  intros H. unfold waitforEPlusSignal. apply is_OBNSIG_true in H. now rewrite H.
Qed.

Lemma waitforEPlusSignal_arrives (g : World)
      (pre : list (Wake EPlusSignalToOBN)) (w : Wake EPlusSignalToOBN)
      (post : list (Wake EPlusSignalToOBN)) :
  eplus_signal_to_obn g = OBNSIG_NONE ->
  Forall (fun v => seen v = OBNSIG_NONE) pre ->
  seen w <> OBNSIG_NONE ->
  waitforEPlusSignal (pre ++ w :: post) g
  = Returned (seen w) (set_eplus_signal_to_obn (seen w) g).
Proof.
  intros Hg Hpre Hw. unfold waitforEPlusSignal. rewrite Hg.
  change (is_OBNSIG OBNSIG_NONE) with false. cbv iota.
  rewrite cv_wait_skip by (reflexivity || assumption).
  cbn [cv_wait]. change (is_OBNSIG OBNSIG_NONE) with false. cbv iota.
  apply is_OBNSIG_true in Hw. now rewrite cv_wait_now.
Qed.

Lemma waitforEPlusSignal_blocks (g : World) (wakes : list (Wake EPlusSignalToOBN)) :
  eplus_signal_to_obn g = OBNSIG_NONE ->
  Forall (fun v => seen v = OBNSIG_NONE) wakes ->
  waitforEPlusSignal wakes g = Blocked g.
Proof.
  intros Hg Hw. unfold waitforEPlusSignal. rewrite Hg.
  change (is_OBNSIG OBNSIG_NONE) with false. cbv iota.
  rewrite <- (app_nil_r wakes), cv_wait_skip by (reflexivity || assumption).
  cbn [cv_wait]. change (is_OBNSIG OBNSIG_NONE) with false. cbv iota.
  now rewrite <- Hg, set_eplus_signal_to_obn_same.
Qed.

(** The wait for the engine has no time-out: it returns a stored signal or
    it does not return. *)
Lemma waitforEPlusSignal_cases (wakes : list (Wake EPlusSignalToOBN)) (g : World) :
  (exists m, m <> OBNSIG_NONE /\
             waitforEPlusSignal wakes g = Returned m (set_eplus_signal_to_obn m g))
  \/ waitforEPlusSignal wakes g = Blocked (set_eplus_signal_to_obn OBNSIG_NONE g).
Proof.
  unfold waitforEPlusSignal.
  destruct (is_OBNSIG (eplus_signal_to_obn g)) eqn:Hcur.
  - left. exists (eplus_signal_to_obn g). split; [now apply is_OBNSIG_true |].
    now rewrite set_eplus_signal_to_obn_same.
  - destruct (cv_wait is_OBNSIG (eplus_signal_to_obn g) wakes) as [[|] s] eqn:Hw;
      apply cv_wait_sound in Hw.
    + left. exists s. split; [now apply is_OBNSIG_true | reflexivity].
    + right. apply is_OBNSIG_false in Hw. now subst s.
Qed.

Lemma waitforEPlusSignal_frame (wakes : list (Wake EPlusSignalToOBN)) (g1 g2 : World) :
  eplus_signal_to_obn g1 = eplus_signal_to_obn g2 ->
  returned (waitforEPlusSignal wakes g1) = returned (waitforEPlusSignal wakes g2).
Proof.
  intros Hm. unfold waitforEPlusSignal. rewrite Hm.
  destruct (is_OBNSIG (eplus_signal_to_obn g2)); [reflexivity |].
  now destruct (cv_wait is_OBNSIG (eplus_signal_to_obn g2) wakes) as [[|] s].
Qed.

(** ** Stopping the node thread *)

(** The thread's own stop operation does what a stop must do: on a running
    thread it posts EXIT on the engine-to-node mailbox, queues the handler on
    the node and joins, that is, returns once the node thread has ended. *)
Lemma stopThread_posts_exit_and_joins (node_thread : M unit)
      (g g2 : World) (th th2 : EPlusOBNThread) :
  obn_thread g = Some th ->
  m_thread_joinable th = true ->
  node_thread (world_of (signalOBN OBNSIG_EXIT g)) = Returned tt g2 ->
  obn_thread g2 = Some th2 ->
  exists g',
    stopThread node_thread g = Returned tt g' /\
    eplus_signal_to_obn (world_of (signalOBN OBNSIG_EXIT g)) = OBNSIG_EXIT /\
    events_since g (world_of (signalOBN OBNSIG_EXIT g)) = [EvSignalOBN OBNSIG_EXIT] /\
    events_since g2 g' = [EvJoin] /\
    option_map m_thread_joinable (obn_thread g') = Some false.
Proof.
  intros Hth Hj Hnt Hth2.
  unfold stopThread, bind, this_thread. rewrite Hth, Hj.
  unfold signalOBN in *. cbn in Hnt |- *. rewrite Hth in Hnt |- *.
  unfold update_node, update_thread, this_thread, bind in Hnt |- *.
  cbn in Hnt |- *. rewrite Hth in Hnt |- *. cbn in Hnt |- *.
  unfold join, bind. rewrite Hnt.
  unfold update_thread, this_thread, record, bind. rewrite Hth2.
  eexists. split; [reflexivity |]. cbn.
  repeat split; now apply events_since_app.
Qed.

(** C4: with a node thread created and running, [stopOBNNode] returns at once
    and leaves the world as it was: no EXIT is posted and the thread is not
    joined.  The test [!obn_thread] selects the case without a thread. *)
Theorem stopOBNNode_ignores_running_thread :
  forall (node_thread : M unit) (g : World) (th : EPlusOBNThread),
    obn_thread g = Some th ->
    m_thread_joinable th = true ->
    stopOBNNode node_thread g = Returned tt g /\
    events_since g (world_of (stopOBNNode node_thread g)) = [] /\
    option_map m_thread_joinable (obn_thread (world_of (stopOBNNode node_thread g)))
    = Some true.
Proof.
  intros node_thread g th Hth Hj. unfold stopOBNNode. rewrite Hth. cbn.
  rewrite events_since_refl, Hth. cbn. now rewrite Hj.
Qed.

Lemma stopOBNNode_ignores_running_thread_witness :
  stopOBNNode node_thread_ends (running_world []) = Returned tt (running_world []) /\
  events_since (running_world [])
               (world_of (stopOBNNode node_thread_ends (running_world []))) = [] /\
  option_map m_thread_joinable
             (obn_thread (world_of (stopOBNNode node_thread_ends (running_world []))))
  = Some true.
Proof.
  apply (stopOBNNode_ignores_running_thread
           node_thread_ends (running_world []) (mkThread true (sample_node [])));
    reflexivity.
Defined.

(** C9: without a node thread, [stopOBNNode] calls [stopThread] through the
    null pointer. *)
Theorem stopOBNNode_without_thread_dereferences_null :
  forall (node_thread : M unit) (g : World),
    obn_thread g = None -> stopOBNNode node_thread g = NullDeref g.
Proof.
  intros node_thread g Hth. unfold stopOBNNode. rewrite Hth.
  unfold stopThread, bind, this_thread. now rewrite Hth.
Qed.

Lemma stopOBNNode_without_thread_dereferences_null_witness :
  stopOBNNode node_thread_ends initial_world = NullDeref initial_world.
Proof.
  apply (stopOBNNode_without_thread_dereferences_null node_thread_ends initial_world).
  reflexivity.
Defined.

(** ** Callbacks of the node thread *)

(** The world an error callback has made when it starts to wait. *)
Lemma error_callback_unfold (wakes : list (Wake EPlusSignalToOBN))
      (g : World) (th : EPlusOBNThread) :
  obn_thread g = Some th ->
  exists g3,
    onOBNError wakes g = (_ <- waitforEPlusSignal wakes ;; ret tt) g3 /\
    history g3 = history g ++ [EvNodeState NODE_ERROR; EvResetEPlusSignal;
                               EvSignalEPlus EPSIG_QUIT] /\
    option_map (fun t => _node_state (m_obnnode t)) (obn_thread g3) = Some NODE_ERROR /\
    obn_signal_to_eplus g3 = EPSIG_QUIT /\
    eplus_signal_to_obn g3 = OBNSIG_NONE.
Proof.
  intros Hth.
  exists (log (EvSignalEPlus EPSIG_QUIT)
            (set_obn_signal_to_eplus EPSIG_QUIT
               (log EvResetEPlusSignal
                  (set_eplus_signal_to_obn OBNSIG_NONE
                     (log (EvNodeState NODE_ERROR)
                        (set_obn_thread
                           (Some (set_m_obnnode
                                    (set_node_state NODE_ERROR (m_obnnode th)) th))
                           g)))))).
  split.
  - unfold onOBNError, askEnergyPlusToQuit, update_node, update_thread, this_thread,
      record, resetEPlusSignal, signalEPlus, bind.
    now rewrite Hth.
  - cbn. repeat split. now rewrite <- !app_assoc.
Qed.

(** C5: each of the four error callbacks, run on the node, first marks the
    node's lifecycle state ERROR, then resets the engine-to-node mailbox and
    posts QUIT on the node-to-engine mailbox, in this order, and then waits
    without any time-out: it returns only when a signal other than NONE is
    stored on the engine-to-node mailbox (a signal left there from before
    does not count, it was reset), and it never returns when none arrives,
    whatever the default time-out and the time that passes. *)
Theorem error_callbacks_escalate_to_quit :
  forall cb,
    In cb [onRawMessageError; onReadValueError; onSendMessageError; onOBNError] ->
    forall (wakes : list (Wake EPlusSignalToOBN)) (g : World) (th : EPlusOBNThread),
      obn_thread g = Some th ->
      let o := cb wakes g in
      events_since g (world_of o)
      = [EvNodeState NODE_ERROR; EvResetEPlusSignal; EvSignalEPlus EPSIG_QUIT]
      /\ option_map (fun t => _node_state (m_obnnode t)) (obn_thread (world_of o))
         = Some NODE_ERROR
      /\ obn_signal_to_eplus (world_of o) = EPSIG_QUIT
      /\ (Forall (fun v => seen v = OBNSIG_NONE) wakes ->
          returned o = None /\ exists gb, o = Blocked gb)
      /\ (forall pre w post,
             wakes = pre ++ w :: post ->
             Forall (fun v => seen v = OBNSIG_NONE) pre ->
             seen w <> OBNSIG_NONE ->
             returned o = Some tt /\ eplus_signal_to_obn (world_of o) = seen w).
Proof.
  intros cb Hcb wakes g th Hth o.
  assert (Ecb : cb = onOBNError).
  { simpl in Hcb. destruct Hcb as [<- | [<- | [<- | [<- | []]]]]; reflexivity. }
  subst o cb.
  destruct (error_callback_unfold wakes g th Hth) as (g3 & E & Hh & Hs & Hq & Hn).
  rewrite E. unfold bind.
  split; [| split; [| split; [| split]]].
  - destruct (waitforEPlusSignal_cases wakes g3) as [(m & _ & Ew) | Ew];
      rewrite Ew; cbn; apply events_since_app; cbn; assumption.
  - destruct (waitforEPlusSignal_cases wakes g3) as [(m & _ & Ew) | Ew];
      rewrite Ew; cbn; assumption.
  - destruct (waitforEPlusSignal_cases wakes g3) as [(m & _ & Ew) | Ew];
      rewrite Ew; cbn; assumption.
  - intros Hw. rewrite waitforEPlusSignal_blocks by assumption.
    split; [reflexivity | now eexists].
  - intros pre w post -> Hpre Hw.
    rewrite waitforEPlusSignal_arrives by assumption. now cbn.
Qed.

(** C5, run: a stale DONE is in the mailbox, the engine answers after one
    empty wake-up. *)
Lemma error_callbacks_escalate_to_quit_witness :
  events_since (set_eplus_signal_to_obn OBNSIG_DONE (running_world []))
               (world_of (onReadValueError wake_done
                            (set_eplus_signal_to_obn OBNSIG_DONE (running_world []))))
  = [EvNodeState NODE_ERROR; EvResetEPlusSignal; EvSignalEPlus EPSIG_QUIT].
Proof.
  apply (error_callbacks_escalate_to_quit
           onReadValueError (or_intror (or_introl eq_refl)) wake_done
           (set_eplus_signal_to_obn OBNSIG_DONE (running_world []))
           (mkThread true (sample_node [])) eq_refl).
Defined.

(** The three step callbacks are one procedure, up to the signal they post. *)
Lemma step_callback_outcome (posted : OBNSignalToEPlus)
      (wakes : list (Wake EPlusSignalToOBN)) (g : World) :
  let cb := signalEPlus posted ;;;
            sig <- waitforEPlusSignal wakes ;;
            if EPlusSignalToOBN_eqb sig OBNSIG_DONE then resetEPlusSignal else ret tt in
  match returned (waitforEPlusSignal wakes g) with
  | Some sig =>
      exists g',
        cb g = Returned tt g' /\
        obn_signal_to_eplus g' = posted /\
        eplus_signal_to_obn g'
        = (if EPlusSignalToOBN_eqb sig OBNSIG_DONE then OBNSIG_NONE else sig) /\
        events_since g g'
        = EvSignalEPlus posted
            :: (if EPlusSignalToOBN_eqb sig OBNSIG_DONE then [EvResetEPlusSignal] else [])
  | None =>
      exists gb,
        cb g = Blocked gb /\
        obn_signal_to_eplus gb = posted /\
        events_since g gb = [EvSignalEPlus posted]
  end.
Proof.
  intros cb. subst cb.
  rewrite (waitforEPlusSignal_frame wakes g
             (log (EvSignalEPlus posted) (set_obn_signal_to_eplus posted g)))
    by reflexivity.
  unfold bind, signalEPlus.
  destruct (waitforEPlusSignal_cases
              wakes (log (EvSignalEPlus posted) (set_obn_signal_to_eplus posted g)))
    as [(m & Hm & Ew) | Ew]; rewrite Ew; cbn [returned].
  - destruct (EPlusSignalToOBN_eqb m OBNSIG_DONE) eqn:Ed;
      eexists; (split; [reflexivity |]); cbn; repeat split;
      apply events_since_app; cbn; now rewrite <- ?app_assoc.
  - eexists. split; [reflexivity |]. cbn. split; [reflexivity |].
    now apply events_since_app.
Qed.

(** C6: each of [onUpdateY], [onUpdateX] and [onInitialization] posts its
    signal and waits on the engine-to-node mailbox.  When the wait returns
    [sig], the callback returns; it has reset that mailbox exactly when [sig]
    is DONE, and otherwise the mailbox still holds [sig].  When the wait does
    not return, neither does the callback, and nothing was reset. *)
Theorem step_callbacks_reset_only_on_done :
  forall cb posted,
    In (cb, posted) [(onUpdateY, EPSIG_Y); (onUpdateX, EPSIG_X);
                     (onInitialization, EPSIG_START)] ->
    forall (wakes : list (Wake EPlusSignalToOBN)) (g : World),
      match returned (waitforEPlusSignal wakes g) with
      | Some sig =>
          exists g',
            cb wakes g = Returned tt g' /\
            obn_signal_to_eplus g' = posted /\
            eplus_signal_to_obn g'
            = (if EPlusSignalToOBN_eqb sig OBNSIG_DONE then OBNSIG_NONE else sig) /\
            events_since g g'
            = EvSignalEPlus posted
                :: (if EPlusSignalToOBN_eqb sig OBNSIG_DONE
                    then [EvResetEPlusSignal] else [])
      | None =>
          exists gb,
            cb wakes g = Blocked gb /\
            obn_signal_to_eplus gb = posted /\
            events_since g gb = [EvSignalEPlus posted]
      end.
Proof.
  intros cb posted Hcb wakes g.
  simpl in Hcb.
  destruct Hcb as [E | [E | [E | []]]]; inversion E; subst;
    apply (step_callback_outcome _ wakes g).
Qed.

(** C6, run twice: the engine answers DONE, and the engine answers EXIT. *)
Lemma step_callbacks_reset_only_on_done_witness :
  (exists g',
      onUpdateX wake_done (running_world []) = Returned tt g' /\
      obn_signal_to_eplus g' = EPSIG_X /\
      eplus_signal_to_obn g' = OBNSIG_NONE /\
      events_since (running_world []) g' = [EvSignalEPlus EPSIG_X; EvResetEPlusSignal])
  /\
  (exists g',
      onUpdateY [mkWake 4 OBNSIG_EXIT] (running_world []) = Returned tt g' /\
      obn_signal_to_eplus g' = EPSIG_Y /\
      eplus_signal_to_obn g' = OBNSIG_EXIT /\
      events_since (running_world []) g' = [EvSignalEPlus EPSIG_Y]).
Proof.
  split.
  - apply (step_callbacks_reset_only_on_done
             onUpdateX EPSIG_X (or_intror (or_introl eq_refl))
             wake_done (running_world [])).
  - apply (step_callbacks_reset_only_on_done
             onUpdateY EPSIG_Y (or_introl eq_refl)
             [mkWake 4 OBNSIG_EXIT] (running_world [])).
Defined.

(** ** The exchange gateway *)

(** Without a node the gateway returns -1 at once. *)
Lemma exchange_without_node (dflt flaWri nDblWri : Z) (dblValWri : list float)
      (out : Buffers) (wakes1 wakes2 : list (Wake OBNSignalToEPlus)) (g : World) :
  obn_thread g = None ->
  exchangedoublewithOBN dflt flaWri nDblWri dblValWri out wakes1 wakes2 g
  = Returned (-1, set_flaRea 0 out) g.
Proof. intros H. unfold exchangedoublewithOBN. now rewrite H. Qed.

(** A first wait that does not return blocks the gateway where it stands. *)
Lemma exchange_blocked_at_first_wait (dflt flaWri nDblWri : Z) (dblValWri : list float)
      (out : Buffers) (wakes1 wakes2 : list (Wake OBNSignalToEPlus))
      (g gb : World) (th : EPlusOBNThread) :
  obn_thread g = Some th ->
  waitforOBNSignal dflt wakes1 g = Blocked gb ->
  exchangedoublewithOBN dflt flaWri nDblWri dblValWri out wakes1 wakes2 g = Blocked gb.
Proof.
  intros Hth Hw. unfold exchangedoublewithOBN. rewrite Hth.
  unfold bind at 1. now rewrite Hw.
Qed.

(** A signal other than UPDATE_Y at the first wait ends the call: the
    mailbox is reset and the signal is turned into the status and the flag. *)
Lemma exchange_other_signal_first (dflt flaWri nDblWri : Z) (dblValWri : list float)
      (out : Buffers) (wakes1 wakes2 : list (Wake OBNSignalToEPlus))
      (g g1 : World) (th : EPlusOBNThread) (sig : OBNSignalToEPlus) :
  obn_thread g = Some th ->
  waitforOBNSignal dflt wakes1 g = Returned sig g1 ->
  sig <> EPSIG_Y ->
  exchangedoublewithOBN dflt flaWri nDblWri dblValWri out wakes1 wakes2 g
  = Returned (fst (processOBNSignal sig 0),
              set_flaRea (snd (processOBNSignal sig 0)) (set_flaRea 0 out))
             (log EvResetOBNSignal (set_obn_signal_to_eplus EPSIG_NONE g1)).
Proof.
  intros Hth Hw Hsig. unfold exchangedoublewithOBN. rewrite Hth.
  unfold bind at 1. rewrite Hw.
  unfold bind at 1. unfold resetOBNSignal at 1.
  assert (E : OBNSignalToEPlus_eqb sig EPSIG_Y = false).
  { destruct (OBNSignalToEPlus_eqb sig EPSIG_Y) eqn:E; [| reflexivity].
    now apply OBNSignalToEPlus_eqb_eq in E. }
  rewrite E. cbn. now destruct (processOBNSignal sig 0).
Qed.

(** C7: when the first wait of the gateway observes TERMINATE, the call
    returns 0 with [*flaRea = 1]; the count, the values and the time of the
    caller's input buffers are as they were, the node is untouched, and the
    node-to-engine mailbox has been reset to NONE. *)
Theorem exchange_terminate_at_first_wait :
  forall (dflt flaWri nDblWri : Z) (dblValWri : list float) (out : Buffers)
         (wakes1 wakes2 : list (Wake OBNSignalToEPlus)) (g : World) (th : EPlusOBNThread),
    obn_thread g = Some th ->
    returned (waitforOBNSignal dflt wakes1 g) = Some EPSIG_TERM ->
    exists out' g',
      exchangedoublewithOBN dflt flaWri nDblWri dblValWri out wakes1 wakes2 g
      = Returned (0, out') g' /\
      flaRea out' = 1 /\
      nDblRea out' = nDblRea out /\
      dblValRea out' = dblValRea out /\
      simTimRea out' = simTimRea out /\
      obn_signal_to_eplus g' = EPSIG_NONE /\
      obn_thread g' = obn_thread g /\
      events_since g g' = [EvWaitOBN EPSIG_TERM; EvResetOBNSignal].
Proof.
  intros dflt flaWri nDblWri dblValWri out wakes1 wakes2 g th Hth Hw.
  apply waitforOBNSignal_returned_stored in Hw; [| left; discriminate].
  destruct Hw as [_ Hw].
  rewrite (exchange_other_signal_first _ _ _ _ _ _ _ _ _ _ _ Hth Hw) by discriminate.
  do 2 eexists. split; [reflexivity |]. cbn.
  repeat split. apply events_since_app. cbn. now rewrite <- app_assoc.
Qed.

(** C7, run: TERMINATE is already in the mailbox when the engine calls. *)
Lemma exchange_terminate_at_first_wait_witness :
  exists out' g',
    exchangedoublewithOBN (-1) 0 2 [1%float; 2%float] sample_out [] wake_x
                          (set_obn_signal_to_eplus EPSIG_TERM (running_world [3%float]))
    = Returned (0, out') g' /\
    flaRea out' = 1 /\
    nDblRea out' = nDblRea sample_out /\
    dblValRea out' = dblValRea sample_out /\
    simTimRea out' = simTimRea sample_out /\
    obn_signal_to_eplus g' = EPSIG_NONE /\
    obn_thread g' = obn_thread (set_obn_signal_to_eplus EPSIG_TERM (running_world [3%float])) /\
    events_since (set_obn_signal_to_eplus EPSIG_TERM (running_world [3%float])) g'
    = [EvWaitOBN EPSIG_TERM; EvResetOBNSignal].
Proof.
  apply (exchange_terminate_at_first_wait
           (-1) 0 2 [1%float; 2%float] sample_out [] wake_x
           (set_obn_signal_to_eplus EPSIG_TERM (running_world [3%float]))
           (mkThread true (sample_node [3%float])) eq_refl eq_refl).
Defined.

(** Once UPDATE_Y is observed the outputs are published and acknowledged,
    and the gateway goes on with its second half unless the published count,
    read as an [int], is negative. *)
Lemma exchange_update_y (dflt flaWri nDblWri : Z) (dblValWri : list float)
      (out : Buffers) (wakes1 wakes2 : list (Wake OBNSignalToEPlus))
      (g : World) (th : EPlusOBNThread) :
  obn_thread g = Some th ->
  returned (waitforOBNSignal dflt wakes1 g) = Some EPSIG_Y ->
  exchangedoublewithOBN dflt flaWri nDblWri dblValWri out wakes1 wakes2 g
  = if to_int (to_size_t nDblWri) >=? 0
    then exchange_inputs dflt (set_flaRea 0 out) wakes2 (published nDblWri dblValWri th g)
    else Returned (to_int (to_size_t nDblWri), set_flaRea 0 out)
                  (published nDblWri dblValWri th g).
Proof.
  intros Hth Hw.
  apply waitforOBNSignal_returned_stored in Hw; [| left; discriminate].
  destruct Hw as [_ Hw].
  unfold exchangedoublewithOBN. rewrite Hth.
  unfold bind at 1. rewrite Hw.
  unfold bind at 1. unfold resetOBNSignal at 1.
  change (negb (OBNSignalToEPlus_eqb EPSIG_Y EPSIG_Y)) with false. cbv iota.
  unfold bind at 1.
  unfold setOutputValues, update_node, update_thread, this_thread, record.
  unfold bind at 1 2 3 4. cbn [obn_thread log set_obn_signal_to_eplus]. rewrite Hth.
  unfold ret at 1. unfold bind at 1.
  unfold signalOBN at 1.
  cbn [obn_thread log set_obn_signal_to_eplus set_eplus_signal_to_obn set_obn_thread
       EPlusSignalToOBN_eqb negb andb].
  unfold exchange_inputs, published.
  now destruct (to_int (to_size_t nDblWri) >=? 0).
Qed.

(** The input phase, from a world whose node-to-engine mailbox was reset
    after UPDATE_X: the port is read against the capacity, the clock is
    taken, and DONE is posted whatever the read returned. *)
Lemma exchange_input_phase (out0 : Buffers) (g4 : World) (th : EPlusOBNThread) :
  obn_thread g4 = Some th ->
  let la := m_double_input (m_obnnode th) in
  let sz := Z.of_nat (List.length la) in
  let ret_n_vals :=
    if sz >? NDBLMAX then (-1, (0, dblValRea out0))
    else (0, (to_int sz,
              if sz >? 0 then copy_n la (Z.to_nat sz) (dblValRea out0)
              else dblValRea out0)) in
  (res <- getInputValues (nDblRea out0) (dblValRea out0) ;;
   node <- this_node ;;
   signalOBN OBNSIG_DONE ;;;
   ret (fst res,
        mkBuffers (flaRea out0) (fst (snd res))
                  (currentSimulationTime node) (snd (snd res)))) g4
  = Returned (fst ret_n_vals,
              mkBuffers (flaRea out0) (fst (snd ret_n_vals))
                        (currentSimulationTime (m_obnnode th)) (snd (snd ret_n_vals)))
             (log (EvSignalOBN OBNSIG_DONE)
                (set_eplus_signal_to_obn OBNSIG_DONE
                   (log (EvGetInputValues (fst ret_n_vals)) g4))).
Proof.
  intros Hth la sz ret_n_vals.
  unfold getInputValues, this_node, this_thread, record, signalOBN, ret, bind.
  rewrite Hth. fold la. fold sz. subst ret_n_vals.
  destruct (sz >? NDBLMAX);
    cbn [obn_thread log set_eplus_signal_to_obn]; rewrite ?Hth;
    cbn [obn_thread log set_eplus_signal_to_obn]; rewrite ?Hth; reflexivity.
Qed.

Lemma exchange_inputs_blocked (dflt : Z) (out0 : Buffers)
      (wakes2 : list (Wake OBNSignalToEPlus)) (g2 gb : World) :
  waitforOBNSignal dflt wakes2 g2 = Blocked gb ->
  exchange_inputs dflt out0 wakes2 g2 = Blocked gb.
Proof. intros Hw. unfold exchange_inputs. unfold bind at 1. now rewrite Hw. Qed.

Lemma exchange_inputs_other_signal (dflt : Z) (out0 : Buffers)
      (wakes2 : list (Wake OBNSignalToEPlus)) (g2 g3 : World) (sig : OBNSignalToEPlus) :
  waitforOBNSignal dflt wakes2 g2 = Returned sig g3 ->
  sig <> EPSIG_X ->
  exchange_inputs dflt out0 wakes2 g2
  = Returned (fst (processOBNSignal sig (flaRea out0)),
              set_flaRea (snd (processOBNSignal sig (flaRea out0))) out0)
             (log EvResetOBNSignal (set_obn_signal_to_eplus EPSIG_NONE g3)).
Proof.
  intros Hw Hsig. unfold exchange_inputs. unfold bind at 1. rewrite Hw.
  unfold bind at 1. unfold resetOBNSignal at 1.
  assert (E : OBNSignalToEPlus_eqb sig EPSIG_X = false).
  { destruct (OBNSignalToEPlus_eqb sig EPSIG_X) eqn:E; [| reflexivity].
    now apply OBNSignalToEPlus_eqb_eq in E. }
  rewrite E. cbn [negb]. cbv iota. now destruct (processOBNSignal sig (flaRea out0)).
Qed.

Lemma exchange_inputs_update_x (dflt : Z) (out0 : Buffers)
      (wakes2 : list (Wake OBNSignalToEPlus)) (g2 g3 : World) (th : EPlusOBNThread) :
  waitforOBNSignal dflt wakes2 g2 = Returned EPSIG_X g3 ->
  obn_thread g3 = Some th ->
  let la := m_double_input (m_obnnode th) in
  let sz := Z.of_nat (List.length la) in
  let ret_n_vals :=
    if sz >? NDBLMAX then (-1, (0, dblValRea out0))
    else (0, (to_int sz,
              if sz >? 0 then copy_n la (Z.to_nat sz) (dblValRea out0)
              else dblValRea out0)) in
  exchange_inputs dflt out0 wakes2 g2
  = Returned (fst ret_n_vals,
              mkBuffers (flaRea out0) (fst (snd ret_n_vals))
                        (currentSimulationTime (m_obnnode th)) (snd (snd ret_n_vals)))
             (log (EvSignalOBN OBNSIG_DONE)
                (set_eplus_signal_to_obn OBNSIG_DONE
                   (log (EvGetInputValues (fst ret_n_vals))
                      (log EvResetOBNSignal (set_obn_signal_to_eplus EPSIG_NONE g3))))).
Proof.
  intros Hw Hth la sz ret_n_vals.
  unfold exchange_inputs. unfold bind at 1. rewrite Hw.
  unfold bind at 1. unfold resetOBNSignal at 1.
  change (negb (OBNSignalToEPlus_eqb EPSIG_X EPSIG_X)) with false. cbv iota.
  now rewrite (exchange_input_phase out0 _ th) by exact Hth.
Qed.

(** The second wait of the gateway sees what a wait on the emptied mailbox
    of the calling world sees: publishing changes neither the mailbox (it
    was reset) nor the default time-out. *)
Lemma second_wait_frame (dflt nDblWri : Z) (dblValWri : list float)
      (wakes2 : list (Wake OBNSignalToEPlus)) (g : World) (th : EPlusOBNThread) :
  returned (waitforOBNSignal dflt wakes2 (published nDblWri dblValWri th g))
  = returned (waitforOBNSignal dflt wakes2 (set_obn_signal_to_eplus EPSIG_NONE g)).
Proof. now apply waitforOBNSignal_frame. Qed.

(** The engine can read back what it copied: the first [length src] cells
    of the destination hold [src], the others are as before. *)
Lemma copy_n_all (src dst : list float) :
  firstn (List.length src) (copy_n src (List.length src) dst) = src /\
  skipn (List.length src) (copy_n src (List.length src) dst)
  = skipn (List.length src) dst.
Proof.
  unfold copy_n. rewrite firstn_all. split.
  - rewrite firstn_app, firstn_all, Nat.sub_diag. cbn. now rewrite app_nil_r.
  - rewrite skipn_app, skipn_all, Nat.sub_diag. reflexivity.
Qed.

(** C1 as stated fails: with 1025 values on the input port the gateway
    returns -1 and nevertheless posts DONE after the failed read, having
    recorded the node's simulation time. *)
Lemma exchange_overflow_still_acknowledges :
  NDBLMAX < Z.of_nat (List.length (repeat 1%float 1025)) /\
  exists out' g',
    exchangedoublewithOBN (-1) 0 2 [1%float; 2%float] sample_out wake_y wake_x
                          (running_world (repeat 1%float 1025))
    = Returned (-1, out') g' /\
    posted_after_read (events_since (running_world (repeat 1%float 1025)) g')
    = Some [OBNSIG_DONE] /\
    eplus_signal_to_obn g' = OBNSIG_DONE /\
    simTimRea out' = currentSimulationTime (sample_node (repeat 1%float 1025)).
Proof.
  split; [reflexivity |].
  do 2 eexists. split; [vm_compute; reflexivity |]. repeat split.
Qed.

(** C1, amended.  Let the node exist, the output count be a non-negative
    [int], the first wait observe UPDATE_Y and the second UPDATE_X, and let
    the input port hold [sz] values.  The gateway returns, and in every case
    it has posted DONE after reading the port, [*simTimRea] is the node's
    current simulation time and [*flaRea] is 0.  If [sz] exceeds NDBLMAX the
    status is -1, [*nDblRea] is 0 and no value was copied.  If [sz] is at
    most NDBLMAX (1024 included) the status is 0, [*nDblRea] is [sz], the
    first [sz] cells of [dblValRea] are the port's values and the others are
    as they were. *)
Theorem exchange_input_capacity :
  forall (dflt flaWri nDblWri : Z) (dblValWri : list float) (out : Buffers)
         (wakes1 wakes2 : list (Wake OBNSignalToEPlus)) (g : World) (th : EPlusOBNThread),
    obn_thread g = Some th ->
    0 <= nDblWri <= INT_MAX ->
    returned (waitforOBNSignal dflt wakes1 g) = Some EPSIG_Y ->
    returned (waitforOBNSignal dflt wakes2 (set_obn_signal_to_eplus EPSIG_NONE g))
    = Some EPSIG_X ->
    let la := m_double_input (m_obnnode th) in
    let sz := Z.of_nat (List.length la) in
    exists status out' g',
      exchangedoublewithOBN dflt flaWri nDblWri dblValWri out wakes1 wakes2 g
      = Returned (status, out') g' /\
      posted_after_read (events_since g g') = Some [OBNSIG_DONE] /\
      eplus_signal_to_obn g' = OBNSIG_DONE /\
      simTimRea out' = currentSimulationTime (m_obnnode th) /\
      flaRea out' = 0 /\
      (NDBLMAX < sz ->
       status = -1 /\ nDblRea out' = 0 /\ dblValRea out' = dblValRea out) /\
      (sz <= NDBLMAX ->
       status = 0 /\ nDblRea out' = sz /\
       firstn (List.length la) (dblValRea out') = la /\
       skipn (List.length la) (dblValRea out') = skipn (List.length la) (dblValRea out)).
Proof.
  intros dflt flaWri nDblWri dblValWri out wakes1 wakes2 g th Hth Hn Hy Hx la sz.
  rewrite (exchange_update_y _ _ _ _ _ _ _ _ th Hth Hy).
  rewrite to_int_to_size_t by (unfold INT_MIN, INT_MAX in *; lia).
  assert (Hge : (nDblWri >=? 0) = true) by (apply Z.geb_le; lia).
  rewrite Hge.
  rewrite <- (second_wait_frame dflt nDblWri dblValWri wakes2 g th) in Hx.
  apply waitforOBNSignal_returned_stored in Hx; [| left; discriminate].
  destruct Hx as [_ Hx].
  rewrite (exchange_inputs_update_x
             dflt (set_flaRea 0 out) wakes2 _ _
             (set_m_obnnode
                (set_m_double_output
                   (map (array_read dblValWri) (seq 0 (Z.to_nat (to_size_t nDblWri))))
                   (m_obnnode th)) th) Hx eq_refl).
  cbn [m_obnnode set_m_obnnode m_double_input set_m_double_output
       currentSimulationTime set_flaRea dblValRea nDblRea flaRea].
  fold la. fold sz.
  do 3 eexists. split; [reflexivity |].
  split; [| split; [reflexivity | split; [reflexivity | split; [reflexivity | split]]]].
  - erewrite events_since_app.
    2:{ unfold published. cbn [history log set_eplus_signal_to_obn set_obn_thread
                               set_obn_signal_to_eplus].
        rewrite <- !app_assoc. cbn [app]. reflexivity. }
    reflexivity.
  - intros Hbig. apply Z.gtb_lt in Hbig. rewrite Hbig. cbn. auto.
  - intros Hsmall.
    assert (Hle : (sz >? NDBLMAX) = false).
    { destruct (sz >? NDBLMAX) eqn:E; [apply Z.gtb_lt in E; lia | reflexivity]. }
    rewrite Hle. cbn [fst snd dblValRea nDblRea].
    split; [reflexivity |].
    split.
    { apply to_int_id. unfold INT_MIN, INT_MAX, NDBLMAX in *. subst sz. lia. }
    destruct (sz >? 0) eqn:Hpos.
    + subst sz. rewrite Nat2Z.id. apply copy_n_all.
    + assert (Hnil : la = []).
      { destruct la; [reflexivity |]. subst sz. cbn in Hpos. discriminate. }
      rewrite Hnil. now cbn.
Qed.

(** C1, run at the boundary: 1024 values on the input port are all copied. *)
Lemma exchange_input_capacity_witness :
  exists status out' g',
    exchangedoublewithOBN (-1) 0 2 [1%float; 2%float] sample_out wake_y wake_x
                          (running_world (repeat 1%float 1024))
    = Returned (status, out') g' /\
    posted_after_read (events_since (running_world (repeat 1%float 1024)) g')
    = Some [OBNSIG_DONE] /\
    eplus_signal_to_obn g' = OBNSIG_DONE /\
    simTimRea out' = currentSimulationTime (sample_node (repeat 1%float 1024)) /\
    flaRea out' = 0 /\
    (NDBLMAX < Z.of_nat (List.length (repeat 1%float 1024)) ->
     status = -1 /\ nDblRea out' = 0 /\ dblValRea out' = dblValRea sample_out) /\
    (Z.of_nat (List.length (repeat 1%float 1024)) <= NDBLMAX ->
     status = 0 /\ nDblRea out' = Z.of_nat (List.length (repeat 1%float 1024)) /\
     firstn (List.length (repeat 1%float 1024)) (dblValRea out') = repeat 1%float 1024 /\
     skipn (List.length (repeat 1%float 1024)) (dblValRea out')
     = skipn (List.length (repeat 1%float 1024)) (dblValRea sample_out)).
Proof.
  apply (exchange_input_capacity
           (-1) 0 2 [1%float; 2%float] sample_out wake_y wake_x
           (running_world (repeat 1%float 1024))
           (mkThread true (sample_node (repeat 1%float 1024)))).
  - reflexivity.
  - unfold INT_MAX. lia.
  - reflexivity.
  - reflexivity.
Defined.

(** ** What one call of the gateway adds to the history *)

Lemma waitforOBNSignal_shape (timeout : Z) (wakes : list (Wake OBNSignalToEPlus)) (g : World) :
  (exists s m, waitforOBNSignal timeout wakes g
               = Returned s (log (EvWaitOBN s) (set_obn_signal_to_eplus m g)))
  \/ waitforOBNSignal timeout wakes g = Blocked (set_obn_signal_to_eplus EPSIG_NONE g).
Proof.
  destruct (waitforOBNSignal_cases timeout wakes g)
    as [(m & _ & E) | [(_ & E) | (_ & E)]]; eauto.
Qed.

Lemma history_published (nDblWri : Z) (dblValWri : list float)
      (th : EPlusOBNThread) (g : World) :
  history (published nDblWri dblValWri th g)
  = history g ++ [EvWaitOBN EPSIG_Y; EvResetOBNSignal;
                  EvSetOutputValues (to_size_t nDblWri); EvSignalOBN OBNSIG_DONE].
Proof. unfold published. cbn. now rewrite <- !app_assoc. Qed.

(** The second half either blocks at its wait, adding nothing, or returns
    after the wait and the reset; only after UPDATE_X does it read the input
    port and acknowledge, and any other signal decides the status. *)
Lemma exchange_inputs_events (dflt : Z) (out0 : Buffers)
      (wakes2 : list (Wake OBNSignalToEPlus)) (g2 : World) (th : EPlusOBNThread) :
  obn_thread g2 = Some th ->
  match returned (waitforOBNSignal dflt wakes2 g2) with
  | Some s =>
      exists r out' g' tail,
        exchange_inputs dflt out0 wakes2 g2 = Returned (r, out') g' /\
        history g' = history g2 ++ EvWaitOBN s :: EvResetOBNSignal :: tail /\
        ((s = EPSIG_X /\ exists r', tail = [EvGetInputValues r'; EvSignalOBN OBNSIG_DONE])
         \/ (s <> EPSIG_X /\ tail = [] /\ r = fst (processOBNSignal s (flaRea out0))))
  | None =>
      exists gb,
        exchange_inputs dflt out0 wakes2 g2 = Blocked gb /\ history gb = history g2
  end.
Proof.
  intros Hth.
  destruct (waitforOBNSignal_shape dflt wakes2 g2) as [(s & m & E) | E];
    rewrite E; cbn [returned].
  - destruct (OBNSignalToEPlus_eqb s EPSIG_X) eqn:Es.
    + apply OBNSignalToEPlus_eqb_eq in Es. subst s.
      rewrite (exchange_inputs_update_x dflt out0 wakes2 g2 _ th E Hth).
      do 4 eexists. split; [reflexivity |]. split.
      * cbn. rewrite <- !app_assoc. cbn [app]. reflexivity.
      * left. split; [reflexivity |]. now eexists.
    + assert (Hs : s <> EPSIG_X).
      { intros ->. discriminate. }
      rewrite (exchange_inputs_other_signal dflt out0 wakes2 g2 _ s E Hs).
      do 4 eexists. split; [reflexivity |]. split.
      * cbn. rewrite <- !app_assoc. cbn [app]. reflexivity.
      * right. auto.
  - rewrite (exchange_inputs_blocked dflt out0 wakes2 g2 _ E).
    eexists. split; reflexivity.
Qed.



(** A negative [*nDblWri] reaches [setOutputValues] as a count above
    2^64 - 2^31 - 1.  No vector of doubles has that many elements, so for
    such a count [resize] does not return (see [setOutputValues]). *)
Lemma negative_count_as_size_t (n : Z) :
  INT_MIN <= n < 0 ->
  to_size_t n = n + 2 ^ 64 /\ SIZE_MAX - 2 ^ 31 < to_size_t n.
Proof.
  unfold to_size_t, INT_MIN, SIZE_MAX. intros H.
  replace (n mod 2 ^ 64) with (n + 2 ^ 64)
    by (apply Z.mod_unique with (q := -1); lia).
  lia.
Qed.

(** X20.  For the counts the gateway can pass without leaving [resize] by an
    exception, the branch that skips the input phase is not taken.  On the
    node, [setOutputValues] returns its count for every count from 0 to
    INT_MAX.  The gateway passes [*nDblWri]; when that is a non-negative
    [int] and UPDATE_Y is observed, the gateway publishes, posts DONE and
    goes on to the wait for UPDATE_X: whatever that wait returns is the next
    thing in the history, and if it does not return the gateway is blocked
    there. *)
Theorem setOutputValues_returns_count :
  forall (g : World) (th : EPlusOBNThread),
    obn_thread g = Some th ->
    (forall nDbl dblVals,
        0 <= nDbl <= INT_MAX ->
        returned (setOutputValues nDbl dblVals g) = Some nDbl)
    /\
    (forall dflt flaWri nDblWri dblValWri out wakes1 wakes2,
        0 <= nDblWri <= INT_MAX ->
        returned (waitforOBNSignal dflt wakes1 g) = Some EPSIG_Y ->
        let o := exchangedoublewithOBN dflt flaWri nDblWri dblValWri out wakes1 wakes2 g in
        exists rest,
          events_since g (world_of o)
          = [EvWaitOBN EPSIG_Y; EvResetOBNSignal;
             EvSetOutputValues nDblWri; EvSignalOBN OBNSIG_DONE] ++ rest /\
          match returned (waitforOBNSignal dflt wakes2
                                           (set_obn_signal_to_eplus EPSIG_NONE g)) with
          | Some s => returned o <> None /\ exists rest', rest = EvWaitOBN s :: rest'
          | None => returned o = None /\ rest = []
          end).
Proof.
  intros g th Hth. split.
  - intros nDbl dblVals Hn.
    unfold setOutputValues, update_node, update_thread, this_thread, record, ret, bind.
    rewrite Hth. cbn [returned]. f_equal. apply to_int_id.
    unfold INT_MIN, INT_MAX in *. lia.
  - intros dflt flaWri nDblWri dblValWri out wakes1 wakes2 Hn Hy o. subst o.
    rewrite (exchange_update_y _ _ _ _ _ _ _ _ th Hth Hy).
    rewrite to_int_to_size_t by (unfold INT_MIN, INT_MAX in *; lia).
    assert (Hge : (nDblWri >=? 0) = true) by (apply Z.geb_le; lia).
    rewrite Hge.
    rewrite <- (second_wait_frame dflt nDblWri dblValWri wakes2 g th).
    pose proof (exchange_inputs_events
                  dflt (set_flaRea 0 out) wakes2 (published nDblWri dblValWri th g)
                  (set_m_obnnode
                     (set_m_double_output
                        (map (array_read dblValWri)
                             (seq 0 (Z.to_nat (to_size_t nDblWri))))
                        (m_obnnode th)) th) eq_refl) as Hev.
    destruct (returned (waitforOBNSignal dflt wakes2 (published nDblWri dblValWri th g)))
      as [s |].
    + destruct Hev as (r & out' & g' & tail & E & Hh & _). rewrite E. cbn [world_of returned].
      exists (EvWaitOBN s :: EvResetOBNSignal :: tail). split.
      * apply events_since_app. rewrite Hh, history_published.
        rewrite to_size_t_id by exact Hn. now rewrite <- app_assoc.
      * split; [discriminate | now eexists].
    + destruct Hev as (gb & E & Hh). rewrite E. cbn [world_of returned].
      exists []. split; [| now split].
      apply events_since_app. rewrite Hh, history_published.
      now rewrite to_size_t_id by exact Hn.
Qed.

(** X20, run: a count of two is returned as it is. *)
Lemma setOutputValues_returns_count_witness :
  returned (setOutputValues 2 [1%float; 2%float] (running_world [])) = Some 2.
Proof.
  apply (proj1 (setOutputValues_returns_count
                  (running_world []) (mkThread true (sample_node [])) eq_refl)
               2 [1%float; 2%float]).
  unfold INT_MAX. lia.
Defined.

(** ** Publications and observed updates *)




Lemma observes_update_y_true (dflt : Z) (c : Call) (g : World) :
  observes_update_y dflt c g = true <->
  obn_thread g <> None /\ returned (waitforOBNSignal dflt (c_wakes1 c) g) = Some EPSIG_Y.
Proof.
  unfold observes_update_y.
  destruct (obn_thread g);
    destruct (returned (waitforOBNSignal dflt (c_wakes1 c) g)) as [[] |];
    split; intros H; try discriminate; try (split; congruence);
    destruct H; congruence.
Qed.







(** ** The configuration reader *)

(** A line read from a non-empty text leaves less text. *)
Lemma read_line_shorter (s : string) :
  forall l r e, read_line s = (l, r, e) ->
                (String.length r <= String.length s)%nat /\
                (s <> EmptyString -> e = false -> String.length r < String.length s)%nat.
Proof.
  induction s as [| c s IH]; intros l r e; cbn [read_line].
  - intros H. inversion H; subst. split; [cbn; lia | congruence].
  - destruct (Ascii.eqb c newline).
    + intros H. inversion H; subst. cbn. split; lia.
    + destruct (read_line s) as [[l' r'] e'] eqn:E. intros H. inversion H; subst.
      destruct (IH _ _ _ eq_refl) as [Hle Hlt]. cbn [String.length]. split; [lia |].
      intros _ He. destruct s as [| c' s'].
      * cbn in E. inversion E; subst. discriminate.
      * specialize (Hlt ltac:(discriminate) He). lia.
Qed.

Lemma getline_readable (cf : ifstream) (line : string) :
  readable cf ->
  eofbit cf = false ->
  let cf' := snd (getline cf line) in
  readable cf' /\
  (eofbit cf' = true \/ String.length (remaining cf') < String.length (remaining cf))%nat.
Proof.
  intros [Hf | He] Hne; [| congruence].
  unfold getline. rewrite Hne, Hf. cbn [orb].
  destruct (remaining cf) as [| c s] eqn:Er.
  - cbn. split; [now right | now left].
  - destruct (read_line (String c s)) as [[l r] e] eqn:E. cbn [snd].
    split; [now left |]. cbn [eofbit remaining].
    destruct e; [now left | right].
    apply (read_line_shorter _ _ _ _ E); [discriminate | reflexivity].
Qed.

Section Reader.

Variables trim toLower : string -> string.

(** The optional lines set options only: no node appears or disappears. *)
Lemma read_option_thread (oneline : string) (g : World) :
  obn_thread (world_of (read_option trim toLower oneline g)) = obn_thread g.
Proof.
  unfold read_option.
  destruct (String.eqb _ "quitifobnstops"); [reflexivity |].
  destruct (String.eqb _ "timeout"); [| reflexivity].
  destruct (negb _); reflexivity.
Qed.

Lemma read_options_thread (fuel : nat) :
  forall cf oneline g,
    obn_thread (snd (read_options trim toLower fuel cf oneline g)) = obn_thread g.
Proof.
  induction fuel as [| fuel IH]; intros cf oneline g; cbn [read_options];
    [reflexivity |].
  destruct (eofbit cf); [reflexivity |].
  destruct (getline cf oneline) as [oneline' cf'].
  rewrite IH. destruct (negb (failbit cf')); [apply read_option_thread | reflexivity].
Qed.

(** The loop over the optional lines ends at the end of the file, and more
    rounds than the text has characters are never used. *)
Lemma read_options_enough_fuel (fuel : nat) :
  forall cf oneline g,
    readable cf ->
    (String.length (remaining cf) < fuel)%nat ->
    eofbit (fst (read_options trim toLower fuel cf oneline g)) = true /\
    forall fuel', (fuel <= fuel')%nat ->
                  read_options trim toLower fuel' cf oneline g
                  = read_options trim toLower fuel cf oneline g.
Proof.
  induction fuel as [| fuel IH]; intros cf oneline g Hr Hlen; [lia |].
  cbn [read_options].
  destruct (eofbit cf) eqn:He.
  - split; [exact He |]. intros [| fuel'] Hle; [lia |].
    cbn [read_options]. now rewrite He.
  - destruct (getline_readable cf oneline Hr He) as [Hr' Hshort].
    destruct (getline cf oneline) as [oneline' cf'] eqn:Eg. cbn [snd] in Hr', Hshort.
    destruct Hshort as [Heof | Hshort].
    + split.
      * destruct fuel; cbn [read_options]; [exact Heof | now rewrite Heof].
      * intros [| fuel'] Hle; [lia |]. cbn [read_options]. rewrite He, Eg.
        destruct fuel, fuel'; cbn [read_options]; rewrite ?Heof; reflexivity.
    + destruct (IH cf' oneline'
                   (if negb (failbit cf')
                    then world_of (read_option trim toLower oneline' g) else g)
                   Hr' ltac:(lia)) as [Hend Hmore].
      split; [exact Hend |].
      intros [| fuel'] Hle; [lia |]. cbn [read_options]. rewrite He, Eg.
      apply Hmore. lia.
Qed.

End Reader.

Lemma getline_remaining (cf : ifstream) (line : string) :
  (String.length (remaining (snd (getline cf line))) <= String.length (remaining cf))%nat.
Proof.
  unfold getline. destruct (eofbit cf || failbit cf); [cbn; lia |].
  destruct (remaining cf) as [| c s] eqn:Er; [cbn; lia |].
  destruct (read_line (String c s)) as [[l r] e] eqn:E. cbn [snd remaining].
  apply (read_line_shorter _ _ _ _ E).
Qed.

(** The rounds [initOBNNode] grants the loop are enough for every file: after
    the two leading lines were read, the loop runs to the end of the file and
    would do the same with any larger bound. *)
Lemma initOBNNode_fuel_suffices (trim toLower : string -> string)
      (text l1 l2 : string) (g : World) :
  let cf1 := snd (getline (mkStream text false false) l1) in
  let cf2 := snd (getline cf1 l2) in
  failbit cf2 = false ->
  eofbit (fst (read_options trim toLower (S (String.length text)) cf2 l2 g)) = true /\
  forall fuel', (S (String.length text) <= fuel')%nat ->
                read_options trim toLower fuel' cf2 l2 g
                = read_options trim toLower (S (String.length text)) cf2 l2 g.
Proof.
  intros cf1 cf2 Hf.
  apply read_options_enough_fuel; [now left |].
  pose proof (getline_remaining cf1 l2) as H2.
  pose proof (getline_remaining (mkStream text false false) l1) as H1.
  fold cf1 in H1. fold cf2 in H2. cbn [remaining] in H1. lia.
Qed.

(** Starting the thread of a node whose thread does not run yet: the result
    is the framework's answer, and so is whether a thread runs afterwards. *)
Lemma startThread_result (fw : Framework) (g0 : World) (th0 : EPlusOBNThread) :
  obn_thread g0 = Some th0 ->
  m_thread_joinable th0 = false ->
  exists g' th,
    startThread fw g0 = Returned (openSMNPort fw && (addInput fw && addOutput fw)) g' /\
    obn_thread g' = Some th /\
    m_obnnode th = m_obnnode th0 /\
    m_thread_joinable th = (openSMNPort fw && (addInput fw && addOutput fw)) /\
    default_obn_timeout g' = default_obn_timeout g0.
Proof.
  intros Hth Hj.
  unfold startThread, initialize, update_thread, this_thread, ret, bind.
  rewrite Hth, Hj.
  destruct (openSMNPort fw); cbn [negb andb];
    [destruct (addInput fw && addOutput fw); cbn [negb]; rewrite ?Hth |];
    do 2 eexists; (split; [reflexivity |]); cbn; rewrite ?Hth; repeat split; auto.
Qed.

Section Scenario.

Variables trim toLower : string -> string.
Variable isValidNodeName : string -> bool.

(** The reader, with the lines it has read named. *)
Lemma initOBNNode_unfold (fs : FileSystem) (fw : Framework) (path text : string) (g : World) :
obn_thread g = None ->
fs path = Some text ->
let r1 := getline (mkStream text false false) EmptyString in
let s1 := negb (failbit (snd r1)) in
let w1 := if s1 then first_word (fst r1) EmptyString else (EmptyString, EmptyString) in
let r2 := if s1 then getline (snd r1) (fst r1) else r1 in
let s2 := s1 && negb (failbit (snd r2)) in
let w2 := if s2 then first_word (fst r2) EmptyString else (EmptyString, EmptyString) in
let g1 := if s2
          then snd (read_options trim toLower (S (String.length text)) (snd r2) (fst r2) g)
          else g in
initOBNNode trim toLower isValidNodeName fs fw (Some path) g
= if negb s2 then Returned false g1
  else if String.eqb (toLower (trim (fst w1))) "mqtt" then
         if negb (isValidNodeName (trim (fst w2))) then Returned false g1
         else
           ((if negb (empty (trim (snd w1)))
             then update_node (set_server_address (trim (snd w1)))
             else ret tt) ;;;
            startThread fw)
             (set_obn_thread (Some (new_EPlusOBNThread (trim (fst w2)) (snd w2))) g1)
       else Returned false g1.
Proof.
intros Hth Hfs. unfold initOBNNode. rewrite Hth, Hfs. cbv zeta.
destruct (getline (mkStream text false false) EmptyString) as [oneline cf].
cbn [fst snd].
destruct (negb (failbit cf)); cbn [andb].
- destruct (first_word oneline EmptyString) as [comm comm_config].
  destruct (getline cf oneline) as [oneline2 cf2]. cbn [fst snd].
  destruct (negb (failbit cf2)); [| reflexivity].
  now destruct (first_word oneline2 EmptyString) as [node_name0 workspace0].
- reflexivity.
Qed.

Lemma read_options_step (fuel : nat) (cf : ifstream) (l : string) (g : World) :
eofbit cf = false ->
read_options trim toLower (S fuel) cf l g
= read_options trim toLower fuel (snd (getline cf l)) (fst (getline cf l))
               (if negb (failbit (snd (getline cf l)))
                then world_of (read_option trim toLower (fst (getline cf l)) g)
                else g).
Proof.
intros He. cbn [read_options]. rewrite He. now destruct (getline cf l).
Qed.

Lemma read_options_at_eof (fuel : nat) (cf : ifstream) (l : string) (g : World) :
eofbit cf = true -> read_options trim toLower fuel cf l g = (cf, g).
Proof. intros He. destruct fuel; cbn [read_options]; [reflexivity | now rewrite He]. Qed.

(** What the node library's utilities do on the words of the sample
    configuration. *)
Hypothesis Hmqtt : toLower (trim "mqtt") = "mqtt".
Hypothesis Hnode : trim "node1" = "node1".
Hypothesis Hvalid : isValidNodeName "node1" = true.
Hypothesis Htimeout : toLower (trim "timeout") = "timeout".
Hypothesis Hfive : trim "5" = "5".

(** Evaluation of the closed stream operations of a scenario, one
    occurrence at a time. *)
Ltac eval_streams :=
  repeat match goal with
    | |- context [getline ?s ?l] =>
        let v := eval vm_compute in (getline s l) in
        progress change (getline s l) with v
    | |- context [String.length ?t] =>
        let v := eval vm_compute in (String.length t) in
        progress change (String.length t) with v
    | |- context [first_word ?t] =>
        let v := eval vm_compute in (first_word t) in
        progress change (first_word t) with v
    | H : context [getline ?s ?l] |- _ =>
        let v := eval vm_compute in (getline s l) in
        progress change (getline s l) with v in H
    | H : context [String.length ?t] |- _ =>
        let v := eval vm_compute in (String.length t) in
        progress change (String.length t) with v in H
    end.

Lemma read_option_timeout_5 (g : World) :
read_option trim toLower "timeout 5" g = Returned tt (set_default_obn_timeout 5 g).
Proof.
unfold read_option.
change (find_first_of "timeout 5" spacechars) with (Some 7%nat).
cbv beta iota zeta.
change (substr_to 7 "timeout 5") with "timeout".
change (Nat.leb (7 + 2) (String.length "timeout 5")) with true.
change (substr_from (7 + 1) "timeout 5") with "5".
cbv iota. rewrite Htimeout, Hfive.
reflexivity.
Qed.

Lemma read_sample_options (trailing : bool) (g : World) :
let text := sample_config_text trailing in
let cf2 := snd (getline (snd (getline (mkStream text false false) "")) "mqtt") in
snd (read_options trim toLower (S (String.length text)) cf2 "node1 myworkspace" g)
= set_default_obn_timeout 5 g.
Proof.
destruct trailing; eval_streams; cbv zeta; cbn [snd].
- rewrite read_options_step by reflexivity.
  eval_streams. cbn [fst snd failbit negb].
  rewrite read_option_timeout_5. cbn [world_of].
  rewrite read_options_step by reflexivity.
  eval_streams. cbn [fst snd failbit negb].
  now rewrite read_options_at_eof.
- rewrite read_options_step by reflexivity.
  eval_streams. cbn [fst snd failbit negb].
  rewrite read_option_timeout_5. cbn [world_of].
  now rewrite read_options_at_eof.
Qed.

Lemma init_sample (fw : Framework) (g : World) (trailing : bool) :
obn_thread g = None ->
   exists g' th,
     initOBNNode trim toLower isValidNodeName
                 (sample_fs (sample_config_text trailing)) fw
                 (Some "obn.cfg") g
     = Returned (openSMNPort fw && (addInput fw && addOutput fw)) g' /\
     obn_thread g' = Some th /\
     node_name (m_obnnode th) = "node1" /\
     node_workspace (m_obnnode th) = "myworkspace" /\
     m_thread_joinable th = (openSMNPort fw && (addInput fw && addOutput fw)) /\
     default_obn_timeout g' = 5.
Proof.
intros Hth.
rewrite (initOBNNode_unfold _ fw "obn.cfg" (sample_config_text trailing) g Hth eq_refl).
pose proof (read_sample_options trailing g) as Hopt.
cbv zeta in Hopt |- *.
destruct trailing;
  eval_streams; cbn [fst snd failbit negb andb] in Hopt |- *;
  eval_streams; cbn [fst snd];
  rewrite Hopt, Hmqtt, Hnode, Hvalid;
  change ("mqtt" =? "mqtt")%string with true; cbn [negb];
  (destruct (negb (empty (trim "")));
   [ destruct (startThread_result
                 fw
                 (set_obn_thread
                    (Some (set_m_obnnode
                             (set_server_address
                                (trim "")
                                (m_obnnode (new_EPlusOBNThread "node1" "myworkspace")))
                             (new_EPlusOBNThread "node1" "myworkspace")))
                    (set_obn_thread (Some (new_EPlusOBNThread "node1" "myworkspace"))
                                    (set_default_obn_timeout 5 g)))
                 _ eq_refl eq_refl) as (g' & th & E & Ht & Hn & Hj & Hd)
   | destruct (startThread_result
                 fw
                 (set_obn_thread (Some (new_EPlusOBNThread "node1" "myworkspace"))
                                 (set_default_obn_timeout 5 g))
                 _ eq_refl eq_refl) as (g' & th & E & Ht & Hn & Hj & Hd) ];
   exists g', th;
   (split; [exact E |]); rewrite Hn; repeat split; assumption).
Qed.

End Scenario.

(** C8 as stated fails: a configuration whose transport selector is "tcp" is
    answered with [true] when a node object exists already.  Here the node
    is the one a first call left behind: the sample configuration was
    accepted, but the framework did not open the port, so that call returned
    [false] with the node created and no thread running. *)
Lemma initOBNNode_existing_node_accepts_any_transport :
  sample_toLower (sample_trim (transport_selector (unlines ["tcp"; "node2 ws"])))
  <> "mqtt" /\
  exists g1,
    initOBNNode sample_trim sample_toLower sample_isValidNodeName
                (sample_fs sample_config) (mkFramework false true true)
                (Some "obn.cfg") initial_world
    = Returned false g1 /\
    running g1 = false /\
    initOBNNode sample_trim sample_toLower sample_isValidNodeName
                (sample_fs (unlines ["tcp"; "node2 ws"])) sample_fw
                (Some "obn.cfg") g1
    = Returned true g1.
Proof.
  split; [vm_compute; discriminate |].
  eexists. split; [vm_compute; reflexivity |]. split; reflexivity.
Qed.

(** C8, amended.  Whether [initOBNNode] reads the configuration depends on
    the node object.

    Let no node exist yet.
    - The file with the lines "mqtt", "node1 myworkspace", "timeout 5", with
      or without a final newline: when the node library's utilities leave
      these words alone ([trim], [toLower]) and accept the name "node1", the
      transport is accepted, the node is created with name "node1" and
      workspace "myworkspace", the default time-out becomes 5, and the result
      is that of starting the thread, which is what the framework answers
      when the node's port is opened and its ports are registered.
    - For every file whose transport selector, trimmed and lower-cased, is
      not "mqtt", the result is [false] and there is still no node.

    Let a node exist, started or not.  Then for every file system and file
    name the result is [true] and nothing has changed: the file is not read,
    so its transport selector has no say. *)
Theorem initOBNNode_reads_configuration :
  forall (trim toLower : string -> string) (isValidNodeName : string -> bool)
         (fw : Framework) (g : World),
    (obn_thread g = None ->
     (toLower (trim "mqtt") = "mqtt" ->
      trim "node1" = "node1" ->
      isValidNodeName "node1" = true ->
      toLower (trim "timeout") = "timeout" ->
      trim "5" = "5" ->
      forall trailing_newline : bool,
      exists g' th,
        initOBNNode trim toLower isValidNodeName
                    (sample_fs (sample_config_text trailing_newline)) fw
                    (Some "obn.cfg") g
        = Returned (openSMNPort fw && (addInput fw && addOutput fw)) g' /\
        obn_thread g' = Some th /\
        node_name (m_obnnode th) = "node1" /\
        node_workspace (m_obnnode th) = "myworkspace" /\
        m_thread_joinable th = (openSMNPort fw && (addInput fw && addOutput fw)) /\
        default_obn_timeout g' = 5)
     /\
     (forall (fs : FileSystem) (path text : string),
         fs path = Some text ->
         toLower (trim (transport_selector text)) <> "mqtt" ->
         exists g',
           initOBNNode trim toLower isValidNodeName fs fw (Some path) g
           = Returned false g' /\
           obn_thread g' = None))
    /\
    (obn_thread g <> None ->
     forall (fs : FileSystem) (path : string),
       initOBNNode trim toLower isValidNodeName fs fw (Some path) g
       = Returned true g).
Proof.
  intros trim toLower isValidNodeName fw g. split; [intro Hth; split |].
  - intros Hmqtt Hnode Hvalid Htimeout Hfive trailing.
    now apply init_sample.
  - intros fs path text Hfs Hsel.
    rewrite (initOBNNode_unfold trim toLower isValidNodeName fs fw path text g Hth Hfs).
    cbv zeta. unfold transport_selector, first_line in Hsel.
    set (r1 := getline (mkStream text false false) EmptyString) in *.
    destruct (negb (failbit (snd r1))); cbn [andb negb].
    + destruct (negb (failbit (snd (getline (snd r1) (fst r1))))); cbn [negb].
      * destruct (String.eqb (toLower (trim (fst (first_word (fst r1) EmptyString)))) "mqtt")
          eqn:Ec.
        { apply String.eqb_eq in Ec. contradiction. }
        eexists. split; [reflexivity |]. now rewrite read_options_thread.
      * eexists. split; [reflexivity | exact Hth].
    + eexists. split; [reflexivity | exact Hth].
  - intros Hnode fs path. unfold initOBNNode.
    destruct (obn_thread g); [reflexivity | contradiction].
Qed.

(** C8, run with an instance of the node library's utilities, from the
    world at process start and with a framework that opens the port. *)
Lemma initOBNNode_reads_configuration_witness :
  exists g' th,
    initOBNNode sample_trim sample_toLower sample_isValidNodeName
                (sample_fs (sample_config_text false)) sample_fw
                (Some "obn.cfg") initial_world
    = Returned (openSMNPort sample_fw && (addInput sample_fw && addOutput sample_fw)) g' /\
    obn_thread g' = Some th /\
    node_name (m_obnnode th) = "node1" /\
    node_workspace (m_obnnode th) = "myworkspace" /\
    m_thread_joinable th
    = (openSMNPort sample_fw && (addInput sample_fw && addOutput sample_fw)) /\
    default_obn_timeout g' = 5.
Proof.
  exact (proj1 (proj1 (initOBNNode_reads_configuration
                         sample_trim sample_toLower sample_isValidNodeName
                         sample_fw initial_world) eq_refl)
               eq_refl eq_refl eq_refl eq_refl eq_refl false).
Defined.

(** With a node in place the same configuration is not read at all. *)
Lemma initOBNNode_skips_the_file_when_a_node_exists :
  default_obn_timeout (running_world []) = -1 /\
  initOBNNode sample_trim sample_toLower sample_isValidNodeName
              (sample_fs sample_config) sample_fw (Some "obn.cfg") (running_world [])
  = Returned true (running_world []).
Proof. split; reflexivity. Qed.

(** * Further properties of the bridge *)

(** ** Every way through the gateway *)

Lemma consumed_observed (s m : OBNSignalToEPlus) (g : World) :
  log EvResetOBNSignal
      (set_obn_signal_to_eplus EPSIG_NONE
         (log (EvWaitOBN s) (set_obn_signal_to_eplus m g)))
  = consumed (observed s g).
Proof. reflexivity. Qed.

Lemma obn_thread_published (nDblWri : Z) (dblValWri : list float)
      (th : EPlusOBNThread) (g : World) :
  obn_thread (published nDblWri dblValWri th g)
  = Some (set_m_obnnode
            (set_m_double_output
               (map (array_read dblValWri) (seq 0 (Z.to_nat (to_size_t nDblWri))))
               (m_obnnode th)) th).
Proof. reflexivity. Qed.

(** A call of the gateway takes one of seven ways; each is given with its
    result and the world it leaves. *)
Lemma exchange_paths (dflt flaWri nDblWri : Z) (dblValWri : list float)
      (out : Buffers) (wakes1 wakes2 : list (Wake OBNSignalToEPlus)) (g : World) :
  let out0 := set_flaRea 0 out in
  let o := exchangedoublewithOBN dflt flaWri nDblWri dblValWri out wakes1 wakes2 g in
  (obn_thread g = None /\ o = Returned (-1, out0) g)
  \/
  exists th,
    obn_thread g = Some th /\
    let g2 := published nDblWri dblValWri th g in
    ((returned (waitforOBNSignal dflt wakes1 g) = None /\
      o = Blocked (set_obn_signal_to_eplus EPSIG_NONE g))
     \/
     (exists s,
         returned (waitforOBNSignal dflt wakes1 g) = Some s /\ s <> EPSIG_Y /\
         o = Returned (short_circuit s out0) (consumed (observed s g)))
     \/
     (returned (waitforOBNSignal dflt wakes1 g) = Some EPSIG_Y /\
      to_int (to_size_t nDblWri) < 0 /\
      o = Returned (to_int (to_size_t nDblWri), out0) g2)
     \/
     (returned (waitforOBNSignal dflt wakes1 g) = Some EPSIG_Y /\
      0 <= to_int (to_size_t nDblWri) /\
      returned (waitforOBNSignal dflt wakes2 g2) = None /\
      o = Blocked (set_obn_signal_to_eplus EPSIG_NONE g2))
     \/
     (exists s,
         returned (waitforOBNSignal dflt wakes1 g) = Some EPSIG_Y /\
         0 <= to_int (to_size_t nDblWri) /\
         returned (waitforOBNSignal dflt wakes2 g2) = Some s /\ s <> EPSIG_X /\
         o = Returned (short_circuit s out0) (consumed (observed s g2)))
     \/
     (returned (waitforOBNSignal dflt wakes1 g) = Some EPSIG_Y /\
      0 <= to_int (to_size_t nDblWri) /\
      returned (waitforOBNSignal dflt wakes2 g2) = Some EPSIG_X /\
      o = Returned (read_inputs (m_double_input (m_obnnode th))
                                (currentSimulationTime (m_obnnode th)) out0)
                   (acknowledged
                      (fst (read_inputs (m_double_input (m_obnnode th))
                                        (currentSimulationTime (m_obnnode th)) out0))
                      (consumed (observed EPSIG_X g2))))).
Proof.
  intros out0 o. subst o.
  destruct (obn_thread g) as [th |] eqn:Hth.
  2:{ left. split; [reflexivity |]. now apply exchange_without_node. }
  right. exists th. split; [reflexivity |]. intros g2.
  destruct (waitforOBNSignal_shape dflt wakes1 g) as [(s & m & E) | E].
  2:{ left. rewrite E. split; [reflexivity |].
      now apply (exchange_blocked_at_first_wait _ _ _ _ _ _ _ _ _ th). }
  right.
  destruct (OBNSignalToEPlus_eqb s EPSIG_Y) eqn:Es.
  2:{ left. exists s.
      assert (Hs : s <> EPSIG_Y) by (intros ->; discriminate).
      rewrite (exchange_other_signal_first _ _ _ _ _ _ _ _ _ th s Hth E Hs), E.
      repeat split. exact Hs. }
  right.
  apply OBNSignalToEPlus_eqb_eq in Es. subst s.
  assert (Hy : returned (waitforOBNSignal dflt wakes1 g) = Some EPSIG_Y) by now rewrite E.
  rewrite (exchange_update_y _ _ _ _ _ _ _ _ th Hth Hy). fold g2. fold out0.
  destruct (to_int (to_size_t nDblWri) >=? 0) eqn:Hge.
  2:{ left. repeat split; [exact Hy |].
      destruct (Z.geb_spec (to_int (to_size_t nDblWri)) 0); [discriminate | lia]. }
  right.
  assert (Hpos : 0 <= to_int (to_size_t nDblWri)).
  { destruct (Z.geb_spec (to_int (to_size_t nDblWri)) 0); [lia | discriminate]. }
  destruct (waitforOBNSignal_shape dflt wakes2 g2) as [(s & m2 & E2) | E2].
  2:{ left. rewrite E2. repeat split; try assumption.
      now apply exchange_inputs_blocked. }
  right.
  destruct (OBNSignalToEPlus_eqb s EPSIG_X) eqn:Es.
  - right. apply OBNSignalToEPlus_eqb_eq in Es. subst s.
    rewrite E2. repeat split; try assumption.
    rewrite (exchange_inputs_update_x dflt out0 wakes2 g2 _ _ E2
                                      (obn_thread_published nDblWri dblValWri th g)).
    unfold read_inputs.
    cbn [m_obnnode set_m_obnnode m_double_input set_m_double_output
         currentSimulationTime].
    destruct (Z.of_nat (List.length (m_double_input (m_obnnode th))) >? NDBLMAX);
      reflexivity.
  - left. exists s.
    assert (Hs : s <> EPSIG_X) by (intros ->; discriminate).
    rewrite (exchange_inputs_other_signal dflt out0 wakes2 g2 _ s E2 Hs), E2.
    repeat split; assumption.
Qed.

(** The table of [processOBNSignal], as the gateway applies it. *)
Lemma short_circuit_table (s : OBNSignalToEPlus) (out0 : Buffers) :
  flaRea out0 = 0 ->
  let r := short_circuit s out0 in
  nDblRea (snd r) = nDblRea out0 /\
  dblValRea (snd r) = dblValRea out0 /\
  simTimRea (snd r) = simTimRea out0 /\
  ((s = EPSIG_TERM /\ fst r = 0 /\ flaRea (snd r) = 1)
   \/ (s = EPSIG_QUIT /\ fst r = 0 /\ flaRea (snd r) = -1)
   \/ (s = EPSIG_TIMEOUT /\ fst r = -21 /\ flaRea (snd r) = 0)
   \/ (s <> EPSIG_TERM /\ s <> EPSIG_QUIT /\ s <> EPSIG_TIMEOUT /\
       fst r = -22 /\ flaRea (snd r) = 0)).
Proof.
  intros H0 r. subst r. unfold short_circuit.
  destruct s; cbn; rewrite ?H0; repeat split; try tauto;
    (right; right; right; repeat split; discriminate).
Qed.

Lemma read_inputs_result (la : list float) (clock : float) (out0 : Buffers) :
  let r := read_inputs la clock out0 in
  flaRea (snd r) = flaRea out0 /\
  simTimRea (snd r) = clock /\
  ((NDBLMAX < Z.of_nat (List.length la) /\ fst r = -1 /\ nDblRea (snd r) = 0 /\
    dblValRea (snd r) = dblValRea out0)
   \/ (Z.of_nat (List.length la) <= NDBLMAX /\ fst r = 0 /\
       nDblRea (snd r) = Z.of_nat (List.length la) /\
       firstn (List.length la) (dblValRea (snd r)) = la /\
       skipn (List.length la) (dblValRea (snd r))
       = skipn (List.length la) (dblValRea out0))).
Proof.
  intros r. subst r. unfold read_inputs.
  destruct (Z.gtb_spec (Z.of_nat (List.length la)) NDBLMAX) as [Hbig | Hsmall]; cbn.
  - repeat split. left. repeat split. lia.
  - repeat split. right. split; [exact Hsmall |]. split; [reflexivity |].
    split; [apply to_int_id; unfold INT_MIN, INT_MAX, NDBLMAX in *; lia |].
    destruct (Z.of_nat (List.length la) >? 0) eqn:Hpos.
    + rewrite Nat2Z.id. apply copy_n_all.
    + destruct la; [now cbn | cbn in Hpos; discriminate].
Qed.

(** X1.  Whatever the gateway returns, the status is never positive: it is
    0, -1 (no node, or too many inputs), -21 (time-out), -22 (unexpected
    signal) or the negative [int] a wrapped output count gives; the flag is
    0, 1 or -1, and a flag other than 0 comes with status 0.  The gateway
    never calls through a null pointer. *)
Theorem exchange_status_range :
  forall (dflt flaWri nDblWri : Z) (dblValWri : list float) (out : Buffers)
         (wakes1 wakes2 : list (Wake OBNSignalToEPlus)) (g : World),
    let o := exchangedoublewithOBN dflt flaWri nDblWri dblValWri out wakes1 wakes2 g in
    (forall gb, o <> NullDeref gb) /\
    (forall status out',
        returned o = Some (status, out') ->
        status <= 0 /\
        (status = 0 \/ status = -1 \/ status = -21 \/ status = -22
         \/ status = to_int (to_size_t nDblWri)) /\
        (flaRea out' = 0 \/ flaRea out' = 1 \/ flaRea out' = -1) /\
        (flaRea out' <> 0 -> status = 0)).
Proof.
  intros dflt flaWri nDblWri dblValWri out wakes1 wakes2 g o.
  pose proof (exchange_paths dflt flaWri nDblWri dblValWri out wakes1 wakes2 g) as P.
  cbv zeta in P. fold o in P.
  assert (Hsc : forall s status out',
             Some (short_circuit s (set_flaRea 0 out)) = Some (status, out') ->
             status <= 0 /\
             (status = 0 \/ status = -1 \/ status = -21 \/ status = -22
              \/ status = to_int (to_size_t nDblWri)) /\
             (flaRea out' = 0 \/ flaRea out' = 1 \/ flaRea out' = -1) /\
             (flaRea out' <> 0 -> status = 0)).
  { intros s status out' H. inversion H; subst.
    destruct s; cbn; repeat split; try lia; try tauto; intros; lia. }
  destruct P as [[_ E] | (th & _ & [[_ E] | [(s & _ & _ & E) | [(_ & Hn & E)
               | [(_ & _ & _ & E) | [(s & _ & _ & _ & _ & E) | (_ & _ & _ & E)]]]]])];
    rewrite E; (split; [discriminate |]); intros status out' H; cbn [returned] in H;
    try discriminate.
  - inversion H; subst. cbn. repeat split; try lia; tauto.
  - now apply (Hsc s).
  - inversion H; subst. cbn. repeat split; try lia; tauto.
  - now apply (Hsc s).
  - pose proof (read_inputs_result (m_double_input (m_obnnode th))
                                   (currentSimulationTime (m_obnnode th))
                                   (set_flaRea 0 out)) as R.
    cbv zeta in R. inversion H as [Hr]. rewrite Hr in R. cbn [fst snd] in R.
    destruct R as (Hf & _ & [(_ & -> & _) | (_ & -> & _)]);
      rewrite Hf; cbn; repeat split; try lia; tauto.
Qed.

(** X1, run: the full exchange of the scenario returns status 0, flag 0. *)
Lemma exchange_status_range_witness :
  0 <= 0 /\
  (0 = 0 \/ 0 = -1 \/ 0 = -21 \/ 0 = -22 \/ 0 = to_int (to_size_t 2)) /\
  (flaRea (mkBuffers 0 3 12.5%float
                     ([3%float; 4%float; 5%float] ++ repeat 0%float 1021)) = 0
   \/ flaRea (mkBuffers 0 3 12.5%float
                        ([3%float; 4%float; 5%float] ++ repeat 0%float 1021)) = 1
   \/ flaRea (mkBuffers 0 3 12.5%float
                        ([3%float; 4%float; 5%float] ++ repeat 0%float 1021)) = -1) /\
  (flaRea (mkBuffers 0 3 12.5%float
                     ([3%float; 4%float; 5%float] ++ repeat 0%float 1021)) <> 0 -> 0 = 0).
Proof.
  apply (proj2 (exchange_status_range
                  (-1) 0 2 [1%float; 2%float] sample_out wake_y wake_x
                  (running_world [3%float; 4%float; 5%float]))
               0 (mkBuffers 0 3 12.5%float
                            ([3%float; 4%float; 5%float] ++ repeat 0%float 1021))).
  vm_compute. reflexivity.
Defined.

Lemma history_consumed_observed (s : OBNSignalToEPlus) (g : World) :
  history (consumed (observed s g)) = history g ++ [EvWaitOBN s; EvResetOBNSignal].
Proof. cbn. now rewrite <- app_assoc. Qed.

Lemma history_acknowledged (r : Z) (g : World) :
  history (acknowledged r g) = history g ++ [EvGetInputValues r; EvSignalOBN OBNSIG_DONE].
Proof. cbn. now rewrite <- app_assoc. Qed.

(** X2.  Status 0 with flag 0 is returned only after a complete step: a node
    exists, UPDATE_Y was observed at the first wait and UPDATE_X at the
    second, the input port held at most NDBLMAX values, and the gateway did,
    in this order, observe, reset, publish, acknowledge, observe, reset,
    read and acknowledge.  The buffers then hold the port's count and values
    and the node's clock. *)
Theorem exchange_success_is_a_full_step :
  forall (dflt flaWri nDblWri : Z) (dblValWri : list float) (out out' : Buffers)
         (wakes1 wakes2 : list (Wake OBNSignalToEPlus)) (g : World),
    returned (exchangedoublewithOBN dflt flaWri nDblWri dblValWri out wakes1 wakes2 g)
    = Some (0, out') ->
    flaRea out' = 0 ->
    exists th,
      obn_thread g = Some th /\
      returned (waitforOBNSignal dflt wakes1 g) = Some EPSIG_Y /\
      returned (waitforOBNSignal dflt wakes2 (set_obn_signal_to_eplus EPSIG_NONE g))
      = Some EPSIG_X /\
      Z.of_nat (List.length (m_double_input (m_obnnode th))) <= NDBLMAX /\
      nDblRea out' = Z.of_nat (List.length (m_double_input (m_obnnode th))) /\
      firstn (List.length (m_double_input (m_obnnode th))) (dblValRea out')
      = m_double_input (m_obnnode th) /\
      simTimRea out' = currentSimulationTime (m_obnnode th) /\
      events_since
        g (world_of (exchangedoublewithOBN dflt flaWri nDblWri dblValWri out
                                           wakes1 wakes2 g))
      = [EvWaitOBN EPSIG_Y; EvResetOBNSignal;
         EvSetOutputValues (to_size_t nDblWri); EvSignalOBN OBNSIG_DONE;
         EvWaitOBN EPSIG_X; EvResetOBNSignal;
         EvGetInputValues 0; EvSignalOBN OBNSIG_DONE].
Proof.
  intros dflt flaWri nDblWri dblValWri out out' wakes1 wakes2 g H Hflag.
  pose proof (exchange_paths dflt flaWri nDblWri dblValWri out wakes1 wakes2 g) as P.
  cbv zeta in P.
  assert (Hsc : forall s, Some (short_circuit s (set_flaRea 0 out)) = Some (0, out') -> False).
  { intros s E. inversion E as [[Hs Ho]]. subst out'.
    destruct s; cbn in Hs, Hflag; discriminate. }
  destruct P as [[_ E] | (th & Hth & [[_ E] | [(s & _ & _ & E) | [(_ & Hn & E)
               | [(_ & _ & _ & E) | [(s & _ & _ & _ & _ & E) | (Hy & _ & Hx & E)]]]]])];
    rewrite E in H |- *; cbn [returned world_of] in H |- *; try discriminate.
  - now destruct (Hsc s H).
  - inversion H. lia.
  - now destruct (Hsc s H).
  - exists th. split; [exact Hth |]. split; [exact Hy |].
    rewrite second_wait_frame in Hx. split; [exact Hx |].
    pose proof (read_inputs_result (m_double_input (m_obnnode th))
                                   (currentSimulationTime (m_obnnode th))
                                   (set_flaRea 0 out)) as R.
    cbv zeta in R. inversion H as [Hr]. rewrite Hr in R |- *. cbn [fst snd] in R |- *.
    destruct R as (_ & Ht & [(_ & Hz & _) | (Hle & _ & Hc & Hv & _)]); [discriminate |].
    repeat split; try assumption.
    apply events_since_app.
    rewrite history_acknowledged, history_consumed_observed, history_published.
    now rewrite <- !app_assoc.
Qed.

Lemma exchange_success_is_a_full_step_witness :
  exists th,
    obn_thread (running_world [3%float; 4%float; 5%float]) = Some th /\
    returned (waitforOBNSignal (-1) wake_y (running_world [3%float; 4%float; 5%float]))
    = Some EPSIG_Y /\
    returned (waitforOBNSignal (-1) wake_x
                (set_obn_signal_to_eplus EPSIG_NONE
                   (running_world [3%float; 4%float; 5%float])))
    = Some EPSIG_X /\
    Z.of_nat (List.length (m_double_input (m_obnnode th))) <= NDBLMAX /\
    nDblRea (mkBuffers 0 3 12.5%float ([3%float; 4%float; 5%float] ++ repeat 0%float 1021))
    = Z.of_nat (List.length (m_double_input (m_obnnode th))) /\
    firstn (List.length (m_double_input (m_obnnode th)))
           (dblValRea (mkBuffers 0 3 12.5%float
                                 ([3%float; 4%float; 5%float] ++ repeat 0%float 1021)))
    = m_double_input (m_obnnode th) /\
    simTimRea (mkBuffers 0 3 12.5%float
                         ([3%float; 4%float; 5%float] ++ repeat 0%float 1021))
    = currentSimulationTime (m_obnnode th) /\
    events_since
      (running_world [3%float; 4%float; 5%float])
      (world_of (exchangedoublewithOBN (-1) 0 2 [1%float; 2%float] sample_out
                                       wake_y wake_x
                                       (running_world [3%float; 4%float; 5%float])))
    = [EvWaitOBN EPSIG_Y; EvResetOBNSignal;
       EvSetOutputValues (to_size_t 2); EvSignalOBN OBNSIG_DONE;
       EvWaitOBN EPSIG_X; EvResetOBNSignal;
       EvGetInputValues 0; EvSignalOBN OBNSIG_DONE].
Proof.
  apply (exchange_success_is_a_full_step
           (-1) 0 2 [1%float; 2%float] sample_out
           (mkBuffers 0 3 12.5%float ([3%float; 4%float; 5%float] ++ repeat 0%float 1021))
           wake_y wake_x (running_world [3%float; 4%float; 5%float])).
  - vm_compute. reflexivity.
  - reflexivity.
Defined.

(** X3.  A signal other than UPDATE_Y at the first wait, the synthetic
    time-out included, ends the call at once: the node-to-engine mailbox is
    reset, nothing is published or acknowledged, the node and the caller's
    count, values and time are as before.  TERMINATE gives status 0 and
    flag 1, QUIT status 0 and flag -1, a time-out status -21, and any other
    signal (START, UPDATE_X) status -22, the last two with flag 0. *)
Theorem exchange_short_circuit_at_first_wait :
  forall (dflt flaWri nDblWri : Z) (dblValWri : list float) (out : Buffers)
         (wakes1 wakes2 : list (Wake OBNSignalToEPlus)) (g : World)
         (th : EPlusOBNThread) (s : OBNSignalToEPlus),
    obn_thread g = Some th ->
    returned (waitforOBNSignal dflt wakes1 g) = Some s ->
    s <> EPSIG_Y ->
    exists status out' g',
      exchangedoublewithOBN dflt flaWri nDblWri dblValWri out wakes1 wakes2 g
      = Returned (status, out') g' /\
      events_since g g' = [EvWaitOBN s; EvResetOBNSignal] /\
      obn_signal_to_eplus g' = EPSIG_NONE /\
      eplus_signal_to_obn g' = eplus_signal_to_obn g /\
      obn_thread g' = obn_thread g /\
      nDblRea out' = nDblRea out /\
      dblValRea out' = dblValRea out /\
      simTimRea out' = simTimRea out /\
      ((s = EPSIG_TERM /\ status = 0 /\ flaRea out' = 1)
       \/ (s = EPSIG_QUIT /\ status = 0 /\ flaRea out' = -1)
       \/ (s = EPSIG_TIMEOUT /\ status = -21 /\ flaRea out' = 0)
       \/ (s <> EPSIG_TERM /\ s <> EPSIG_QUIT /\ s <> EPSIG_TIMEOUT /\
           status = -22 /\ flaRea out' = 0)).
Proof.
  intros dflt flaWri nDblWri dblValWri out wakes1 wakes2 g th s Hth Hw Hs.
  pose proof (exchange_paths dflt flaWri nDblWri dblValWri out wakes1 wakes2 g) as P.
  cbv zeta in P.
  destruct P as [[Hn _] | (th' & _ & [[Hb _] | [(s' & Hs' & _ & E) | P]])].
  - congruence.
  - congruence.
  - assert (s' = s) by congruence. subst s'. rewrite E.
    pose proof (short_circuit_table s (set_flaRea 0 out) eq_refl) as T. cbv zeta in T.
    destruct (short_circuit s (set_flaRea 0 out)) as [status out'] eqn:Esc.
    cbn [fst snd] in T. destruct T as (Hn & Hv & Ht & Htab).
    do 3 eexists. split; [reflexivity |].
    split; [apply events_since_app, history_consumed_observed |].
    repeat split; assumption.
  - destruct P as [(Hy & _) | [(Hy & _) | [(s' & Hy & _) | (Hy & _)]]]; congruence.
Qed.

Lemma exchange_short_circuit_at_first_wait_witness :
  exists status out' g',
    exchangedoublewithOBN 5 0 2 [1%float; 2%float] sample_out [] wake_x
                          (running_world [3%float])
    = Returned (status, out') g' /\
    events_since (running_world [3%float]) g' = [EvWaitOBN EPSIG_TIMEOUT; EvResetOBNSignal] /\
    obn_signal_to_eplus g' = EPSIG_NONE /\
    eplus_signal_to_obn g' = eplus_signal_to_obn (running_world [3%float]) /\
    obn_thread g' = obn_thread (running_world [3%float]) /\
    nDblRea out' = nDblRea sample_out /\
    dblValRea out' = dblValRea sample_out /\
    simTimRea out' = simTimRea sample_out /\
    ((EPSIG_TIMEOUT = EPSIG_TERM /\ status = 0 /\ flaRea out' = 1)
     \/ (EPSIG_TIMEOUT = EPSIG_QUIT /\ status = 0 /\ flaRea out' = -1)
     \/ (EPSIG_TIMEOUT = EPSIG_TIMEOUT /\ status = -21 /\ flaRea out' = 0)
     \/ (EPSIG_TIMEOUT <> EPSIG_TERM /\ EPSIG_TIMEOUT <> EPSIG_QUIT /\
         EPSIG_TIMEOUT <> EPSIG_TIMEOUT /\ status = -22 /\ flaRea out' = 0)).
Proof.
  apply (exchange_short_circuit_at_first_wait
           5 0 2 [1%float; 2%float] sample_out [] wake_x (running_world [3%float])
           (mkThread true (sample_node [3%float])) EPSIG_TIMEOUT).
  - reflexivity.
  - reflexivity.
  - discriminate.
Defined.

(** X4.  With the outputs published, a signal other than UPDATE_X at the
    second wait ends the call: the outputs stay published and acknowledged
    once, the node-to-engine mailbox is reset, nothing is read (the caller's
    count, values and time are as before), and the status and flag follow
    the same table as at the first wait; a second UPDATE_Y is an unexpected
    signal, status -22. *)
Theorem exchange_short_circuit_at_second_wait :
  forall (dflt flaWri nDblWri : Z) (dblValWri : list float) (out : Buffers)
         (wakes1 wakes2 : list (Wake OBNSignalToEPlus)) (g : World)
         (th : EPlusOBNThread) (s : OBNSignalToEPlus),
    obn_thread g = Some th ->
    0 <= nDblWri <= INT_MAX ->
    returned (waitforOBNSignal dflt wakes1 g) = Some EPSIG_Y ->
    returned (waitforOBNSignal dflt wakes2 (set_obn_signal_to_eplus EPSIG_NONE g))
    = Some s ->
    s <> EPSIG_X ->
    exists status out' g',
      exchangedoublewithOBN dflt flaWri nDblWri dblValWri out wakes1 wakes2 g
      = Returned (status, out') g' /\
      events_since g g'
      = [EvWaitOBN EPSIG_Y; EvResetOBNSignal; EvSetOutputValues nDblWri;
         EvSignalOBN OBNSIG_DONE; EvWaitOBN s; EvResetOBNSignal] /\
      obn_signal_to_eplus g' = EPSIG_NONE /\
      eplus_signal_to_obn g' = OBNSIG_DONE /\
      nDblRea out' = nDblRea out /\
      dblValRea out' = dblValRea out /\
      simTimRea out' = simTimRea out /\
      ((s = EPSIG_TERM /\ status = 0 /\ flaRea out' = 1)
       \/ (s = EPSIG_QUIT /\ status = 0 /\ flaRea out' = -1)
       \/ (s = EPSIG_TIMEOUT /\ status = -21 /\ flaRea out' = 0)
       \/ (s <> EPSIG_TERM /\ s <> EPSIG_QUIT /\ s <> EPSIG_TIMEOUT /\
           status = -22 /\ flaRea out' = 0)).
Proof.
  intros dflt flaWri nDblWri dblValWri out wakes1 wakes2 g th s Hth Hn Hy Hw Hs.
  pose proof (exchange_paths dflt flaWri nDblWri dblValWri out wakes1 wakes2 g) as P.
  cbv zeta in P.
  assert (Hint : to_int (to_size_t nDblWri) = nDblWri)
    by (apply to_int_to_size_t; unfold INT_MIN, INT_MAX in *; lia).
  destruct P as [[Hnone _] | (th' & Hth' & P)]; [congruence |].
  assert (th' = th) by congruence. subst th'.
  rewrite second_wait_frame in P.
  destruct P as [[Hb _] | [(s' & Hs' & Hne & _) | [(_ & Hneg & _)
               | [(_ & _ & Hb & _) | [(s' & _ & _ & Hs' & _ & E) | (_ & _ & Hx & _)]]]]];
    try congruence; try lia.
  assert (s' = s) by congruence. subst s'. rewrite E.
  pose proof (short_circuit_table s (set_flaRea 0 out) eq_refl) as T. cbv zeta in T.
  destruct (short_circuit s (set_flaRea 0 out)) as [status out'] eqn:Esc.
  cbn [fst snd] in T. destruct T as (Hc & Hv & Ht & Htab).
  do 3 eexists. split; [reflexivity |].
  split.
  { apply events_since_app.
    rewrite history_consumed_observed, history_published, to_size_t_id by exact Hn.
    now rewrite <- app_assoc. }
  repeat split; assumption.
Qed.

Lemma exchange_short_circuit_at_second_wait_witness :
  exists status out' g',
    exchangedoublewithOBN (-1) 0 2 [1%float; 2%float] sample_out wake_y wake_y
                          (running_world [3%float])
    = Returned (status, out') g' /\
    events_since (running_world [3%float]) g'
    = [EvWaitOBN EPSIG_Y; EvResetOBNSignal; EvSetOutputValues 2;
       EvSignalOBN OBNSIG_DONE; EvWaitOBN EPSIG_Y; EvResetOBNSignal] /\
    obn_signal_to_eplus g' = EPSIG_NONE /\
    eplus_signal_to_obn g' = OBNSIG_DONE /\
    nDblRea out' = nDblRea sample_out /\
    dblValRea out' = dblValRea sample_out /\
    simTimRea out' = simTimRea sample_out /\
    ((EPSIG_Y = EPSIG_TERM /\ status = 0 /\ flaRea out' = 1)
     \/ (EPSIG_Y = EPSIG_QUIT /\ status = 0 /\ flaRea out' = -1)
     \/ (EPSIG_Y = EPSIG_TIMEOUT /\ status = -21 /\ flaRea out' = 0)
     \/ (EPSIG_Y <> EPSIG_TERM /\ EPSIG_Y <> EPSIG_QUIT /\ EPSIG_Y <> EPSIG_TIMEOUT /\
         status = -22 /\ flaRea out' = 0)).
Proof.
  apply (exchange_short_circuit_at_second_wait
           (-1) 0 2 [1%float; 2%float] sample_out wake_y wake_y (running_world [3%float])
           (mkThread true (sample_node [3%float])) EPSIG_Y).
  - reflexivity.
  - unfold INT_MAX. lia.
  - reflexivity.
  - reflexivity.
  - discriminate.
Defined.

(** Reading the first [n] cells of an array that has them. *)
Lemma map_array_read (l : list float) :
  forall n, (n <= List.length l)%nat -> map (array_read l) (seq 0 n) = firstn n l.
Proof.
  unfold array_read.
  induction l as [| a l IH]; intros [| n] Hn; cbn in Hn; try reflexivity; try lia.
  cbn [seq map firstn nth]. f_equal.
  rewrite <- seq_shift, map_map. cbn [nth]. apply IH. lia.
Qed.

(** X5.  Once UPDATE_Y is observed, the node's output port holds exactly the
    first [*nDblWri] values of the caller's array, in order, in place of
    whatever it held, and it still does when the call ends, however it ends
    (a full step, a short circuit at the second wait, or a wait that never
    returns). *)
Theorem exchange_publishes_the_outputs :
  forall (dflt flaWri nDblWri : Z) (dblValWri : list float) (out : Buffers)
         (wakes1 wakes2 : list (Wake OBNSignalToEPlus)) (g : World) (th : EPlusOBNThread),
    obn_thread g = Some th ->
    0 <= nDblWri <= INT_MAX ->
    nDblWri <= Z.of_nat (List.length dblValWri) ->
    returned (waitforOBNSignal dflt wakes1 g) = Some EPSIG_Y ->
    option_map
      (fun t => m_double_output (m_obnnode t))
      (obn_thread
         (world_of (exchangedoublewithOBN dflt flaWri nDblWri dblValWri out
                                          wakes1 wakes2 g)))
    = Some (firstn (Z.to_nat nDblWri) dblValWri).
Proof.
  intros dflt flaWri nDblWri dblValWri out wakes1 wakes2 g th Hth Hn Hlen Hy.
  pose proof (exchange_paths dflt flaWri nDblWri dblValWri out wakes1 wakes2 g) as P.
  cbv zeta in P.
  assert (Hout : option_map (fun t => m_double_output (m_obnnode t))
                            (obn_thread (published nDblWri dblValWri th g))
                 = Some (firstn (Z.to_nat nDblWri) dblValWri)).
  { rewrite obn_thread_published. cbn. rewrite to_size_t_id by exact Hn.
    f_equal. apply map_array_read. lia. }
  destruct P as [[Hnone _] | (th' & Hth' & P)]; [congruence |].
  assert (th' = th) by congruence. subst th'.
  destruct P as [[Hb _] | [(s' & Hs' & Hne & _) | [(_ & _ & E)
               | [(_ & _ & _ & E) | [(s' & _ & _ & _ & _ & E) | (_ & _ & _ & E)]]]]];
    try congruence; rewrite E; exact Hout.
Qed.

Lemma exchange_publishes_the_outputs_witness :
  option_map
    (fun t => m_double_output (m_obnnode t))
    (obn_thread
       (world_of (exchangedoublewithOBN (-1) 0 2 [1%float; 2%float; 9%float] sample_out
                                        wake_y [] (running_world [3%float]))))
  = Some (firstn (Z.to_nat 2) [1%float; 2%float; 9%float]).
Proof.
  apply (exchange_publishes_the_outputs
           (-1) 0 2 [1%float; 2%float; 9%float] sample_out wake_y []
           (running_world [3%float]) (mkThread true (sample_node [3%float]))).
  - reflexivity.
  - unfold INT_MAX. lia.
  - cbn. lia.
  - reflexivity.
Defined.

(** X6.  The gateway changes the two mailboxes, the node's output port and
    the history, and nothing else: the options, the thread, the node's name,
    workspace, server address, lifecycle state, input port and clock are as
    before, and no work item is queued on the node (DONE is the only signal
    the gateway posts). *)
Theorem exchange_keeps_the_setup :
  forall (dflt flaWri nDblWri : Z) (dblValWri : list float) (out : Buffers)
         (wakes1 wakes2 : list (Wake OBNSignalToEPlus)) (g : World),
    let g' := world_of (exchangedoublewithOBN dflt flaWri nDblWri dblValWri out
                                              wakes1 wakes2 g) in
    same_setup g g' /\ queued g' = queued g.
Proof.
  intros dflt flaWri nDblWri dblValWri out wakes1 wakes2 g g'. subst g'.
  pose proof (exchange_paths dflt flaWri nDblWri dblValWri out wakes1 wakes2 g) as P.
  cbv zeta in P.
  destruct P as [[Hnone E] | (th & Hth & [[_ E] | [(s & _ & _ & E) | [(_ & _ & E)
               | [(_ & _ & _ & E) | [(s & _ & _ & _ & _ & E) | (_ & _ & _ & E)]]]]])];
    rewrite E; unfold same_setup, queued, published, acknowledged, consumed, observed;
    cbn -[to_int to_size_t]; rewrite ?Hnone, ?Hth; cbn; repeat split.
Qed.

(** ** Signals from the engine and the node's handler *)

(** X7.  [signalOBN] always returns.  It stores the signal on the
    engine-to-node mailbox, over whatever was there, and leaves the other
    mailbox and the setup alone.  It queues the handler on the node exactly
    when a node exists and the signal is TERM or EXIT: never for DONE or
    NONE, and never without a node. *)
Theorem signalOBN_stores_and_queues :
  forall (sig : EPlusSignalToOBN) (g : World),
    exists g',
      signalOBN sig g = Returned tt g' /\
      eplus_signal_to_obn g' = sig /\
      obn_signal_to_eplus g' = obn_signal_to_eplus g /\
      same_setup g g' /\
      events_since g g' = [EvSignalOBN sig] /\
      queued g'
      = queued g ++ (match obn_thread g, sig with
                     | Some _, OBNSIG_TERM | Some _, OBNSIG_EXIT => [CallHandleEPlusSignal]
                     | _, _ => []
                     end).
Proof.
  intros sig g. unfold signalOBN, update_node, update_thread, this_thread, bind.
  cbn [obn_thread log set_eplus_signal_to_obn].
  destruct (obn_thread g) as [th |] eqn:Hth.
  - destruct sig; cbn; eexists; (split; [reflexivity |]);
      unfold same_setup, queued; cbn; rewrite ?Hth; cbn; rewrite ?app_nil_r;
      repeat split; now apply events_since_app.
  - eexists. split; [reflexivity |].
    unfold same_setup, queued; cbn; rewrite ?Hth; cbn.
    repeat split; now apply events_since_app.
Qed.

(** X8.  The handler takes whatever signal is on the engine-to-node mailbox:
    afterwards the mailbox holds NONE, so a later wait for the engine starts
    empty, and the simulation is stopped exactly when the signal was TERM
    or EXIT.  On a node, [signalOBN] therefore queues the handler for exactly
    the signals on which the handler, run next, stops the simulation. *)
Theorem handleEPlusSignal_takes_the_signal :
  forall g : World,
    (exists g',
        handleEPlusSignal g = Returned (match eplus_signal_to_obn g with
                                        | OBNSIG_TERM | OBNSIG_EXIT => true
                                        | _ => false
                                        end) g' /\
        eplus_signal_to_obn g' = OBNSIG_NONE /\
        obn_signal_to_eplus g' = obn_signal_to_eplus g /\
        same_setup g g' /\ queued g' = queued g /\ history g' = history g /\
        waitforEPlusSignal [] g' = Blocked g')
    /\
    (forall sig th,
        obn_thread g = Some th ->
        exists stop g',
          (signalOBN sig ;;; handleEPlusSignal) g = Returned stop g' /\
          eplus_signal_to_obn g' = OBNSIG_NONE /\
          (stop = true <-> queued g' = queued g ++ [CallHandleEPlusSignal]) /\
          (stop = false <-> queued g' = queued g)).
Proof.
  intros g. split.
  - unfold handleEPlusSignal.
    destruct (eplus_signal_to_obn g) eqn:Hs; eexists; (split; [reflexivity |]);
      unfold same_setup, queued; cbn; destruct (obn_thread g); cbn; repeat split.
  - intros sig th Hth.
    unfold signalOBN, handleEPlusSignal, update_node, update_thread, this_thread, bind.
    cbn [obn_thread log set_eplus_signal_to_obn]. rewrite Hth.
    assert (Hneq : forall q : list NodeCallback, q ++ [CallHandleEPlusSignal] <> q).
    { intros q E. apply (f_equal (@List.length _)) in E.
      rewrite length_app in E. cbn in E. lia. }
    destruct sig; cbn; rewrite ?Hth; cbn; do 2 eexists; (split; [reflexivity |]);
      unfold queued; cbn; rewrite ?Hth; cbn;
      (split; [reflexivity |]); split; split; intros H;
      try reflexivity; try discriminate;
      try (exfalso; now apply (Hneq (callback_queue (m_obnnode th))));
      try (exfalso; symmetry in H; now apply (Hneq (callback_queue (m_obnnode th)))).
Qed.

Lemma handleEPlusSignal_takes_the_signal_witness :
  exists stop g',
    (signalOBN OBNSIG_EXIT ;;; handleEPlusSignal) (running_world []) = Returned stop g' /\
    eplus_signal_to_obn g' = OBNSIG_NONE /\
    (stop = true <-> queued g' = queued (running_world []) ++ [CallHandleEPlusSignal]) /\
    (stop = false <-> queued g' = queued (running_world [])).
Proof.
  apply (proj2 (handleEPlusSignal_takes_the_signal (running_world []))
               OBNSIG_EXIT (mkThread true (sample_node [])) eq_refl).
Defined.

(** ** Starting and stopping the thread *)

Lemma run_callbacks_result (q : list NodeCallback) (g : World) :
  run_callbacks q g
  = Returned tt (match q with
                 | [] => g
                 | _ :: _ => set_eplus_signal_to_obn OBNSIG_NONE g
                 end).
Proof.
  revert g. induction q as [| c q IH]; intro g; [reflexivity |].
  destruct c. cbn [run_callbacks]. unfold bind, handleEPlusSignal.
  destruct (eplus_signal_to_obn g); rewrite IH; destruct q; reflexivity.
Qed.

(** X9.  [stopThread] stops a thread once.  On a thread that does not run it
    does nothing, whatever a node thread would do.  On a running thread it
    posts EXIT on the engine-to-node mailbox and queues the handler on the
    node, then joins: it does not return when the node thread does not end,
    and when the node thread ends it returns in the world that thread left,
    with no thread running, so that a second call changes nothing.  With a
    node thread that takes its queued work and ends, the handler has taken
    the EXIT signal by then: the mailbox is empty again and so is the
    queue. *)
Theorem stopThread_stops_once :
  forall (node_thread : M unit) (g : World) (th : EPlusOBNThread),
    obn_thread g = Some th ->
    (m_thread_joinable th = false -> stopThread node_thread g = Returned tt g) /\
    (m_thread_joinable th = true ->
     let g1 := world_of (signalOBN OBNSIG_EXIT g) in
     events_since g g1 = [EvSignalOBN OBNSIG_EXIT] /\
     eplus_signal_to_obn g1 = OBNSIG_EXIT /\
     queued g1 = queued g ++ [CallHandleEPlusSignal] /\
     (forall g2, node_thread g1 = Blocked g2 ->
                 stopThread node_thread g = Blocked g2) /\
     (forall g2 th2,
         node_thread g1 = Returned tt g2 ->
         obn_thread g2 = Some th2 ->
         exists g',
           stopThread node_thread g = Returned tt g' /\
           events_since g2 g' = [EvJoin] /\
           eplus_signal_to_obn g' = eplus_signal_to_obn g2 /\
           queued g' = queued g2 /\
           running g' = false /\
           forall node_thread', stopThread node_thread' g' = Returned tt g') /\
     exists g',
       stopThread node_thread_ends g = Returned tt g' /\
       events_since g g' = [EvSignalOBN OBNSIG_EXIT; EvJoin] /\
       eplus_signal_to_obn g' = OBNSIG_NONE /\
       queued g' = [] /\
       running g' = false).
Proof.
  intros node_thread g th Hth. split; intro Hj.
  - unfold stopThread, bind, this_thread. now rewrite Hth, Hj.
  - assert (Hsig : signalOBN OBNSIG_EXIT g
                   = Returned tt
                       (set_obn_thread
                          (Some (set_m_obnnode
                                   (postCallbackEvent CallHandleEPlusSignal (m_obnnode th))
                                   th))
                          (log (EvSignalOBN OBNSIG_EXIT)
                               (set_eplus_signal_to_obn OBNSIG_EXIT g)))).
    { unfold signalOBN. cbn. rewrite Hth. cbn.
      unfold update_node, update_thread, this_thread, bind. cbn. now rewrite Hth. }
    assert (Hstop : forall nt, stopThread nt g
                               = (signalOBN OBNSIG_EXIT ;;; join nt) g).
    { intro nt. unfold stopThread at 1. unfold bind at 1, this_thread.
      now rewrite Hth, Hj. }
    cbv zeta. rewrite Hsig. cbn [world_of].
    split; [apply events_since_app; reflexivity |].
    split; [reflexivity |].
    split; [unfold queued; cbn; now rewrite Hth |].
    split; [| split].
    + intros g2 Hnt. rewrite Hstop. unfold bind at 1. rewrite Hsig.
      unfold join, bind. now rewrite Hnt.
    + intros g2 th2 Hnt Hth2. rewrite Hstop. unfold bind at 1. rewrite Hsig.
      unfold join, bind. rewrite Hnt.
      unfold update_thread, this_thread, record, bind. rewrite Hth2.
      eexists. split; [reflexivity |].
      split; [apply events_since_app; reflexivity |].
      split; [reflexivity |].
      split; [unfold queued; cbn; now rewrite Hth2 |].
      split; [reflexivity |].
      intro nt'. reflexivity.
    + rewrite Hstop. unfold bind at 1. rewrite Hsig.
      unfold join, node_thread_ends, this_node, update_node, update_thread,
        this_thread, record, ret, bind.
      cbn. rewrite run_callbacks_result.
      destruct (callback_queue (m_obnnode th)); cbn;
        (eexists; split; [reflexivity |]);
        (split; [apply events_since_app; cbn; now rewrite <- app_assoc |]);
        repeat split.
Qed.

Lemma stopThread_stops_once_witness :
  exists g',
    stopThread node_thread_ends (running_world []) = Returned tt g' /\
    events_since (running_world []) g' = [EvSignalOBN OBNSIG_EXIT; EvJoin] /\
    eplus_signal_to_obn g' = OBNSIG_NONE /\
    queued g' = [] /\
    running g' = false.
Proof.
  exact (proj2 (proj2 (proj2 (proj2 (proj2
           (proj2 (stopThread_stops_once node_thread_ends (running_world [])
                     (mkThread true (sample_node [])) eq_refl)
                  eq_refl)))))).
Defined.

(** X10.  [startThread] starts a thread once.  While a thread runs it
    returns false without asking the framework and changes nothing.
    Otherwise it returns what the framework answers when the port is opened
    and the two ports are added (the ports are not added when the port does
    not open), a thread runs afterwards exactly when that answer is true,
    and after a successful start a second call returns false. *)
Theorem startThread_starts_once :
  forall (fw : Framework) (g : World) (th : EPlusOBNThread),
    obn_thread g = Some th ->
    (m_thread_joinable th = true -> startThread fw g = Returned false g) /\
    (m_thread_joinable th = false ->
     exists g',
       startThread fw g
       = Returned (openSMNPort fw && (addInput fw && addOutput fw)) g' /\
       running g' = (openSMNPort fw && (addInput fw && addOutput fw)) /\
       option_map m_obnnode (obn_thread g') = Some (m_obnnode th) /\
       history g' = history g /\
       (running g' = true -> forall fw', startThread fw' g' = Returned false g')).
Proof.
  intros fw g th Hth. split; intros Hj.
  - unfold startThread, bind, this_thread, ret. now rewrite Hth, Hj.
  - unfold startThread, initialize, update_thread, bind, this_thread, ret.
    rewrite Hth, Hj.
    destruct (openSMNPort fw); cbn [negb andb];
      [destruct (addInput fw && addOutput fw); cbn [negb]; rewrite ?Hth |];
      eexists; (split; [reflexivity |]); unfold running; cbn; rewrite ?Hth, ?Hj;
      repeat split; try discriminate.
Qed.

Lemma startThread_starts_once_witness :
  (m_thread_joinable (new_EPlusOBNThread "node1" "") = true ->
   startThread sample_fw (set_obn_thread (Some (new_EPlusOBNThread "node1" "")) initial_world)
   = Returned false (set_obn_thread (Some (new_EPlusOBNThread "node1" "")) initial_world)) /\
  (m_thread_joinable (new_EPlusOBNThread "node1" "") = false ->
   exists g',
     startThread sample_fw (set_obn_thread (Some (new_EPlusOBNThread "node1" "")) initial_world)
     = Returned (openSMNPort sample_fw && (addInput sample_fw && addOutput sample_fw)) g' /\
     running g' = (openSMNPort sample_fw && (addInput sample_fw && addOutput sample_fw)) /\
     option_map m_obnnode (obn_thread g')
     = Some (m_obnnode (new_EPlusOBNThread "node1" "")) /\
     history g'
     = history (set_obn_thread (Some (new_EPlusOBNThread "node1" "")) initial_world) /\
     (running g' = true -> forall fw', startThread fw' g' = Returned false g')).
Proof.
  apply (startThread_starts_once
           sample_fw (set_obn_thread (Some (new_EPlusOBNThread "node1" "")) initial_world)
           (new_EPlusOBNThread "node1" "") eq_refl).
Defined.

(** ** Reading the configuration: every outcome *)

Lemma options_only_refl (g : World) : options_only g g.
Proof. unfold options_only. tauto. Qed.

Lemma options_only_trans (g1 g2 g3 : World) :
  options_only g1 g2 -> options_only g2 g3 -> options_only g1 g3.
Proof.
  unfold options_only. intros (A1 & B1 & C1 & D1 & E1) (A2 & B2 & C2 & D2 & E2).
  repeat split; try congruence. auto.
Qed.

Lemma read_option_options_only (trim toLower : string -> string)
      (oneline : string) (g : World) :
  options_only g (world_of (read_option trim toLower oneline g)).
Proof.
  unfold read_option, options_only.
  destruct (String.eqb _ "quitifobnstops"); [cbn; tauto |].
  destruct (String.eqb _ "timeout"); [| cbn; tauto].
  destruct (negb _); cbn; tauto.
Qed.

Lemma read_options_options_only (trim toLower : string -> string) (fuel : nat) :
  forall cf oneline g,
    options_only g (snd (read_options trim toLower fuel cf oneline g)).
Proof.
  induction fuel as [| fuel IH]; intros cf oneline g; cbn [read_options];
    [apply options_only_refl |].
  destruct (eofbit cf); [apply options_only_refl |].
  destruct (getline cf oneline) as [oneline' cf'].
  eapply options_only_trans; [| apply IH].
  destruct (negb (failbit cf'));
    [apply read_option_options_only | apply options_only_refl].
Qed.

(** Creating the node, giving it the server address if there is one, and
    starting its thread. *)
Lemma create_and_start (fw : Framework) (t_name t_ws cfg : string) (g1 : World) :
  exists g' th,
    ((if negb (empty cfg) then update_node (set_server_address cfg) else ret tt) ;;;
     startThread fw) (set_obn_thread (Some (new_EPlusOBNThread t_name t_ws)) g1)
    = Returned (openSMNPort fw && (addInput fw && addOutput fw)) g' /\
    obn_thread g' = Some th /\
    node_name (m_obnnode th) = t_name /\
    node_workspace (m_obnnode th) = t_ws /\
    server_address (m_obnnode th) = (if empty cfg then None else Some cfg) /\
    m_thread_joinable th = (openSMNPort fw && (addInput fw && addOutput fw)) /\
    quitIfOBNTerminates g' = quitIfOBNTerminates g1 /\
    default_obn_timeout g' = default_obn_timeout g1 /\
    eplus_signal_to_obn g' = eplus_signal_to_obn g1 /\
    obn_signal_to_eplus g' = obn_signal_to_eplus g1 /\
    history g' = history g1.
Proof.
  unfold startThread, initialize, update_node, update_thread, this_thread, ret, bind.
  destruct (empty cfg); cbn;
    destruct (openSMNPort fw); cbn;
    try (destruct (addInput fw && addOutput fw); cbn);
    do 2 eexists; repeat split.
Qed.

(** Reading a configuration when no node exists: the options are read, and
    then either the configuration is rejected and no node is made, or the
    selector is "mqtt", the name is valid, and a node is made and started. *)
Lemma initOBNNode_outcome (trim toLower : string -> string)
      (isValidNodeName : string -> bool) (fs : FileSystem) (fw : Framework)
      (path text : string) (g : World) :
  obn_thread g = None ->
  fs path = Some text ->
  exists g1,
    options_only g g1 /\
    (initOBNNode trim toLower isValidNodeName fs fw (Some path) g = Returned false g1
     \/
     (toLower (trim (transport_selector text)) = "mqtt" /\
      exists g' th,
        initOBNNode trim toLower isValidNodeName fs fw (Some path) g
        = Returned (openSMNPort fw && (addInput fw && addOutput fw)) g' /\
        obn_thread g' = Some th /\
        isValidNodeName (node_name (m_obnnode th)) = true /\
        m_thread_joinable th = (openSMNPort fw && (addInput fw && addOutput fw)) /\
        quitIfOBNTerminates g' = quitIfOBNTerminates g1 /\
        default_obn_timeout g' = default_obn_timeout g1 /\
        eplus_signal_to_obn g' = eplus_signal_to_obn g1 /\
        obn_signal_to_eplus g' = obn_signal_to_eplus g1 /\
        history g' = history g1)).
Proof.
  intros Hth Hfs.
  rewrite (initOBNNode_unfold trim toLower isValidNodeName fs fw path text g Hth Hfs).
  cbv zeta. unfold transport_selector, first_line.
  set (r1 := getline (mkStream text false false) EmptyString).
  destruct (negb (failbit (snd r1))); cbn [andb negb].
  2:{ exists g. split; [apply options_only_refl | now left]. }
  set (r2 := getline (snd r1) (fst r1)).
  destruct (negb (failbit (snd r2))); cbn [negb].
  2:{ exists g. split; [apply options_only_refl | now left]. }
  set (g1 := snd (read_options trim toLower (S (String.length text)) (snd r2) (fst r2) g)).
  exists g1. split; [apply read_options_options_only |].
  destruct (String.eqb (toLower (trim (fst (first_word (fst r1) EmptyString)))) "mqtt")
    eqn:Ec; [| now left].
  apply String.eqb_eq in Ec.
  destruct (isValidNodeName (trim (fst (first_word (fst r2) EmptyString)))) eqn:Ev;
    cbn [negb]; [| now left].
  right. split; [exact Ec |].
  destruct (create_and_start
              fw (trim (fst (first_word (fst r2) EmptyString)))
              (snd (first_word (fst r2) EmptyString))
              (trim (snd (first_word (fst r1) EmptyString))) g1)
    as (g' & th & E & Ht & Hn & _ & _ & Hj & Hq & Hd & He & Ho & Hh).
  exists g', th. rewrite E, Hn. repeat split; assumption.
Qed.

(** X11.  Started from a world without a node, [initOBNNode] returns, and
    its result tells whether a node thread runs afterwards.  It returns true
    only if the file could be read, its transport selector (trimmed,
    lower-cased) is "mqtt", the node's name is valid and the framework
    opened the port and took both ports; the node then exists under that
    name. *)
Theorem initOBNNode_result_tells_whether_the_thread_runs :
  forall (trim toLower : string -> string) (isValidNodeName : string -> bool)
         (fs : FileSystem) (fw : Framework) (path : string) (g : World),
    obn_thread g = None ->
    exists b g',
      initOBNNode trim toLower isValidNodeName fs fw (Some path) g = Returned b g' /\
      running g' = b /\
      (b = true ->
       exists text th,
         fs path = Some text /\
         toLower (trim (transport_selector text)) = "mqtt" /\
         obn_thread g' = Some th /\
         isValidNodeName (node_name (m_obnnode th)) = true /\
         openSMNPort fw && (addInput fw && addOutput fw) = true).
Proof.
  intros trim toLower isValidNodeName fs fw path g Hth.
  destruct (fs path) as [text |] eqn:Hfs.
  - destruct (initOBNNode_outcome trim toLower isValidNodeName fs fw path text g Hth Hfs)
      as (g1 & (_ & _ & _ & Ht1 & _) & [E | (Hsel & g' & th & E & Ht & Hv & Hj & _)]).
    + exists false, g1. split; [exact E |].
      unfold running. rewrite Ht1, Hth. split; [reflexivity | discriminate].
    + exists (openSMNPort fw && (addInput fw && addOutput fw)), g'.
      split; [exact E |]. unfold running. rewrite Ht. split; [exact Hj |].
      intros Hb. exists text, th. repeat split; assumption.
  - exists false, g. unfold initOBNNode. rewrite Hth, Hfs.
    split; [reflexivity |]. unfold running. rewrite Hth.
    split; [reflexivity | discriminate].
Qed.

Lemma initOBNNode_result_tells_whether_the_thread_runs_witness :
  exists b g',
    initOBNNode sample_trim sample_toLower sample_isValidNodeName
                (sample_fs sample_config) sample_fw (Some "obn.cfg") initial_world
    = Returned b g' /\
    running g' = b /\
    (b = true ->
     exists text th,
       sample_fs sample_config "obn.cfg" = Some text /\
       sample_toLower (sample_trim (transport_selector text)) = "mqtt" /\
       obn_thread g' = Some th /\
       sample_isValidNodeName (node_name (m_obnnode th)) = true /\
       openSMNPort sample_fw && (addInput sample_fw && addOutput sample_fw) = true).
Proof.
  apply (initOBNNode_result_tells_whether_the_thread_runs
           sample_trim sample_toLower sample_isValidNodeName
           (sample_fs sample_config) sample_fw "obn.cfg" initial_world eq_refl).
Defined.

(** X12.  When the framework refuses to start a node that the configuration
    describes well, [initOBNNode] returns false but leaves the node in
    place, without a running thread.  Every later call, whatever file and
    framework it is given, finds that node, returns true at once and starts
    nothing: the thread still does not run. *)
Theorem initOBNNode_after_a_failed_start :
  forall (trim toLower : string -> string) (isValidNodeName : string -> bool)
         (fs : FileSystem) (fw : Framework) (path : string) (g g' : World),
    obn_thread g = None ->
    initOBNNode trim toLower isValidNodeName fs fw (Some path) g = Returned false g' ->
    obn_thread g' <> None ->
    openSMNPort fw && (addInput fw && addOutput fw) = false /\
    running g' = false /\
    forall (fs2 : FileSystem) (fw2 : Framework) (path2 : string),
      initOBNNode trim toLower isValidNodeName fs2 fw2 (Some path2) g'
      = Returned true g'.
Proof.
  intros trim toLower isValidNodeName fs fw path g g' Hth E Hnode.
  assert (Hagain : forall fs2 fw2 path2,
             initOBNNode trim toLower isValidNodeName fs2 fw2 (Some path2) g'
             = Returned true g').
  { intros fs2 fw2 path2. unfold initOBNNode.
    destruct (obn_thread g'); [reflexivity | contradiction]. }
  destruct (fs path) as [text |] eqn:Hfs.
  - destruct (initOBNNode_outcome trim toLower isValidNodeName fs fw path text g Hth Hfs)
      as (g1 & (_ & _ & _ & Ht1 & _) & [E1 | (_ & g2 & th & E2 & Ht & _ & Hj & _)]).
    + rewrite E in E1. inversion E1; subst. rewrite Ht1 in Hnode. contradiction.
    + rewrite E in E2. inversion E2 as [[Hb Hg]]. subst g2.
      unfold running. rewrite Ht, Hj, <- Hb. repeat split. exact Hagain.
  - unfold initOBNNode in E. rewrite Hth, Hfs in E. inversion E; subst. contradiction.
Qed.

Lemma initOBNNode_after_a_failed_start_witness :
  openSMNPort (mkFramework false true true)
  && (addInput (mkFramework false true true) && addOutput (mkFramework false true true))
  = false /\
  running (set_obn_thread (Some (new_EPlusOBNThread "node1" "myworkspace"))
                          (set_default_obn_timeout 5 initial_world))
  = false /\
  forall (fs2 : FileSystem) (fw2 : Framework) (path2 : string),
    initOBNNode sample_trim sample_toLower sample_isValidNodeName fs2 fw2 (Some path2)
                (set_obn_thread (Some (new_EPlusOBNThread "node1" "myworkspace"))
                                (set_default_obn_timeout 5 initial_world))
    = Returned true
               (set_obn_thread (Some (new_EPlusOBNThread "node1" "myworkspace"))
                               (set_default_obn_timeout 5 initial_world)).
Proof.
  apply (initOBNNode_after_a_failed_start
           sample_trim sample_toLower sample_isValidNodeName
           (sample_fs sample_config) (mkFramework false true true) "obn.cfg"
           initial_world
           (set_obn_thread (Some (new_EPlusOBNThread "node1" "myworkspace"))
                           (set_default_obn_timeout 5 initial_world))).
  - reflexivity.
  - vm_compute. reflexivity.
  - discriminate.
Defined.

Lemma read_line_single (s : string) :
  single_line s = true -> read_line s = (s, EmptyString, true).
Proof.
  induction s as [| c s IH]; [reflexivity |].
  cbn [single_line read_line]. intros H. apply andb_prop in H. destruct H as [Hc Hs].
  apply negb_true_iff in Hc. rewrite Hc, (IH Hs). reflexivity.
Qed.

Lemma getline_single_line (text line : string) :
  text <> EmptyString ->
  single_line text = true ->
  getline (mkStream text false false) line = (text, mkStream EmptyString true false).
Proof.
  intros Hne Hone. unfold getline. cbn [eofbit failbit orb remaining].
  destruct text as [| c text]; [contradiction |].
  now rewrite (read_line_single _ Hone).
Qed.

Lemma getline_at_eof (rest line : string) (f : bool) :
  getline (mkStream rest true f) line = (line, mkStream rest true true).
Proof. reflexivity. Qed.

(** X13.  A configuration needs its two leading lines.  When the file cannot
    be opened, or is empty, or holds a single line (no newline character),
    [initOBNNode] returns false and leaves the world exactly as it was: no
    node, and no option applied; so it does for a null file name. *)
Theorem initOBNNode_needs_two_lines :
  forall (trim toLower : string -> string) (isValidNodeName : string -> bool)
         (fs : FileSystem) (fw : Framework) (g : World),
    obn_thread g = None ->
    initOBNNode trim toLower isValidNodeName fs fw None g = Returned false g /\
    forall path,
      fs path = None \/ (exists text, fs path = Some text /\ single_line text = true) ->
      initOBNNode trim toLower isValidNodeName fs fw (Some path) g = Returned false g.
Proof.
  intros trim toLower isValidNodeName fs fw g Hth. split; [reflexivity |].
  intros path [Hfs | (text & Hfs & Hone)].
  - unfold initOBNNode. now rewrite Hth, Hfs.
  - rewrite (initOBNNode_unfold trim toLower isValidNodeName fs fw path text g Hth Hfs).
    cbv zeta.
    destruct text as [| c text]; [reflexivity |].
    assert (Hne : String c text <> EmptyString) by discriminate.
    rewrite (getline_single_line _ _ Hne Hone).
    cbn [fst snd failbit negb andb]. now rewrite getline_at_eof.
Qed.

Lemma initOBNNode_needs_two_lines_witness :
  initOBNNode sample_trim sample_toLower sample_isValidNodeName
              (sample_fs "mqtt tcp://localhost") sample_fw None initial_world
  = Returned false initial_world /\
  forall path,
    sample_fs "mqtt tcp://localhost" path = None
    \/ (exists text, sample_fs "mqtt tcp://localhost" path = Some text /\
                     single_line text = true) ->
    initOBNNode sample_trim sample_toLower sample_isValidNodeName
                (sample_fs "mqtt tcp://localhost") sample_fw (Some path) initial_world
    = Returned false initial_world.
Proof.
  apply (initOBNNode_needs_two_lines
           sample_trim sample_toLower sample_isValidNodeName
           (sample_fs "mqtt tcp://localhost") sample_fw initial_world eq_refl).
Defined.

(** X14.  [initOBNNode] never blocks and never touches the two mailboxes or
    the history, whatever the world, the file and the framework; of the
    options, the one to quit when the node terminates is only ever switched
    on, never off. *)
Theorem initOBNNode_leaves_the_mailboxes :
  forall (trim toLower : string -> string) (isValidNodeName : string -> bool)
         (fs : FileSystem) (fw : Framework) (docname : option string) (g : World),
    exists b g',
      initOBNNode trim toLower isValidNodeName fs fw docname g = Returned b g' /\
      eplus_signal_to_obn g' = eplus_signal_to_obn g /\
      obn_signal_to_eplus g' = obn_signal_to_eplus g /\
      history g' = history g /\
      (quitIfOBNTerminates g = true -> quitIfOBNTerminates g' = true).
Proof.
  intros trim toLower isValidNodeName fs fw docname g.
  destruct docname as [path |]; [| exists false, g; now repeat split].
  destruct (obn_thread g) as [th |] eqn:Hth.
  { exists true, g. unfold initOBNNode. rewrite Hth. now repeat split. }
  destruct (fs path) as [text |] eqn:Hfs.
  - destruct (initOBNNode_outcome trim toLower isValidNodeName fs fw path text g Hth Hfs)
      as (g1 & (He1 & Ho1 & Hh1 & _ & Hq1)
          & [E | (_ & g' & th & E & _ & _ & _ & Hq & _ & He & Ho & Hh)]).
    + exists false, g1. now repeat split.
    + eexists _, g'. split; [exact E |].
      repeat split; try congruence. intros H. rewrite Hq. auto.
  - exists false, g. unfold initOBNNode. rewrite Hth, Hfs. now repeat split.
Qed.

(** ** The node-to-engine mailbox between the callbacks and the gateway *)

Lemma waitforOBNSignal_present (timeout : Z) (wakes : list (Wake OBNSignalToEPlus))
      (g : World) :
  obn_signal_to_eplus g <> EPSIG_NONE ->
  waitforOBNSignal timeout wakes g
  = Returned (obn_signal_to_eplus g) (log (EvWaitOBN (obn_signal_to_eplus g)) g).
Proof.
  intros H. unfold waitforOBNSignal. apply is_EPSIG_true in H. now rewrite H.
Qed.

(** X15.  The node-to-engine mailbox holds one signal: of two signals posted
    in a row the second is the one a wait returns, at once, whatever its
    time-out and whatever arrives later; waiting does not take the signal
    out, a second wait returns it again; only [resetOBNSignal] empties the
    mailbox, and resetting an empty mailbox leaves it empty. *)
Theorem posted_signal_stays_until_reset :
  forall (a s : OBNSignalToEPlus) (t1 t2 : Z)
         (wakes1 wakes2 : list (Wake OBNSignalToEPlus)) (g : World),
    s <> EPSIG_NONE ->
    exists g',
      (signalEPlus a ;;;
       signalEPlus s ;;;
       x <- waitforOBNSignal t1 wakes1 ;;
       y <- waitforOBNSignal t2 wakes2 ;;
       resetOBNSignal ;;;
       resetOBNSignal ;;;
       z <- getOBNSignal ;;
       ret (x, y, z)) g
      = Returned (s, s, EPSIG_NONE) g' /\
      obn_signal_to_eplus g' = EPSIG_NONE /\
      eplus_signal_to_obn g' = eplus_signal_to_obn g /\
      events_since g g'
      = [EvSignalEPlus a; EvSignalEPlus s; EvWaitOBN s; EvWaitOBN s;
         EvResetOBNSignal; EvResetOBNSignal].
Proof.
  intros a s t1 t2 wakes1 wakes2 g Hs.
  unfold bind at 1. unfold signalEPlus at 1.
  unfold bind at 1. unfold signalEPlus at 1.
  unfold bind at 1. rewrite waitforOBNSignal_present by exact Hs.
  unfold bind at 1. rewrite waitforOBNSignal_present by exact Hs.
  unfold bind, resetOBNSignal, getOBNSignal, ret.
  eexists. split; [reflexivity |]. cbn. repeat split.
  apply events_since_app. cbn. now rewrite <- !app_assoc.
Qed.

Lemma posted_signal_stays_until_reset_witness :
  exists g',
    (signalEPlus EPSIG_X ;;;
     signalEPlus EPSIG_TERM ;;;
     x <- waitforOBNSignal 0 [] ;;
     y <- waitforOBNSignal 7 wake_y ;;
     resetOBNSignal ;;;
     resetOBNSignal ;;;
     z <- getOBNSignal ;;
     ret (x, y, z)) initial_world
    = Returned (EPSIG_TERM, EPSIG_TERM, EPSIG_NONE) g' /\
    obn_signal_to_eplus g' = EPSIG_NONE /\
    eplus_signal_to_obn g' = eplus_signal_to_obn initial_world /\
    events_since initial_world g'
    = [EvSignalEPlus EPSIG_X; EvSignalEPlus EPSIG_TERM; EvWaitOBN EPSIG_TERM;
       EvWaitOBN EPSIG_TERM; EvResetOBNSignal; EvResetOBNSignal].
Proof.
  apply (posted_signal_stays_until_reset
           EPSIG_X EPSIG_TERM 0 7 [] wake_y initial_world).
  discriminate.
Defined.

(** A signal other than UPDATE_Y that is in the mailbox when the gateway is
    called decides the call, whatever the time-out and the wake-ups. *)
Lemma exchange_on_posted_signal (dflt flaWri nDblWri : Z) (dblValWri : list float)
      (out : Buffers) (wakes1 wakes2 : list (Wake OBNSignalToEPlus))
      (g : World) (th : EPlusOBNThread) :
  obn_thread g = Some th ->
  obn_signal_to_eplus g <> EPSIG_NONE ->
  obn_signal_to_eplus g <> EPSIG_Y ->
  exchangedoublewithOBN dflt flaWri nDblWri dblValWri out wakes1 wakes2 g
  = Returned (short_circuit (obn_signal_to_eplus g) (set_flaRea 0 out))
             (consumed (log (EvWaitOBN (obn_signal_to_eplus g)) g)).
Proof.
  intros Hth Hs Hy.
  now rewrite (exchange_other_signal_first
                 _ _ _ _ _ _ _ _ _ th _ Hth (waitforOBNSignal_present _ _ _ Hs) Hy).
Qed.

(** X16.  [onTermination] is a one-way notice: it never waits, and it puts
    TERMINATE on the node-to-engine mailbox over any signal not yet
    observed.  The next call of the gateway then returns at once, whatever
    its time-out, with status 0 and flag 1; it publishes nothing, reads
    nothing, acknowledges nothing, and leaves the mailbox empty. *)
Theorem onTermination_ends_the_next_exchange :
  forall (dflt flaWri nDblWri : Z) (dblValWri : list float) (out : Buffers)
         (wakes1 wakes2 : list (Wake OBNSignalToEPlus)) (g : World) (th : EPlusOBNThread),
    obn_thread g = Some th ->
    exists g1 out' g',
      onTermination g = Returned tt g1 /\
      obn_signal_to_eplus g1 = EPSIG_TERM /\
      exchangedoublewithOBN dflt flaWri nDblWri dblValWri out wakes1 wakes2 g1
      = Returned (0, out') g' /\
      flaRea out' = 1 /\
      nDblRea out' = nDblRea out /\
      dblValRea out' = dblValRea out /\
      simTimRea out' = simTimRea out /\
      obn_signal_to_eplus g' = EPSIG_NONE /\
      eplus_signal_to_obn g' = eplus_signal_to_obn g /\
      obn_thread g' = obn_thread g /\
      events_since g g'
      = [EvSignalEPlus EPSIG_TERM; EvWaitOBN EPSIG_TERM; EvResetOBNSignal].
Proof.
  intros dflt flaWri nDblWri dblValWri out wakes1 wakes2 g th Hth.
  unfold onTermination, signalEPlus.
  do 3 eexists. split; [reflexivity |]. split; [reflexivity |].
  rewrite (exchange_on_posted_signal _ _ _ _ _ _ _ _ th) by (cbn; congruence).
  split; [reflexivity |]. cbn. repeat split.
  apply events_since_app. cbn. now rewrite <- !app_assoc.
Qed.

Lemma onTermination_ends_the_next_exchange_witness :
  exists g1 out' g',
    onTermination (set_obn_signal_to_eplus EPSIG_X (running_world [3%float]))
    = Returned tt g1 /\
    obn_signal_to_eplus g1 = EPSIG_TERM /\
    exchangedoublewithOBN (-1) 0 2 [1%float; 2%float] sample_out [] [] g1
    = Returned (0, out') g' /\
    flaRea out' = 1 /\
    nDblRea out' = nDblRea sample_out /\
    dblValRea out' = dblValRea sample_out /\
    simTimRea out' = simTimRea sample_out /\
    obn_signal_to_eplus g' = EPSIG_NONE /\
    eplus_signal_to_obn g'
    = eplus_signal_to_obn (set_obn_signal_to_eplus EPSIG_X (running_world [3%float])) /\
    obn_thread g' = obn_thread (set_obn_signal_to_eplus EPSIG_X (running_world [3%float])) /\
    events_since (set_obn_signal_to_eplus EPSIG_X (running_world [3%float])) g'
    = [EvSignalEPlus EPSIG_TERM; EvWaitOBN EPSIG_TERM; EvResetOBNSignal].
Proof.
  apply (onTermination_ends_the_next_exchange
           (-1) 0 2 [1%float; 2%float] sample_out [] []
           (set_obn_signal_to_eplus EPSIG_X (running_world [3%float]))
           (mkThread true (sample_node [3%float])) eq_refl).
Defined.

(** X17.  The quit escalation reaches the engine, and the gateway does not
    answer it.  While an error callback waits for the engine, the next call
    of the gateway returns at once with status 0 and flag -1 and the node in
    state ERROR; it posts nothing on the engine-to-node mailbox, so the
    callback is still waiting when the gateway has returned, until the
    engine posts a signal with [signalOBN]. *)
Theorem quit_escalation_reaches_the_gateway :
  forall cb,
    In cb [onRawMessageError; onReadValueError; onSendMessageError; onOBNError] ->
    forall (dflt flaWri nDblWri : Z) (dblValWri : list float) (out : Buffers)
           (wakes1 wakes2 : list (Wake OBNSignalToEPlus))
           (wakes : list (Wake EPlusSignalToOBN)) (g : World) (th : EPlusOBNThread),
      obn_thread g = Some th ->
      Forall (fun v => seen v = OBNSIG_NONE) wakes ->
      exists gb out' g',
        cb wakes g = Blocked gb /\
        exchangedoublewithOBN dflt flaWri nDblWri dblValWri out wakes1 wakes2 gb
        = Returned (0, out') g' /\
        flaRea out' = -1 /\
        option_map (fun t => _node_state (m_obnnode t)) (obn_thread g') = Some NODE_ERROR /\
        obn_signal_to_eplus g' = EPSIG_NONE /\
        eplus_signal_to_obn g' = OBNSIG_NONE /\
        waitforEPlusSignal [] g' = Blocked g' /\
        forall sig,
          sig <> OBNSIG_NONE ->
          returned ((signalOBN sig ;;; waitforEPlusSignal []) g') = Some sig.
Proof.
  intros cb Hcb dflt flaWri nDblWri dblValWri out wakes1 wakes2 wakes g th Hth Hw.
  assert (Ecb : cb = onOBNError).
  { simpl in Hcb. destruct Hcb as [<- | [<- | [<- | [<- | []]]]]; reflexivity. }
  subst cb.
  destruct (error_callback_unfold wakes g th Hth) as (g3 & E & Hh & Hs & Hq & Hn).
  rewrite E. unfold bind at 1.
  rewrite waitforEPlusSignal_blocks by assumption.
  destruct (obn_thread g3) as [th3 |] eqn:Hth3; [| discriminate].
  exists g3. do 2 eexists. split; [reflexivity |].
  rewrite (exchange_on_posted_signal _ _ _ _ _ _ _ _ th3 Hth3)
    by (rewrite Hq; discriminate).
  rewrite Hq. split; [reflexivity |].
  cbn. rewrite Hth3, Hn. cbn in Hs. repeat split; try assumption.
  - apply waitforEPlusSignal_blocks; [cbn; exact Hn | constructor].
  - intros sig Hsig.
    unfold signalOBN, update_node, update_thread, this_thread, consumed, bind.
    cbn [obn_thread log set_eplus_signal_to_obn set_obn_signal_to_eplus].
    rewrite Hth3.
    destruct sig; try contradiction; cbn; rewrite ?Hth3; reflexivity.
Qed.

Lemma quit_escalation_reaches_the_gateway_witness :
  exists gb out' g',
    onSendMessageError [mkWake 3 OBNSIG_NONE] (running_world [])
    = Blocked gb /\
    exchangedoublewithOBN (-1) 0 2 [1%float; 2%float] sample_out [] [] gb
    = Returned (0, out') g' /\
    flaRea out' = -1 /\
    option_map (fun t => _node_state (m_obnnode t)) (obn_thread g') = Some NODE_ERROR /\
    obn_signal_to_eplus g' = EPSIG_NONE /\
    eplus_signal_to_obn g' = OBNSIG_NONE /\
    waitforEPlusSignal [] g' = Blocked g' /\
    forall sig,
      sig <> OBNSIG_NONE ->
      returned ((signalOBN sig ;;; waitforEPlusSignal []) g') = Some sig.
Proof.
  apply (quit_escalation_reaches_the_gateway
           onSendMessageError (or_intror (or_intror (or_introl eq_refl)))
           (-1) 0 2 [1%float; 2%float] sample_out [] [] [mkWake 3 OBNSIG_NONE]
           (running_world []) (mkThread true (sample_node [])) eq_refl).
  repeat constructor.
Defined.

(** ** The input port and the caller's array *)

(** X18.  [getInputValues] on the node returns 0 or -1, and -1 exactly when
    the input port holds more than NDBLMAX values.  The count it stores is
    always between 0 and NDBLMAX, so it never tells the caller to read past
    an array of NDBLMAX cells; such an array keeps its length, and of its
    cells only the first [count] are written.  An empty port gives status
    0, count 0 and an untouched array. *)
Theorem getInputValues_respects_the_capacity :
  forall (nDblRea0 : Z) (dblValRea0 : list float) (g : World) (th : EPlusOBNThread),
    obn_thread g = Some th ->
    let la := m_double_input (m_obnnode th) in
    exists status count vals g',
      getInputValues nDblRea0 dblValRea0 g = Returned (status, (count, vals)) g' /\
      (status = 0 \/ status = -1) /\
      (status = -1 <-> NDBLMAX < Z.of_nat (List.length la)) /\
      0 <= count <= NDBLMAX /\
      (status = 0 -> count = Z.of_nat (List.length la) /\
                     firstn (Z.to_nat count) vals = la) /\
      (status = -1 -> count = 0 /\ vals = dblValRea0) /\
      skipn (Z.to_nat count) vals = skipn (Z.to_nat count) dblValRea0 /\
      (NDBLMAX <= Z.of_nat (List.length dblValRea0) ->
       List.length vals = List.length dblValRea0) /\
      (la = [] -> status = 0 /\ count = 0 /\ vals = dblValRea0) /\
      obn_thread g' = obn_thread g /\
      events_since g g' = [EvGetInputValues status].
Proof.
  intros nDblRea0 dblValRea0 g th Hth la.
  unfold getInputValues, this_node, this_thread, record, ret, bind.
  rewrite Hth. fold la.
  destruct (Z.gtb_spec (Z.of_nat (List.length la)) NDBLMAX) as [Hbig | Hsmall].
  - do 4 eexists. split; [reflexivity |]. cbn [obn_thread log].
    unfold NDBLMAX in *.
    split; [now right |].
    split; [split; [intros _; exact Hbig | reflexivity] |].
    split; [lia |].
    split; [discriminate |].
    split; [now split |].
    split; [reflexivity |].
    split; [reflexivity |].
    split; [intros Hnil; rewrite Hnil in Hbig; cbn in Hbig; lia |].
    split; [exact Hth | now apply events_since_app].
  - assert (Hint : to_int (Z.of_nat (List.length la)) = Z.of_nat (List.length la))
      by (apply to_int_id; unfold INT_MIN, INT_MAX, NDBLMAX in *; lia).
    do 4 eexists. split; [reflexivity |]. cbn [obn_thread log]. rewrite Hint.
    rewrite Nat2Z.id.
    assert (Hcopy :
              firstn (List.length la)
                     (if Z.of_nat (List.length la) >? 0
                      then copy_n la (List.length la) dblValRea0 else dblValRea0) = la /\
              skipn (List.length la)
                    (if Z.of_nat (List.length la) >? 0
                     then copy_n la (List.length la) dblValRea0 else dblValRea0)
              = skipn (List.length la) dblValRea0).
    { destruct (Z.of_nat (List.length la) >? 0) eqn:Hpos; [apply copy_n_all |].
      destruct la; [now cbn | cbn in Hpos; discriminate]. }
    destruct Hcopy as [Hfirst Hskip].
    split; [now left |].
    split; [split; [discriminate | lia] |].
    split; [lia |].
    split; [intros _; now split |].
    split; [discriminate |].
    split; [exact Hskip |].
    split.
    { intros Hcap.
      rewrite <- (firstn_skipn (List.length la)
                               (if Z.of_nat (List.length la) >? 0
                                then copy_n la (List.length la) dblValRea0
                                else dblValRea0)).
      rewrite Hfirst, Hskip, length_app, length_skipn. unfold NDBLMAX in *. lia. }
    split; [intros Hnil; rewrite Hnil; now repeat split |].
    split; [exact Hth | now apply events_since_app].
Qed.

Lemma getInputValues_respects_the_capacity_witness :
  exists status count vals g',
    getInputValues 9 (repeat 0%float 1024) (running_world [3%float; 4%float])
    = Returned (status, (count, vals)) g' /\
    (status = 0 \/ status = -1) /\
    (status = -1 <-> NDBLMAX < Z.of_nat (List.length [3%float; 4%float])) /\
    0 <= count <= NDBLMAX /\
    (status = 0 -> count = Z.of_nat (List.length [3%float; 4%float]) /\
                   firstn (Z.to_nat count) vals = [3%float; 4%float]) /\
    (status = -1 -> count = 0 /\ vals = repeat 0%float 1024) /\
    skipn (Z.to_nat count) vals = skipn (Z.to_nat count) (repeat 0%float 1024) /\
    (NDBLMAX <= Z.of_nat (List.length (repeat 0%float 1024)) ->
     List.length vals = List.length (repeat 0%float 1024)) /\
    ([3%float; 4%float] = [] -> status = 0 /\ count = 0 /\ vals = repeat 0%float 1024) /\
    obn_thread g' = obn_thread (running_world [3%float; 4%float]) /\
    events_since (running_world [3%float; 4%float]) g' = [EvGetInputValues status].
Proof.
  apply (getInputValues_respects_the_capacity
           9 (repeat 0%float 1024) (running_world [3%float; 4%float])
           (mkThread true (sample_node [3%float; 4%float])) eq_refl).
Defined.

(** ** One acknowledgment, one callback *)

(** X19.  A DONE on the engine-to-node mailbox releases one step callback
    and no more: the callback that finds it returns at once and empties the
    mailbox, and the next callback waits.  Any other signal (TERM, EXIT) is
    left in place by the callbacks, so every callback that follows returns
    at once too, until the handler takes the signal. *)
Theorem done_releases_one_callback :
  forall cb1 posted1 cb2 posted2,
    In (cb1, posted1) [(onUpdateY, EPSIG_Y); (onUpdateX, EPSIG_X);
                       (onInitialization, EPSIG_START)] ->
    In (cb2, posted2) [(onUpdateY, EPSIG_Y); (onUpdateX, EPSIG_X);
                       (onInitialization, EPSIG_START)] ->
    forall (wakes : list (Wake EPlusSignalToOBN)) (g : World),
      eplus_signal_to_obn g <> OBNSIG_NONE ->
      exists g1,
        cb1 wakes g = Returned tt g1 /\
        obn_signal_to_eplus g1 = posted1 /\
        (eplus_signal_to_obn g = OBNSIG_DONE ->
         eplus_signal_to_obn g1 = OBNSIG_NONE /\
         exists gb, cb2 [] g1 = Blocked gb /\ obn_signal_to_eplus gb = posted2) /\
        (eplus_signal_to_obn g <> OBNSIG_DONE ->
         eplus_signal_to_obn g1 = eplus_signal_to_obn g /\
         exists g2, cb2 [] g1 = Returned tt g2 /\
                    eplus_signal_to_obn g2 = eplus_signal_to_obn g /\
                    returned (handleEPlusSignal g2)
                    = Some (match eplus_signal_to_obn g with
                            | OBNSIG_TERM | OBNSIG_EXIT => true
                            | _ => false
                            end)).
Proof.
  intros cb1 posted1 cb2 posted2 H1 H2 wakes g Hs.
  assert (E1 : cb1 = fun w => signalEPlus posted1 ;;;
                               sig <- waitforEPlusSignal w ;;
                               if EPlusSignalToOBN_eqb sig OBNSIG_DONE
                               then resetEPlusSignal else ret tt).
  { simpl in H1. destruct H1 as [E | [E | [E | []]]]; inversion E; reflexivity. }
  assert (E2 : cb2 = fun w => signalEPlus posted2 ;;;
                               sig <- waitforEPlusSignal w ;;
                               if EPlusSignalToOBN_eqb sig OBNSIG_DONE
                               then resetEPlusSignal else ret tt).
  { simpl in H2. destruct H2 as [E | [E | [E | []]]]; inversion E; reflexivity. }
  subst cb1 cb2.
  pose proof (step_callback_outcome posted1 wakes g) as O1. cbv zeta in O1.
  rewrite (waitforEPlusSignal_present wakes g Hs) in O1. cbn [returned] in O1.
  destruct O1 as (g1 & Ecb & Hp & He & _).
  exists g1. split; [exact Ecb |]. split; [exact Hp |].
  pose proof (step_callback_outcome posted2 [] g1) as O2. cbv zeta in O2.
  split.
  - intros Hd. rewrite Hd in He. cbn in He. split; [exact He |].
    rewrite (waitforEPlusSignal_blocks g1 [] He (Forall_nil _)) in O2. cbn [returned] in O2.
    destruct O2 as (gb & Eb & Hpb & _). now exists gb.
  - intros Hnd.
    assert (Hne : EPlusSignalToOBN_eqb (eplus_signal_to_obn g) OBNSIG_DONE = false).
    { destruct (EPlusSignalToOBN_eqb (eplus_signal_to_obn g) OBNSIG_DONE) eqn:Eq;
        [apply EPlusSignalToOBN_eqb_eq in Eq; contradiction | reflexivity]. }
    rewrite Hne in He. split; [exact He |].
    assert (Hs1 : eplus_signal_to_obn g1 <> OBNSIG_NONE) by now rewrite He.
    rewrite (waitforEPlusSignal_present [] g1 Hs1) in O2. cbn [returned] in O2.
    rewrite He, Hne in O2.
    destruct O2 as (g2 & E2 & _ & He2 & _).
    exists g2. split; [exact E2 |]. split; [exact He2 |].
    unfold handleEPlusSignal. rewrite He2.
    now destruct (eplus_signal_to_obn g).
Qed.

Lemma done_releases_one_callback_witness :
  exists g1,
    onUpdateX [] (set_eplus_signal_to_obn OBNSIG_DONE (running_world []))
    = Returned tt g1 /\
    obn_signal_to_eplus g1 = EPSIG_X /\
    (eplus_signal_to_obn (set_eplus_signal_to_obn OBNSIG_DONE (running_world []))
     = OBNSIG_DONE ->
     eplus_signal_to_obn g1 = OBNSIG_NONE /\
     exists gb, onUpdateY [] g1 = Blocked gb /\ obn_signal_to_eplus gb = EPSIG_Y) /\
    (eplus_signal_to_obn (set_eplus_signal_to_obn OBNSIG_DONE (running_world []))
     <> OBNSIG_DONE ->
     eplus_signal_to_obn g1
     = eplus_signal_to_obn (set_eplus_signal_to_obn OBNSIG_DONE (running_world [])) /\
     exists g2, onUpdateY [] g1 = Returned tt g2 /\
                eplus_signal_to_obn g2
                = eplus_signal_to_obn
                    (set_eplus_signal_to_obn OBNSIG_DONE (running_world [])) /\
                returned (handleEPlusSignal g2)
                = Some (match eplus_signal_to_obn
                                (set_eplus_signal_to_obn OBNSIG_DONE (running_world []))
                        with
                        | OBNSIG_TERM | OBNSIG_EXIT => true
                        | _ => false
                        end)).
Proof.
  apply (done_releases_one_callback
           onUpdateX EPSIG_X onUpdateY EPSIG_Y
           (or_intror (or_introl eq_refl)) (or_introl eq_refl)
           [] (set_eplus_signal_to_obn OBNSIG_DONE (running_world []))).
  discriminate.
Defined.

(** ** The time-out option *)


Lemma strtol_range (s : string) : LONG_MIN <= strtol s <= LONG_MAX.
Proof. unfold strtol, LONG_MIN, LONG_MAX. cbv zeta. lia. Qed.


(** [atoi] on numbers inside and outside [int]. *)
Lemma atoi_samples :
  atoi "5" = 5 /\
  atoi "  -12 s" = -12 /\
  atoi "+7" = 7 /\
  atoi "five" = 0 /\
  atoi "2147483647" = INT_MAX /\
  atoi "2147483648" = INT_MIN /\
  atoi "-2147483649" = INT_MAX /\
  atoi "99999999999999999999" = -1.
Proof. repeat split. Qed.


